(** * news-bot: the ingestion-to-briefing pipeline

    A shallow embedding of the pipeline services of the news-bot backend
    (ingesters, embedder, deduplicator, scorer, briefing composer) together
    with the properties the specification states about them.

    Conventions of the model.
    - The relational store is a record of tables, each a list of rows in
      insertion order.  Primary keys generated by the database
      ([gen_random_uuid()]) are drawn from a counter kept in the store.
    - A [datetime] is a number of microseconds since the epoch, UTC.
    - Python floats are idealised as rationals ([Q]).
    - A database or Python exception is an explicit error result; a
      session that is left without commit leaves the store as it was.
    - External parties (HTTP endpoints, the LLM, the random generator)
      are inputs of the functions that consult them.
    - Where the code leaves a decision to the database (whether a row is
      accepted at flush, which row a [LIMIT 1] without [ORDER BY]
      returns), the decision is read from the store's [dbms]. *)

From Stdlib Require Import ZArith QArith Qminmax Qabs Qround List String Ascii Bool.
From Stdlib Require Import Arith Lia Lqa DecimalString Sorted Permutation.
Import ListNotations.

Set Warnings "-abstract-large-number".
Close Scope Q_scope.

(* ================================================================== *)
(** * Python and SQL helpers *)
(* ================================================================== *)

Module Py.

(** Truthiness of an optional string: [None] and [""] are falsy. *)
Definition truthy (o : option string) : bool :=
  match o with
  | Some s => negb (String.eqb s EmptyString)
  | None => false
  end.

(** [a or b]. *)
Definition or_else (a b : option string) : option string :=
  if truthy a then a else b.

(** [xs[:n]] on a list; a negative bound counts from the end. *)
Definition slice_to {A : Type} (n : Z) (xs : list A) : list A :=
  if (0 <=? n)%Z then firstn (Z.to_nat n) xs
  else firstn (List.length xs - Z.to_nat (- n)) xs.

(** [s[:n]] on a string, for a literal bound [n >= 0]. *)
Definition str_slice_to (n : nat) (s : string) : string := substring 0 n s.

(** [str.isspace] on the ASCII range. *)
Definition is_space (c : ascii) : bool :=
  let n := nat_of_ascii c in
  ((n =? 32) || ((9 <=? n) && (n <=? 13)) || ((28 <=? n) && (n <=? 31)))%nat.

Fixpoint lstrip (s : string) : string :=
  match s with
  | EmptyString => EmptyString
  | String c s' => if is_space c then lstrip s' else s
  end.

Fixpoint rstrip (s : string) : string :=
  match s with
  | EmptyString => EmptyString
  | String c s' =>
      match rstrip s' with
      | EmptyString => if is_space c then EmptyString else String c EmptyString
      | r => String c r
      end
  end.

(** [s.strip()]. *)
Definition strip (s : string) : string := rstrip (lstrip s).

(** [s.startswith(p)]. *)
Definition startswith (p s : string) : bool := String.prefix p s.

(** [str(n)] for an integer. *)
Definition str_of_Z (z : Z) : string := NilZero.string_of_int (Z.to_int z).

(** [max(0.0, min(1.0, x))]. *)
Definition clip01 (x : Q) : Q := Qmax 0%Q (Qmin 1%Q x).

(** A string of [n] copies of [c]. *)
Fixpoint replicate (n : nat) (c : ascii) : string :=
  match n with
  | O => EmptyString
  | S k => String c (replicate k c)
  end.

End Py.

(* ================================================================== *)
(** * Data model (app/db/models.py) *)
(* ================================================================== *)

Definition UUID := nat.
Definition datetime := Z.

Definition microseconds_per_hour : Z := 3600000000%Z.
Definition timedelta_hours (h : Z) : Z := (h * microseconds_per_hour)%Z.
Definition timedelta_days (d : Z) : Z := timedelta_hours (24 * d)%Z.

Inductive SourceType := RSS | API_HN | API_REDDIT | API_X | SCRAPE.
Inductive ItemKind := ARTICLE | POST | COMMENT | TWEET | UNKNOWN.
Inductive ClusterStatus := OPEN | MERGED | ARCHIVED.

Definition ClusterStatus_eqb (a b : ClusterStatus) : bool :=
  match a, b with
  | OPEN, OPEN | MERGED, MERGED | ARCHIVED, ARCHIVED => true
  | _, _ => false
  end.

(** The keys of [Source.source_metadata] the ingesters read. *)
Record SourceMetadata := {
  story_type : option string;
  subreddit : option string;
  sort : option string;
  time_filter : option string
}.

Record Source := {
  source_id : UUID;
  source_name : string;
  source_type : SourceType;
  source_url : option string;
  source_metadata : SourceMetadata;
  source_category : option string;
  source_enabled : bool;
  credibility_tier : Z
}.

(** [raw_payload] is a JSON object whose keys depend on the ingester that
    wrote it; each variant carries the keys that later stages look up.
    ["hn_id" in payload] holds exactly for [PayloadHN], ["reddit_id" in
    payload] exactly for [PayloadReddit]. *)
Inductive Payload :=
| PayloadEmpty
| PayloadFeed (entry_id entry_guid : option string)
| PayloadHN (hn_id : Z) (hn_score : Z) (hn_type : option string)
| PayloadReddit (reddit_id : string) (reddit_score : Z)
                (upvote_ratio : Q) (is_self : bool).

(** Columns [author], [lang], [canonical_url] and [content_hash] are
    written once by the ingester and read by no stage modelled here;
    they are left out. *)
Record RawItem := {
  raw_id : UUID;
  raw_source_id : UUID;
  raw_external_id : option string;
  raw_kind : ItemKind;
  raw_title : option string;
  raw_url : option string;
  raw_published_at : option datetime;
  raw_fetched_at : datetime;
  raw_payload : Payload;
  raw_text : option string;
  raw_status : string
}.

Record ExtractedContent := {
  ec_raw_item_id : UUID;
  ec_text : string
}.

Definition Vector := list Q.

Record ItemEmbedding := {
  emb_raw_item_id : UUID;
  embed_model : string;
  emb_dim : nat;
  embedding : Vector
}.

Record Cluster := {
  cluster_id : UUID;
  canonical_item_id : UUID;
  cluster_status : ClusterStatus;
  cluster_created_at : datetime
}.

Record ClusterMember := {
  cm_cluster_id : UUID;
  cm_raw_item_id : UUID;
  is_canonical : bool;
  similarity : option Q
}.

Record ItemScore := {
  score_raw_item_id : UUID;
  computed_at : datetime;
  relevance_score : Q;
  novelty_score : Q;
  velocity_score : Q;
  cross_source_score : Q;
  signal_score : Q;
  meta_ai_scored : bool
}.

Inductive Scope := ScopeGlobal | ScopeUser (u : UUID).

(** One line of the template briefing; the date and the score are kept
    as values rather than as their printed form. *)
Inductive MdLine :=
| MdText (s : string)
| MdGenerated (day : datetime)
| MdItemHeading (rank : nat) (title : option string)
| MdSourceScore (source : string) (score : Q)
| MdSnippet (s : string)
| MdReadMore (url : option string).

Inductive Markdown :=
| MdFromLLM (text : string)
| MdTemplate (lines : list MdLine).

Record Briefing := {
  briefing_id : UUID;
  scope : Scope;
  period_start : datetime;
  period_end : datetime;
  summary_md : Markdown
}.

Record BriefingItem := {
  bi_briefing_id : UUID;
  bi_rank : nat;
  bi_raw_item_id : option UUID;
  bi_title : option string;
  one_liner : string;
  why_it_matters : string;
  confidence : string;
  bi_signal_score : Q;
  bi_sources : list string
}.

Record User := {
  user_id : UUID;
  is_active : bool
}.

Record UserPreference := {
  pref_user_id : UUID;
  topics : list string
}.

(** What the database decides where the code leaves it open. *)
Record Dbms := {
  (** the [INSERT] of a new row of [raw_items] is accepted; when it is
      not (a text the encoding cannot hold, for instance), the flush
      raises *)
  accepts_raw_item : RawItem -> bool;
  (** for a [LIMIT 1] without [ORDER BY] over [cluster_members]: the
      position, among the matching rows in insertion order, of the row
      that comes back (taken modulo their number) *)
  limit_one_choice : list ClusterMember -> nat
}.

(** A database that accepts every row and returns rows in insertion
    order. *)
Definition lenient_dbms : Dbms :=
  {| accepts_raw_item := fun _ => true;
     limit_one_choice := fun _ => 0 |}.

(** The database. *)
Record Store := {
  sources : list Source;
  raw_items : list RawItem;
  extracted_content : list ExtractedContent;
  item_embeddings : list ItemEmbedding;
  clusters : list Cluster;
  cluster_members : list ClusterMember;
  item_scores : list ItemScore;
  briefings : list Briefing;
  briefing_items : list BriefingItem;
  users : list User;
  user_preferences : list UserPreference;
  next_uuid : UUID;
  dbms : Dbms
}.

Definition empty_store : Store :=
  {| sources := []; raw_items := []; extracted_content := [];
     item_embeddings := []; clusters := []; cluster_members := [];
     item_scores := []; briefings := []; briefing_items := [];
     users := []; user_preferences := []; next_uuid := 0;
     dbms := lenient_dbms |}.

Module Db.

Definition set_raw_items (s : Store) (l : list RawItem) : Store :=
  {| sources := sources s; raw_items := l;
     extracted_content := extracted_content s;
     item_embeddings := item_embeddings s; clusters := clusters s;
     cluster_members := cluster_members s; item_scores := item_scores s;
     briefings := briefings s; briefing_items := briefing_items s;
     users := users s; user_preferences := user_preferences s;
     next_uuid := next_uuid s;
     dbms := dbms s |}.

Definition set_item_embeddings (s : Store) (l : list ItemEmbedding) : Store :=
  {| sources := sources s; raw_items := raw_items s;
     extracted_content := extracted_content s;
     item_embeddings := l; clusters := clusters s;
     cluster_members := cluster_members s; item_scores := item_scores s;
     briefings := briefings s; briefing_items := briefing_items s;
     users := users s; user_preferences := user_preferences s;
     next_uuid := next_uuid s;
     dbms := dbms s |}.

Definition set_clusters (s : Store) (l : list Cluster) : Store :=
  {| sources := sources s; raw_items := raw_items s;
     extracted_content := extracted_content s;
     item_embeddings := item_embeddings s; clusters := l;
     cluster_members := cluster_members s; item_scores := item_scores s;
     briefings := briefings s; briefing_items := briefing_items s;
     users := users s; user_preferences := user_preferences s;
     next_uuid := next_uuid s;
     dbms := dbms s |}.

Definition set_cluster_members (s : Store) (l : list ClusterMember) : Store :=
  {| sources := sources s; raw_items := raw_items s;
     extracted_content := extracted_content s;
     item_embeddings := item_embeddings s; clusters := clusters s;
     cluster_members := l; item_scores := item_scores s;
     briefings := briefings s; briefing_items := briefing_items s;
     users := users s; user_preferences := user_preferences s;
     next_uuid := next_uuid s;
     dbms := dbms s |}.

Definition set_item_scores (s : Store) (l : list ItemScore) : Store :=
  {| sources := sources s; raw_items := raw_items s;
     extracted_content := extracted_content s;
     item_embeddings := item_embeddings s; clusters := clusters s;
     cluster_members := cluster_members s; item_scores := l;
     briefings := briefings s; briefing_items := briefing_items s;
     users := users s; user_preferences := user_preferences s;
     next_uuid := next_uuid s;
     dbms := dbms s |}.

Definition set_briefings (s : Store) (l : list Briefing) : Store :=
  {| sources := sources s; raw_items := raw_items s;
     extracted_content := extracted_content s;
     item_embeddings := item_embeddings s; clusters := clusters s;
     cluster_members := cluster_members s; item_scores := item_scores s;
     briefings := l; briefing_items := briefing_items s;
     users := users s; user_preferences := user_preferences s;
     next_uuid := next_uuid s;
     dbms := dbms s |}.

Definition set_briefing_items (s : Store) (l : list BriefingItem) : Store :=
  {| sources := sources s; raw_items := raw_items s;
     extracted_content := extracted_content s;
     item_embeddings := item_embeddings s; clusters := clusters s;
     cluster_members := cluster_members s; item_scores := item_scores s;
     briefings := briefings s; briefing_items := l;
     users := users s; user_preferences := user_preferences s;
     next_uuid := next_uuid s;
     dbms := dbms s |}.

(** Draw a fresh primary key. *)
Definition fresh (s : Store) : UUID * Store :=
  (next_uuid s,
   {| sources := sources s; raw_items := raw_items s;
      extracted_content := extracted_content s;
      item_embeddings := item_embeddings s; clusters := clusters s;
      cluster_members := cluster_members s; item_scores := item_scores s;
      briefings := briefings s; briefing_items := briefing_items s;
      users := users s; user_preferences := user_preferences s;
      next_uuid := S (next_uuid s);
      dbms := dbms s |}).

(** [update(RawItem).where(RawItem.id == id).values(status=st)]. *)
Definition with_status (r : RawItem) (st : string) : RawItem :=
  {| raw_id := raw_id r; raw_source_id := raw_source_id r;
     raw_external_id := raw_external_id r; raw_kind := raw_kind r;
     raw_title := raw_title r; raw_url := raw_url r;
     raw_published_at := raw_published_at r;
     raw_fetched_at := raw_fetched_at r; raw_payload := raw_payload r;
     raw_text := raw_text r; raw_status := st |}.

Definition update_status (id : UUID) (st : string) (s : Store) : Store :=
  set_raw_items s
    (map (fun r => if Nat.eqb (raw_id r) id then with_status r st else r)
         (raw_items s)).

(** [select(T).where(p)] followed by [scalar_one_or_none()]: the row,
    nothing, or [MultipleResultsFound]. *)
Inductive OneOrNone (A : Type) := NoRow | OneRow (a : A) | ManyRows.
Arguments NoRow {A}.
Arguments OneRow {A} a.
Arguments ManyRows {A}.

Definition scalar_one_or_none {A : Type} (rows : list A) : OneOrNone A :=
  match rows with
  | [] => NoRow
  | [a] => OneRow a
  | _ => ManyRows
  end.

Definition find_source (s : Store) (id : UUID) : option Source :=
  find (fun src => Nat.eqb (source_id src) id) (sources s).

Definition find_raw_item (s : Store) (id : UUID) : option RawItem :=
  find (fun r => Nat.eqb (raw_id r) id) (raw_items s).

End Db.

(* ================================================================== *)
(** * Configuration (app/core/config.py) *)
(* ================================================================== *)

Record Settings := {
  OPENAI_API_KEY : option string;
  MAX_ITEMS_PER_SOURCE : Z;
  AI_SCORING_ENABLED : bool;
  BRIEFING_NUM_ITEMS : Z
}.

Definition default_settings : Settings :=
  {| OPENAI_API_KEY := None;
     MAX_ITEMS_PER_SOURCE := 100%Z;
     AI_SCORING_ENABLED := true;
     BRIEFING_NUM_ITEMS := 10%Z |}.

(* ================================================================== *)
(** * Ingesters (app/services/ingestion) *)
(* ================================================================== *)

Module Ingestion.

Record NormalizedItem := {
  ni_external_id : string;
  ni_url : string;
  ni_title : string;
  ni_kind : ItemKind;
  ni_raw_text : option string;
  ni_published_at : option datetime;
  ni_raw_payload : Payload
}.

(** The answer of an HTTP request followed by [raise_for_status()] and
    the decoding of the body. *)
Inductive Http (A : Type) := HttpError (msg : string) | HttpOk (body : A).
Arguments HttpError {A} msg.
Arguments HttpOk {A} body.

(** What [fetch] hands to [ingest]: a list of items, or an exception. *)
Inductive FetchOutcome :=
| FetchRaised (msg : string)
| Fetched (items : list NormalizedItem).

(** Keep the results that are not [None], in order:
    [item = parse(x); if item: items.append(item)]. *)
Fixpoint collect {A B : Type} (f : A -> option B) (l : list A) : list B :=
  match l with
  | [] => []
  | x :: r => match f x with
              | Some y => y :: collect f r
              | None => collect f r
              end
  end.

Definition or_empty (o : option string) : string :=
  match o with Some s => s | None => EmptyString end.

(** ** RSS / Atom (rss.py) *)

(** A feedparser entry, with the keys [_parse_entry] reads.  A date key
    holds [Some None] when the key is set and its conversion raises. *)
Record FeedEntry := {
  fe_id : option string;
  fe_guid : option string;
  fe_link : option string;
  fe_title : option string;
  fe_summary : option string;
  fe_description : option string;
  fe_published_parsed : option (option datetime);
  fe_updated_parsed : option (option datetime);
  fe_created_parsed : option (option datetime);
  fe_published : option (option datetime);
  fe_updated : option (option datetime);
  fe_created : option (option datetime)
}.

(** [for date_field in [...]: if entry.get(date_field): try: ...; break]. *)
Fixpoint first_date (fields : list (option (option datetime)))
  : option datetime :=
  match fields with
  | [] => None
  | Some (Some d) :: _ => Some d
  | _ :: rest => first_date rest
  end.

Definition _parse_entry (entry : FeedEntry) : option NormalizedItem :=
  let external_id :=
    Py.or_else (Py.or_else (fe_id entry) (fe_guid entry)) (fe_link entry) in
  if negb (Py.truthy external_id) then None else
  let url := fe_link entry in
  if negb (Py.truthy url) then None else
  let title := Py.strip (or_empty (fe_title entry)) in
  if String.eqb title EmptyString then None else
  let raw_text :=
    if Py.truthy (fe_summary entry)
    then Some (Py.str_slice_to 2000 (or_empty (fe_summary entry)))
    else if Py.truthy (fe_description entry)
    then Some (Py.str_slice_to 2000 (or_empty (fe_description entry)))
    else None in
  let published_at :=
    match first_date [fe_published_parsed entry; fe_updated_parsed entry;
                      fe_created_parsed entry] with
    | Some d => Some d
    | None => first_date [fe_published entry; fe_updated entry;
                          fe_created entry]
    end in
  Some {| ni_external_id := or_empty external_id;
          ni_url := or_empty url;
          ni_title := title;
          ni_kind := ARTICLE;
          ni_raw_text := raw_text;
          ni_published_at := published_at;
          ni_raw_payload := PayloadFeed (fe_id entry) (fe_guid entry) |}.

(** [RSSIngester.fetch]: the entries of the parsed feed, or an HTTP
    error.  The bound on the entries is the literal [100]. *)
Definition rss_fetch (feed : Http (list FeedEntry)) : FetchOutcome :=
  match feed with
  | HttpError msg => FetchRaised msg
  | HttpOk entries => Fetched (collect _parse_entry (firstn 100 entries))
  end.

(** ** Hacker News (hackernews.py) *)

Record HNStory := {
  st_type : option string;
  st_deleted : bool;
  st_dead : bool;
  st_title : option string;
  st_url : option string;
  st_text : option string;
  st_time : option Z;
  st_score : option Z
}.

(** [/v0/item/{id}.json]: a failed request, [null], or a story. *)
Inductive StoryResponse :=
| StoryFailed
| StoryNull
| StoryJson (story : HNStory).

Record HNApi := {
  hn_listing : string -> Http (list Z);
  hn_item : Z -> StoryResponse
}.

Definition HN_ITEM_URL : string := "https://news.ycombinator.com/item?id=".

Definition _fetch_story (api : HNApi) (story_id : Z) : option NormalizedItem :=
  match hn_item api story_id with
  | StoryFailed => None
  | StoryNull => None
  | StoryJson story =>
      if negb (match st_type story with
               | Some t => String.eqb t "story"
               | None => false
               end) then None else
      if st_deleted story || st_dead story then None else
      let title := Py.strip (or_empty (st_title story)) in
      if String.eqb title EmptyString then None else
      let item_url :=
        if Py.truthy (st_url story) then or_empty (st_url story)
        else String.append HN_ITEM_URL (Py.str_of_Z story_id) in
      let kind :=
        if Py.startswith "Ask HN:" title || Py.startswith "Tell HN:" title
        then POST
        else if Py.startswith "Show HN:" title then POST
        else ARTICLE in
      let published_at :=
        match st_time story with
        | Some t => if Z.eqb t 0 then None else Some (t * 1000000)%Z
        | None => None
        end in
      Some {| ni_external_id := Py.str_of_Z story_id;
              ni_url := item_url;
              ni_title := title;
              ni_kind := kind;
              ni_raw_text := st_text story;
              ni_published_at := published_at;
              ni_raw_payload :=
                PayloadHN story_id
                          (match st_score story with Some n => n | None => 0%Z end)
                          (st_type story) |}
  end.

Definition hn_fetch (cfg : Settings) (api : HNApi) (source : Source)
  : FetchOutcome :=
  let max_items := MAX_ITEMS_PER_SOURCE cfg in
  let story_type :=
    match story_type (source_metadata source) with
    | Some t => t
    | None => "top"%string
    end in
  match hn_listing api story_type with
  | HttpError msg => FetchRaised msg
  | HttpOk ids =>
      let story_ids := Py.slice_to max_items ids in
      Fetched (collect (_fetch_story api) story_ids)
  end.

(** ** Reddit (reddit.py) *)

Record RedditPost := {
  p_id : option string;
  p_title : option string;
  p_removed_by_category : option string;
  p_removed : bool;
  p_url : option string;
  p_permalink : option string;
  p_is_self : bool;
  p_selftext : option string;
  p_created_utc : option Z;
  p_score : option Z;
  p_upvote_ratio : option Q
}.

(** The two listing endpoints answer a request for a subreddit, a sort
    order and a [limit] parameter; how many children come back is the
    remote side's decision. *)
Record RedditApi := {
  reddit_token : option string;
  reddit_oauth : string -> string -> Z -> Http (list RedditPost);
  reddit_public : string -> string -> Z -> Http (list RedditPost)
}.

Definition _parse_post (post : RedditPost) : option NormalizedItem :=
  if negb (Py.truthy (p_id post)) then None else
  let title := Py.strip (or_empty (p_title post)) in
  if String.eqb title EmptyString then None else
  if Py.truthy (p_removed_by_category post) || p_removed post then None else
  let permalink_url :=
    String.append "https://reddit.com" (or_empty (p_permalink post)) in
  let url :=
    if negb (Py.truthy (p_url post))
       || Py.startswith "/r/" (or_empty (p_url post))
    then permalink_url else or_empty (p_url post) in
  let kind :=
    if negb (p_is_self post) && Py.truthy (p_url post)
    then ARTICLE else POST in
  let raw_text :=
    if Py.truthy (p_selftext post)
    then Some (Py.str_slice_to 2000 (or_empty (p_selftext post)))
    else None in
  let published_at :=
    match p_created_utc post with
    | Some t => if Z.eqb t 0 then None else Some (t * 1000000)%Z
    | None => None
    end in
  Some {| ni_external_id := or_empty (p_id post);
          ni_url := url;
          ni_title := title;
          ni_kind := kind;
          ni_raw_text := raw_text;
          ni_published_at := published_at;
          ni_raw_payload :=
            PayloadReddit (or_empty (p_id post))
                          (match p_score post with Some n => n | None => 0%Z end)
                          (match p_upvote_ratio post with
                           | Some r => r
                           | None => 0%Q
                           end)
                          (p_is_self post) |}.

(** [url.split("/r/")[1].split("/")[0]] when ["/r/" in url]. *)
Fixpoint until_slash (s : string) : string :=
  match s with
  | EmptyString => EmptyString
  | String c r =>
      if Ascii.eqb c "/"%char then EmptyString else String c (until_slash r)
  end.

Definition subreddit_of_url (url : string) : option string :=
  match String.index 0 "/r/" url with
  | Some i =>
      Some (until_slash (substring (i + 3) (String.length url) url))
  | None => None
  end.

Definition _fetch_unauthenticated (cfg : Settings) (api : RedditApi)
  (sub sort_by : string) : FetchOutcome :=
  match reddit_public api sub sort_by (Z.min 25 (MAX_ITEMS_PER_SOURCE cfg)) with
  | HttpError msg => FetchRaised msg
  | HttpOk children => Fetched (collect _parse_post children)
  end.

Definition reddit_fetch (cfg : Settings) (api : RedditApi) (source : Source)
  : FetchOutcome :=
  let from_meta := subreddit (source_metadata source) in
  let sub :=
    if Py.truthy from_meta then from_meta
    else subreddit_of_url (or_empty (source_url source)) in
  match sub with
  | None => Fetched []
  | Some sub =>
      let sort_by :=
        match sort (source_metadata source) with
        | Some o => o
        | None => "hot"%string
        end in
      match reddit_token api with
      | None => _fetch_unauthenticated cfg api sub sort_by
      | Some _ =>
          match reddit_oauth api sub sort_by (MAX_ITEMS_PER_SOURCE cfg) with
          | HttpError msg => FetchRaised msg
          | HttpOk children => Fetched (collect _parse_post children)
          end
      end
  end.

(** ** The shared base (base.py) *)

(** The outside world as one ingest run sees it. *)
Record World := {
  w_feed : Source -> Http (list FeedEntry);
  w_hn : HNApi;
  w_reddit : RedditApi
}.

(** [IngestionService.ingesters]: the [fetch] of the ingester registered
    for a source type. *)
Definition fetch_for (cfg : Settings) (w : World) (t : SourceType)
  : option (Source -> FetchOutcome) :=
  match t with
  | RSS => Some (fun source => rss_fetch (w_feed w source))
  | API_HN => Some (hn_fetch cfg (w_hn w))
  | API_REDDIT => Some (reddit_fetch cfg (w_reddit w))
  | API_X | SCRAPE => None
  end.

Inductive IngestResult :=
| IngestError (msg : string)
| IngestSkipped (reason : string)
| IngestDone (items_fetched items_inserted : nat).

Definition items_inserted_of (r : IngestResult) : nat :=
  match r with
  | IngestDone _ n => n
  | _ => 0
  end.

(** [select(RawItem.id).where(source_id == sid, external_id == ext)]
    returns a row. *)
Definition same_key (sid : UUID) (ext : string) (r : RawItem) : bool :=
  Nat.eqb (raw_source_id r) sid
  && match raw_external_id r with
     | Some e => String.eqb e ext
     | None => false
     end.

Definition already_present (s : Store) (sid : UUID) (ext : string) : bool :=
  existsb (same_key sid ext) (raw_items s).

Definition new_raw_item (id : UUID) (now : datetime) (sid : UUID)
  (item : NormalizedItem) : RawItem :=
  {| raw_id := id;
     raw_source_id := sid;
     raw_external_id := Some (ni_external_id item);
     raw_kind := ni_kind item;
     raw_title := Some (ni_title item);
     raw_url := Some (ni_url item);
     raw_published_at := ni_published_at item;
     raw_fetched_at := now;
     raw_payload := ni_raw_payload item;
     raw_text := ni_raw_text item;
     raw_status := "new" |}.

(** [session.add(raw_item); await session.flush()]; [None] when the
    database refuses the row and the flush raises. *)
Definition insert_raw_item (now : datetime) (sid : UUID) (s : Store)
  (item : NormalizedItem) : option Store :=
  let (id, s1) := Db.fresh s in
  let raw_item := new_raw_item id now sid item in
  if accepts_raw_item (dbms s) raw_item
  then Some (Db.set_raw_items s1 (raw_items s1 ++ [raw_item]))
  else None.

(** One turn of the storing loop, on the session's view of the store and
    [inserted_count].  [committed] is the store as the last commit left
    it, which is the store the run started from: when the insert raises,
    [session.rollback()] goes back to it and so discards every row the
    run has flushed so far, while [inserted_count] keeps counting
    them. *)
Definition ingest_item (now : datetime) (sid : UUID) (committed : Store)
  (acc : Store * nat) (item : NormalizedItem) : Store * nat :=
  if already_present (fst acc) sid (ni_external_id item) then acc
  else
    match insert_raw_item now sid (fst acc) item with
    | Some s1 => (s1, S (snd acc))
    | None => (committed, snd acc)
    end.

(** [BaseIngester.ingest], for the ingester whose [fetch] is given. *)
Definition ingest (now : datetime) (fetch : Source -> FetchOutcome)
  (s : Store) (sid : UUID) : Store * IngestResult :=
  match Db.find_source s sid with
  | None => (s, IngestError "Source not found")
  | Some source =>
      if negb (source_enabled source) then (s, IngestSkipped "disabled")
      else
        match fetch source with
        | FetchRaised msg => (s, IngestError msg)
        | Fetched items =>
            let (s', inserted_count) :=
              fold_left (ingest_item now sid s) items (s, 0) in
            (s', IngestDone (List.length items) inserted_count)
        end
  end.

(** [IngestionService.ingest_source]. *)
Definition ingest_source (cfg : Settings) (w : World) (now : datetime)
  (s : Store) (sid : UUID) : Store * IngestResult :=
  match Db.find_source s sid with
  | None => (s, IngestError "Source not found")
  | Some source =>
      match fetch_for cfg w (source_type source) with
      | None => (s, IngestError "No ingester for source type")
      | Some fetch => ingest now fetch s sid
      end
  end.

(** One turn of the loop of [IngestionService.ingest_all], on the store
    and the running [items_ingested]. *)
Definition ingest_all_step (cfg : Settings) (w : World) (now : datetime)
  (acc : Store * nat) (source : Source) : Store * nat :=
  match fetch_for cfg w (source_type source) with
  | None => acc
  | Some fetch =>
      let (s', result) := ingest now fetch (fst acc) (source_id source) in
      (s', snd acc + items_inserted_of result)
  end.

(** [IngestionService.ingest_all]: the ingest stage. *)
Definition ingest_all (cfg : Settings) (w : World) (now : datetime)
  (s : Store) : Store * nat :=
  fold_left (ingest_all_step cfg w now)
            (filter source_enabled (sources s)) (s, 0).

(** A [RawItem] row with the key [(sid, ext)]. *)
Definition has_key (sid : UUID) (ext : string) (r : RawItem) : Prop :=
  raw_source_id r = sid /\ raw_external_id r = Some ext.



End Ingestion.

(* ================================================================== *)
(** * Scorer (app/services/scoring/service.py) *)
(* ================================================================== *)

Module Scoring.

(** [ScoringService.WEIGHTS]. *)
Definition W_relevance : Q := 0.40%Q.
Definition W_velocity : Q := 0.20%Q.
Definition W_cross_source : Q := 0.20%Q.
Definition W_novelty : Q := 0.20%Q.

(** [ScoringService.high_signal_threshold]. *)
Definition high_signal_threshold : Q := 0.6%Q.

(** What the LLM call of [_compute_relevance_ai] comes back with: an
    exception, a JSON object with an ["error"] key, or a JSON object
    whose ["score"] key may be missing. *)
Inductive AiReply :=
| AiRaised
| AiErrorResult
| AiJson (score : option Q).

(** The LLM side: whether [get_ai_client()] succeeds, and the reply to
    the relevance prompt of an item. *)
Record AiEnv := {
  ai_client_available : bool;
  ai_relevance : RawItem -> Source -> AiReply
}.

Definition no_ai : AiEnv :=
  {| ai_client_available := false;
     ai_relevance := fun _ _ => AiRaised |}.

(** [_get_ai_client() is not None]. *)
Definition _get_ai_client (cfg : Settings) (ai : AiEnv) : bool :=
  AI_SCORING_ENABLED cfg && ai_client_available ai.

(** [_compute_relevance_ai]; [None] when it raises. *)
Definition _compute_relevance_ai (ai : AiEnv) (item : RawItem)
  (source : Source) : option Q :=
  match ai_relevance ai item source with
  | AiRaised => None
  | AiErrorResult => None
  | AiJson score =>
      let ai_score :=
        (match score with Some x => x | None => 5%Q end / 10)%Q in
      Some (Py.clip01 ai_score)
  end.

(** [_compute_relevance_heuristic]; [None] when [len(item.title)] raises
    on a missing title. *)
Definition _compute_relevance_heuristic (item : RawItem) (source : Source)
  : option Q :=
  let score := (inject_Z (credibility_tier source) / 5)%Q in
  let score :=
    if match raw_text item with
       | Some t => negb (String.eqb t EmptyString)
                   && (200 <? String.length t)%nat
       | None => false
       end
    then (score + 0.1)%Q else score in
  match raw_title item with
  | None => None
  | Some title =>
      let score :=
        if (String.length title <? 20)%nat then (score - 0.1)%Q else score in
      Some (Py.clip01 score)
  end.

Definition _compute_relevance (cfg : Settings) (ai : AiEnv) (item : RawItem)
  (source : Source) : option Q :=
  if _get_ai_client cfg ai && AI_SCORING_ENABLED cfg then
    match _compute_relevance_ai ai item source with
    | Some r => Some r
    | None => _compute_relevance_heuristic item source
    end
  else _compute_relevance_heuristic item source.

Definition _compute_velocity (item : RawItem) : Q :=
  let score :=
    match raw_payload item with
    | PayloadHN _ hn_score _ => Qmin 1 (inject_Z hn_score / 200)%Q
    | PayloadReddit _ reddit_score upvote_ratio _ =>
        Qmin 1 ((inject_Z reddit_score / 500) * upvote_ratio)%Q
    | PayloadEmpty | PayloadFeed _ _ => 0.5%Q
    end in
  Py.clip01 score.

(** The scalar subquery [select(ClusterMember.cluster_id)
    .where(ClusterMember.raw_item_id == item.id).limit(1)]: the cluster
    of one membership row of the item.  The statement has no [ORDER BY],
    so which row it is, when the item has several, is the database's
    choice. *)
Definition cluster_of (s : Store) (item_id : UUID) : option UUID :=
  let rows := filter (fun m => Nat.eqb (cm_raw_item_id m) item_id)
                     (cluster_members s) in
  match nth_error rows (Nat.modulo (limit_one_choice (dbms s) rows)
                                   (List.length rows)) with
  | Some m => Some (cm_cluster_id m)
  | None => None
  end.

(** [result.scalar() or 1]. *)
Definition cluster_size (s : Store) (item : RawItem) : nat :=
  match cluster_of s (raw_id item) with
  | None => 1
  | Some c =>
      let n := List.length
                 (filter (fun m => Nat.eqb (cm_cluster_id m) c)
                         (cluster_members s)) in
      if Nat.eqb n 0 then 1 else n
  end.

Definition _compute_cross_source (s : Store) (item : RawItem) : Q :=
  let n := cluster_size s item in
  if (3 <=? n)%nat then 1.0%Q
  else if Nat.eqb n 2 then 0.7%Q
  else 0.3%Q.

(** [(now - t).total_seconds() / 3600]. *)
Definition age_hours (now t : datetime) : Q :=
  (inject_Z (now - t) / inject_Z microseconds_per_hour)%Q.

Definition Qlt_bool (a b : Q) : bool := negb (Qle_bool b a).

Definition _compute_novelty (now : datetime) (item : RawItem) : Q :=
  match raw_published_at item with
  | Some published =>
      let age := age_hours now published in
      if Qlt_bool age 6 then 0.9%Q
      else if Qlt_bool age 24 then 0.7%Q
      else if Qlt_bool age 72 then 0.5%Q
      else 0.3%Q
  | None =>
      let age := age_hours now (raw_fetched_at item) in
      if Qlt_bool age 6 then 0.8%Q
      else if Qlt_bool age 24 then 0.6%Q
      else 0.4%Q
  end.

(** [_score_item]: the score row it adds to the session, and the store
    with the row added and the item marked ["scored"]; [None] when it
    raises ([scalar_one()] on a missing source, or the relevance
    heuristic on a missing title). *)
Definition _score_item (cfg : Settings) (ai : AiEnv) (now : datetime)
  (s : Store) (item : RawItem) : option (Store * ItemScore) :=
  match Db.find_source s (raw_source_id item) with
  | None => None
  | Some source =>
      match _compute_relevance cfg ai item source with
      | None => None
      | Some relevance =>
          let velocity := _compute_velocity item in
          let cross_source := _compute_cross_source s item in
          let novelty := _compute_novelty now item in
          let signal :=
            (W_relevance * relevance + W_velocity * velocity
             + W_cross_source * cross_source + W_novelty * novelty)%Q in
          let score :=
            {| score_raw_item_id := raw_id item;
               computed_at := now;
               relevance_score := relevance;
               novelty_score := novelty;
               velocity_score := velocity;
               cross_source_score := cross_source;
               signal_score := signal;
               meta_ai_scored := AI_SCORING_ENABLED cfg |} in
          let s1 := Db.set_item_scores s (item_scores s ++ [score]) in
          Some (Db.update_status (raw_id item) "scored" s1, score)
      end
  end.

(** The rows of the query of [score_all]: status ["extracted"], no score
    row, at most 200. *)
Definition has_score (s : Store) (id : UUID) : bool :=
  existsb (fun sc => Nat.eqb (score_raw_item_id sc) id) (item_scores s).

Definition pending_items (s : Store) : list RawItem :=
  firstn 200
    (filter (fun r => String.eqb (raw_status r) "extracted"
                      && negb (has_score s (raw_id r)))
            (raw_items s)).

Record ScoreStats := {
  items_scored : nat;
  high_signal_count : nat
}.

(** One turn of the loop of [score_all]; an exception of [_score_item]
    is logged and the loop goes on. *)
Definition score_step (cfg : Settings) (ai : AiEnv) (now : datetime)
  (acc : Store * ScoreStats) (item : RawItem) : Store * ScoreStats :=
  match _score_item cfg ai now (fst acc) item with
  | None => acc
  | Some (s', score) =>
      (s', {| items_scored := S (items_scored (snd acc));
              high_signal_count :=
                if Qle_bool high_signal_threshold (signal_score score)
                then S (high_signal_count (snd acc))
                else high_signal_count (snd acc) |})
  end.

Definition score_all (cfg : Settings) (ai : AiEnv) (now : datetime)
  (s : Store) : Store * ScoreStats :=
  fold_left (score_step cfg ai now) (pending_items s)
            (s, {| items_scored := 0; high_signal_count := 0 |}).

(** [score_all_pending], the entry point of the periodic task
    [score_pending_items]. *)
Definition score_all_pending := score_all.

Definition body_length (body : option string) : nat :=
  match body with Some t => String.length t | None => 0 end.

(** The relevance heuristic in the words of the specification: the tier
    over 5, plus 0.1 for a body of at least 200 characters, minus 0.1 for
    a title under 20 characters, clipped. *)
Definition relevance_as_specified (tier : Z) (body : option string)
  (title : string) : Q :=
  Py.clip01 (inject_Z tier / 5
             + (if (200 <=? body_length body)%nat then 0.1 else 0)
             - (if (String.length title <? 20)%nat then 0.1 else 0))%Q.

(** The same with the boost reserved to a body of more than 200
    characters. *)
Definition relevance_over_200 (tier : Z) (body : option string)
  (title : string) : Q :=
  Py.clip01 (inject_Z tier / 5
             + (if (200 <? body_length body)%nat then 0.1 else 0)
             - (if (String.length title <? 20)%nat then 0.1 else 0))%Q.

End Scoring.

(* ================================================================== *)
(** * Embedder (app/services/processing/embeddings.py) *)
(* ================================================================== *)

Module Embedding.

(** The process-wide generator behind [np.random]: the sequence of
    normal draws it will deliver, and how many have been consumed. *)
Record Rng := {
  draws : nat -> Q;
  position : nat
}.

(** [np.random.randn(n)]. *)
Definition randn (n : nat) (g : Rng) : Vector * Rng :=
  (map (draws g) (seq (position g) n),
   {| draws := draws g; position := position g + n |}).

Definition model : string := "text-embedding-ada-002".
Definition dimension : nat := 1536.

Definition _generate_dummy_embedding (g : Rng) : Vector * Rng :=
  randn dimension g.

(** [_generate_embedding].  With a key configured the body of the [try]
    calls [track_model_call], a name the module never binds: whatever the
    provider answers, the handler logs the error and returns [None]. *)
Definition _generate_embedding (cfg : Settings) (text : string) (g : Rng)
  : option Vector * Rng :=
  if negb (Py.truthy (OPENAI_API_KEY cfg)) then
    let (v, g') := _generate_dummy_embedding g in (Some v, g')
  else (None, g).

(** [_get_text_for_embedding]: the title and the extracted text when
    there is one, else [" ".join(parts)] over the title and the raw text
    that are set; cut at 8000 characters. *)
Definition _get_text_for_embedding (s : Store) (item : RawItem)
  : option string :=
  let extracted :=
    find (fun e => Nat.eqb (ec_raw_item_id e) (raw_id item))
         (extracted_content s) in
  let parts :=
    (if Py.truthy (raw_title item)
     then [Ingestion.or_empty (raw_title item)] else [])
    ++ (if Py.truthy (raw_text item)
        then [Ingestion.or_empty (raw_text item)] else []) in
  match extracted with
  | Some e =>
      if negb (String.eqb (ec_text e) EmptyString) then
        Some (Py.str_slice_to 8000
                (String.append (Ingestion.or_empty (raw_title item))
                   (String.append " " (ec_text e))))
      else
        match parts with
        | [] => None
        | _ => Some (Py.str_slice_to 8000 (String.concat " " parts))
        end
  | None =>
      match parts with
      | [] => None
      | _ => Some (Py.str_slice_to 8000 (String.concat " " parts))
      end
  end.

Inductive EmbedResult :=
| EmbedFailed (error : string)
| EmbedRaised
| EmbedDone (dimensions : nat).

(** [embed_item]: embed one item and store the vector.  The primary key
    of [item_embeddings] is [raw_item_id]: when the item has a row
    already, the flush of the new one raises, the call ends in that
    exception and nothing is committed. *)
Definition embed_item (cfg : Settings) (s : Store) (g : Rng)
  (raw_item_id : UUID) : Store * Rng * EmbedResult :=
  match Db.find_raw_item s raw_item_id with
  | None => (s, g, EmbedFailed "Item not found")
  | Some item =>
      match _get_text_for_embedding s item with
      | None => (s, g, EmbedFailed "No text available for embedding")
      | Some text =>
          match _generate_embedding cfg text g with
          | (None, g') => (s, g', EmbedFailed "Embedding generation failed")
          | (Some [], g') => (s, g', EmbedFailed "Embedding generation failed")
          | (Some v, g') =>
              if existsb (fun e => Nat.eqb (emb_raw_item_id e) (raw_id item))
                         (item_embeddings s)
              then (s, g', EmbedRaised)
              else
                let row := {| emb_raw_item_id := raw_id item;
                              embed_model := model;
                              emb_dim := dimension;
                              embedding := v |} in
                let s1 :=
                  Db.set_item_embeddings s (item_embeddings s ++ [row]) in
                (Db.update_status (raw_id item) "embedded" s1, g',
                 EmbedDone dimension)
          end
      end
  end.

End Embedding.

(* ================================================================== *)
(** * Deduplicator (app/services/processing/dedup.py) *)
(* ================================================================== *)

Module Dedup.

Definition semantic_threshold : Q := 0.92%Q.
Definition time_window_days : Z := 7%Z.

Definition option_string_eqb (a b : option string) : bool :=
  match a, b with
  | Some x, Some y => String.eqb x y
  | None, None => true
  | _, _ => false
  end.

Definition member_key_eqb (cid rid : UUID) (m : ClusterMember) : bool :=
  Nat.eqb (cm_cluster_id m) cid && Nat.eqb (cm_raw_item_id m) rid.

(** [session.add(ClusterMember(...))] and the flush that follows: the
    primary key [(cluster_id, raw_item_id)] rejects a second row. *)
Definition add_member (s : Store) (m : ClusterMember) : option Store :=
  if existsb (member_key_eqb (cm_cluster_id m) (cm_raw_item_id m))
             (cluster_members s)
  then None
  else Some (Db.set_cluster_members s (cluster_members s ++ [m])).

(** [session.add(Cluster(canonical_item_id=..., status=OPEN))] and its
    flush; the new row's id comes back. *)
Definition add_cluster (now : datetime) (s : Store) (canonical : UUID)
  : UUID * Store :=
  let (id, s1) := Db.fresh s in
  (id, Db.set_clusters s1
         (clusters s1 ++ [{| cluster_id := id;
                             canonical_item_id := canonical;
                             cluster_status := OPEN;
                             cluster_created_at := now |}])).

(** [_add_to_cluster]; [None] when a query or a flush raises. *)
Definition _add_to_cluster (now : datetime) (s : Store)
  (duplicate_item canonical_item : RawItem) (sim : Q) : option Store :=
  let existing_member :=
    Db.scalar_one_or_none
      (filter (fun m => Nat.eqb (cm_raw_item_id m) (raw_id canonical_item)
                        && is_canonical m)
              (cluster_members s)) in
  let duplicate_member cid :=
    {| cm_cluster_id := cid;
       cm_raw_item_id := raw_id duplicate_item;
       is_canonical := false;
       similarity := Some sim |} in
  match existing_member with
  | Db.ManyRows => None
  | Db.OneRow m => add_member s (duplicate_member (cm_cluster_id m))
  | Db.NoRow =>
      let (cid, s1) := add_cluster now s (raw_id canonical_item) in
      match add_member s1 {| cm_cluster_id := cid;
                             cm_raw_item_id := raw_id canonical_item;
                             is_canonical := true;
                             similarity := Some 1.0%Q |} with
      | None => None
      | Some s2 => add_member s2 (duplicate_member cid)
      end
  end.

(** [check_exact_duplicate]: the store after the call and the returned
    flag; [None] when it raises. *)
Definition check_exact_duplicate (now : datetime) (s : Store) (item : RawItem)
  : option (Store * bool) :=
  let url_match :=
    Db.scalar_one_or_none
      (filter (fun r => option_string_eqb (raw_url r) (raw_url item)
                        && negb (Nat.eqb (raw_id r) (raw_id item)))
              (raw_items s)) in
  match url_match with
  | Db.ManyRows => None
  | Db.OneRow m =>
      match _add_to_cluster now s item m 1.0%Q with
      | Some s' => Some (s', true)
      | None => None
      end
  | Db.NoRow =>
      let cutoff := (now - timedelta_days time_window_days)%Z in
      let title_match :=
        Db.scalar_one_or_none
          (filter (fun r => option_string_eqb (raw_title r) (raw_title item)
                            && negb (Nat.eqb (raw_id r) (raw_id item))
                            && (cutoff <=? raw_fetched_at r)%Z)
                  (raw_items s)) in
      match title_match with
      | Db.ManyRows => None
      | Db.OneRow m =>
          match _add_to_cluster now s item m 1.0%Q with
          | Some s' => Some (s', true)
          | None => None
          end
      | Db.NoRow => Some (s, false)
      end
  end.

Section VectorIndex.

(** pgvector's cosine-distance operator [<=>], evaluated by the
    database. *)
Variable cosine_distance : Vector -> Vector -> Q.

(** A row of the similarity query: [(raw_item_id, similarity)]. *)
Definition Neighbor : Type := UUID * Q.

(** [FROM item_embeddings ie JOIN raw_items ri ON ri.id = ie.raw_item_id
    WHERE ie.raw_item_id != :item_id AND ri.fetched_at >= :cutoff
    AND 1 - (ie.embedding <=> :target) >= :threshold]. *)
Definition candidates (s : Store) (target : Vector) (item_id : UUID)
  (cutoff : datetime) (threshold : Q) : list Neighbor :=
  flat_map
    (fun ie =>
       flat_map
         (fun ri =>
            let sim := (1 - cosine_distance (embedding ie) target)%Q in
            if Nat.eqb (raw_id ri) (emb_raw_item_id ie)
               && negb (Nat.eqb (emb_raw_item_id ie) item_id)
               && (cutoff <=? raw_fetched_at ri)%Z
               && Qle_bool threshold sim
            then [(emb_raw_item_id ie, sim)] else [])
         (raw_items s))
    (item_embeddings s).

(** [ORDER BY similarity DESC].  The statement names no second key, so
    rows of equal similarity stay in the order the join produced them. *)
Fixpoint insert_desc (x : Neighbor) (l : list Neighbor) : list Neighbor :=
  match l with
  | [] => [x]
  | y :: r =>
      if Qle_bool (snd y) (snd x) then x :: y :: r
      else y :: insert_desc x r
  end.

Definition order_by_similarity_desc (l : list Neighbor) : list Neighbor :=
  fold_right insert_desc [] l.

(** The whole statement, with [LIMIT 5]. *)
Definition similarity_query (s : Store) (target : Vector) (item_id : UUID)
  (cutoff : datetime) (threshold : Q) : list Neighbor :=
  firstn 5 (order_by_similarity_desc
              (candidates s target item_id cutoff threshold)).

(** The row [check_semantic_duplicate] picks: [similar_items[0]]. *)
Definition best_match (now : datetime) (s : Store) (item_id : UUID)
  : option Neighbor :=
  match find (fun e => Nat.eqb (emb_raw_item_id e) item_id)
             (item_embeddings s) with
  | None => None
  | Some item_embedding =>
      let cutoff := (now - timedelta_days time_window_days)%Z in
      hd_error (similarity_query s (embedding item_embedding) item_id cutoff
                                 semantic_threshold)
  end.

(** [check_semantic_duplicate]; [None] when it raises. *)
Definition check_semantic_duplicate (now : datetime) (s : Store)
  (item_id : UUID) : option (Store * bool) :=
  match find (fun e => Nat.eqb (emb_raw_item_id e) item_id)
             (item_embeddings s) with
  | None => Some (s, false)
  | Some item_embedding =>
      let cutoff := (now - timedelta_days time_window_days)%Z in
      let similar_items :=
        similarity_query s (embedding item_embedding) item_id cutoff
                         semantic_threshold in
      match similar_items with
      | [] => Some (s, false)
      | (best_match_id, sim) :: _ =>
          match Db.find_raw_item s best_match_id with
          | None => Some (s, false)
          | Some canonical_item =>
              match Db.find_raw_item s item_id with
              | None => Some (s, false)
              | Some item =>
                  match _add_to_cluster now s item canonical_item sim with
                  | Some s' => Some (s', true)
                  | None => None
                  end
              end
          end
      end
  end.

(** The branch taken when no duplicate is found: a new cluster with the
    item as its canonical member. *)
Definition open_cluster_for (now : datetime) (s : Store) (item_id : UUID)
  : option (UUID * Store) :=
  let (cid, s1) := add_cluster now s item_id in
  match add_member s1 {| cm_cluster_id := cid;
                         cm_raw_item_id := item_id;
                         is_canonical := true;
                         similarity := Some 1.0%Q |} with
  | None => None
  | Some s2 => Some (cid, s2)
  end.

Inductive AssignResult :=
| AssignNotFound
| AssignRaised
| AssignDone (is_duplicate : bool) (cluster : option UUID).

(** [assign_cluster]. *)
Definition assign_cluster (now : datetime) (s : Store) (raw_item_id : UUID)
  : Store * AssignResult :=
  match Db.find_raw_item s raw_item_id with
  | None => (s, AssignNotFound)
  | Some item =>
      match check_semantic_duplicate now s raw_item_id with
      | None => (s, AssignRaised)
      | Some (s1, true) => (s1, AssignDone true None)
      | Some (s1, false) =>
          match open_cluster_for now s1 (raw_id item) with
          | None => (s, AssignRaised)
          | Some (cid, s2) =>
              (Db.update_status (raw_id item) "clustered" s2,
               AssignDone false (Some cid))
          end
      end
  end.

Record ClusterStats := {
  items_processed : nat;
  clusters_created : nat;
  duplicates_found : nat
}.

(** The rows of the query of [cluster_all_pending]. *)
Definition pending_items (limit : nat) (s : Store) : list RawItem :=
  firstn limit
    (filter
       (fun r =>
          existsb (fun e => Nat.eqb (emb_raw_item_id e) (raw_id r))
                  (item_embeddings s)
          && String.eqb (raw_status r) "embedded"
          && negb (existsb (fun m => Nat.eqb (cm_raw_item_id m) (raw_id r))
                           (cluster_members s)))
       (raw_items s)).

(** The body of the [try] for one item; [None] when it raises. *)
Definition cluster_item (now : datetime) (s : Store) (item : RawItem)
  : option (Store * bool) :=
  match check_semantic_duplicate now s (raw_id item) with
  | None => None
  | Some (s1, true) =>
      Some (Db.update_status (raw_id item) "clustered" s1, true)
  | Some (s1, false) =>
      match open_cluster_for now s1 (raw_id item) with
      | None => None
      | Some (_, s2) =>
          Some (Db.update_status (raw_id item) "clustered" s2, false)
      end
  end.

Definition cluster_step (now : datetime) (acc : Store * ClusterStats)
  (item : RawItem) : Store * ClusterStats :=
  let st := snd acc in
  match cluster_item now (fst acc) item with
  | None =>
      (fst acc, {| items_processed := S (items_processed st);
                   clusters_created := clusters_created st;
                   duplicates_found := duplicates_found st |})
  | Some (s', true) =>
      (s', {| items_processed := S (items_processed st);
              clusters_created := clusters_created st;
              duplicates_found := S (duplicates_found st) |})
  | Some (s', false) =>
      (s', {| items_processed := S (items_processed st);
              clusters_created := S (clusters_created st);
              duplicates_found := duplicates_found st |})
  end.

Definition cluster_all_pending (now : datetime) (limit : nat) (s : Store)
  : Store * ClusterStats :=
  fold_left (cluster_step now) (pending_items limit s)
            (s, {| items_processed := 0; clusters_created := 0;
                   duplicates_found := 0 |}).

End VectorIndex.

(** No two rows share the primary key [(cluster_id, raw_item_id)]. *)
Fixpoint unique_keys (l : list ClusterMember) : bool :=
  match l with
  | [] => true
  | m :: r =>
      negb (existsb (member_key_eqb (cm_cluster_id m) (cm_raw_item_id m)) r)
      && unique_keys r
  end.

Definition moved_to (target cid : UUID) (m : ClusterMember) : ClusterMember :=
  if Nat.eqb (cm_cluster_id m) cid
  then {| cm_cluster_id := target;
          cm_raw_item_id := cm_raw_item_id m;
          is_canonical := false;
          similarity := similarity m |}
  else m.

(** [update(ClusterMember).where(cluster_id == cid)
      .values(cluster_id=target, is_canonical=False)]; the statement
    fails on the foreign key to [clusters] or on the primary key. *)
Definition move_members (target cid : UUID) (s : Store) : option Store :=
  let rows := map (moved_to target cid) (cluster_members s) in
  let touches := existsb (fun m => Nat.eqb (cm_cluster_id m) cid)
                         (cluster_members s) in
  let target_exists := existsb (fun c => Nat.eqb (cluster_id c) target)
                               (clusters s) in
  if touches && negb target_exists then None
  else if negb (unique_keys rows) then None
  else Some (Db.set_cluster_members s rows).

(** [update(Cluster).where(id == cid).values(status=MERGED)]. *)
Definition mark_merged (cid : UUID) (s : Store) : Store :=
  Db.set_clusters s
    (map (fun c =>
            if Nat.eqb (cluster_id c) cid
            then {| cluster_id := cluster_id c;
                    canonical_item_id := canonical_item_id c;
                    cluster_status := MERGED;
                    cluster_created_at := cluster_created_at c |}
            else c)
         (clusters s)).

(** The loop of [merge_clusters] over [cluster_ids[1:]], with the
    running [members_moved]. *)
Fixpoint merge_loop (target : UUID) (rest : list UUID) (s : Store)
  (members_moved : nat) : option (Store * nat) :=
  match rest with
  | [] => Some (s, members_moved)
  | cid :: rest' =>
      match move_members target cid s with
      | None => None
      | Some s1 =>
          let n := List.length
                     (filter (fun m => Nat.eqb (cm_cluster_id m) target)
                             (cluster_members s1)) in
          merge_loop target rest' (mark_merged cid s1) (members_moved + n)
      end
  end.

Inductive MergeResult :=
| MergeRefused (error : string)
| MergeRaised
| MergeDone (target_cluster_id : UUID) (clusters_merged members_moved : nat).

Definition merge_clusters (s : Store) (cluster_ids : list UUID)
  : Store * MergeResult :=
  match cluster_ids with
  | [] | [_] => (s, MergeRefused "Need at least 2 clusters to merge")
  | target :: rest =>
      match merge_loop target rest s 0 with
      | None => (s, MergeRaised)
      | Some (s', moved) =>
          (s', MergeDone target (List.length cluster_ids - 1) moved)
      end
  end.

(** [archive_old_clusters]. *)
Definition archive_old_clusters (now : datetime) (days_old : Z) (s : Store)
  : Store :=
  let cutoff := (now - timedelta_days days_old)%Z in
  Db.set_clusters s
    (map (fun c =>
            if (cluster_created_at c <? cutoff)%Z
               && ClusterStatus_eqb (cluster_status c) OPEN
            then {| cluster_id := cluster_id c;
                    canonical_item_id := canonical_item_id c;
                    cluster_status := ARCHIVED;
                    cluster_created_at := cluster_created_at c |}
            else c)
         (clusters s)).

(** The operations that write clusters and memberships, as the workers
    and the processing pipeline invoke them. *)
Inductive ClusterOp :=
| OpExactJoin (now : datetime) (item : RawItem)
| OpSemanticJoin (now : datetime) (item_id : UUID)
| OpAssign (now : datetime) (item_id : UUID)
| OpClusterPending (now : datetime) (limit : nat)
| OpMerge (cluster_ids : list UUID)
| OpArchive (now : datetime) (days_old : Z).

(** The store after an operation; one that raises leaves the session
    uncommitted and the store as it was. *)
Definition run_op (cosine_distance : Vector -> Vector -> Q) (s : Store)
  (op : ClusterOp) : Store :=
  match op with
  | OpExactJoin now item =>
      match check_exact_duplicate now s item with
      | Some (s', _) => s'
      | None => s
      end
  | OpSemanticJoin now item_id =>
      match check_semantic_duplicate cosine_distance now s item_id with
      | Some (s', _) => s'
      | None => s
      end
  | OpAssign now item_id =>
      fst (assign_cluster cosine_distance now s item_id)
  | OpClusterPending now limit =>
      fst (cluster_all_pending cosine_distance now limit s)
  | OpMerge cluster_ids => fst (merge_clusters s cluster_ids)
  | OpArchive now days_old => archive_old_clusters now days_old s
  end.

Definition run_ops (cosine_distance : Vector -> Vector -> Q) (s : Store)
  (ops : list ClusterOp) : Store :=
  fold_left (run_op cosine_distance) ops s.

(** The canonical members of a cluster. *)
Definition canonical_members (s : Store) (cid : UUID) : list ClusterMember :=
  filter (fun m => Nat.eqb (cm_cluster_id m) cid && is_canonical m)
         (cluster_members s).

(** The store with every [published_at] replaced. *)
Definition republish (f : RawItem -> option datetime) (s : Store) : Store :=
  Db.set_raw_items s
    (map (fun r =>
            {| raw_id := raw_id r; raw_source_id := raw_source_id r;
               raw_external_id := raw_external_id r; raw_kind := raw_kind r;
               raw_title := raw_title r; raw_url := raw_url r;
               raw_published_at := f r;
               raw_fetched_at := raw_fetched_at r;
               raw_payload := raw_payload r;
               raw_text := raw_text r; raw_status := raw_status r |})
         (raw_items s)).

(** Exactly one member of the cluster is canonical, and its similarity
    is 1.0. *)
Definition canonical_ok (s : Store) (c : Cluster) : Prop :=
  exists m, canonical_members s (cluster_id c) = [m]
            /\ similarity m = Some 1.0%Q.

(** Keys in use lie below the next fresh one. *)
Definition keys_below (s : Store) : Prop :=
  (forall c, In c (clusters s) -> cluster_id c < next_uuid s)
  /\ (forall m, In m (cluster_members s) -> cm_cluster_id m < next_uuid s).

Definition unmerged_ok (s : Store) : Prop :=
  forall c, In c (clusters s) -> cluster_status c <> MERGED -> canonical_ok s c.

Definition cluster_invariant (s : Store) : Prop :=
  keys_below s /\ unmerged_ok s.

(** Cosine distance on vectors of unit length: one minus the dot
    product. *)
Fixpoint dot (a b : Vector) : Q :=
  match a, b with
  | x :: a', y :: b' => (x * y + dot a' b')%Q
  | _, _ => 0%Q
  end.

Definition unit_cosine_distance (a b : Vector) : Q := Qred (1 - dot a b)%Q.

End Dedup.

(* ================================================================== *)
(** * Briefing composer (app/services/briefing/service.py) *)
(* ================================================================== *)

Module Briefing.

(** [BriefingService.__init__]. *)
Definition high_signal_threshold : Q := 0.5%Q.
Definition max_items_per_briefing (cfg : Settings) : Z := BRIEFING_NUM_ITEMS cfg.

(** [round(x, 2)]: the nearest hundredth, ties to the even one. *)
Definition round2 (x : Q) : Q :=
  let y := (x * 100)%Q in
  let n := Qfloor y in
  let frac := (y - inject_Z n)%Q in
  let up :=
    match Qcompare frac (1 # 2) with
    | Lt => false
    | Gt => true
    | Eq => Z.odd n
    end in
  Qred (inject_Z (if up then n + 1 else n)%Z / 100)%Q.

(** One entry of the [signals] list. *)
Record Signal := {
  sg_id : UUID;
  sg_title : option string;
  sg_url : option string;
  sg_source : string;
  sg_category : option string;
  sg_published_at : option datetime;
  sg_signal_score : Q;
  sg_content : string
}.

Definition Row : Type := RawItem * ItemScore * Source.

(** [select(RawItem, ItemScore, Source).join(...).join(...)
     .where(RawItem.fetched_at >= cutoff)
     .where(ItemScore.signal_score >= self.high_signal_threshold)],
    with the topic filter when the user has topics. *)
Definition joined_rows (s : Store) (cutoff : datetime)
  (preferences : option UserPreference) : list Row :=
  flat_map
    (fun item =>
       flat_map
         (fun score =>
            flat_map
              (fun source =>
                 if Nat.eqb (raw_id item) (score_raw_item_id score)
                    && Nat.eqb (raw_source_id item) (source_id source)
                    && (cutoff <=? raw_fetched_at item)%Z
                    && Qle_bool high_signal_threshold (signal_score score)
                    && match preferences with
                       | Some p =>
                           match topics p with
                           | [] => true
                           | ts =>
                               match source_category source with
                               | Some c => existsb (String.eqb c) ts
                               | None => false
                               end
                           end
                       | None => true
                       end
                 then [(item, score, source)] else [])
              (sources s))
         (item_scores s))
    (raw_items s).

(** [order_by(desc(ItemScore.signal_score))]; rows of equal score stay in
    the order of the join. *)
Fixpoint insert_desc (x : Row) (l : list Row) : list Row :=
  match l with
  | [] => [x]
  | y :: r =>
      if Qle_bool (signal_score (snd (fst y))) (signal_score (snd (fst x)))
      then x :: y :: r
      else y :: insert_desc x r
  end.

Definition order_by_signal_desc (l : list Row) : list Row :=
  fold_right insert_desc [] l.

Definition to_signal (row : Row) : Signal :=
  let '(item, score, source) := row in
  {| sg_id := raw_id item;
     sg_title := raw_title item;
     sg_url := raw_url item;
     sg_source := source_name source;
     sg_category := source_category source;
     sg_published_at := raw_published_at item;
     sg_signal_score := round2 (signal_score score);
     sg_content :=
       if Py.truthy (raw_text item)
       then Py.str_slice_to 500 (Ingestion.or_empty (raw_text item))
       else EmptyString |}.

(** [_get_user_signals]; its [user] argument is not read and is left
    out.  [None] when the database refuses a negative [LIMIT]. *)
Definition _get_user_signals (cfg : Settings) (now : datetime) (s : Store)
  (preferences : option UserPreference) : option (list Signal) :=
  let cutoff := (now - timedelta_hours 24)%Z in
  let n := max_items_per_briefing cfg in
  if (n <? 0)%Z then None
  else
    let rows :=
      firstn (Z.to_nat (n * 2))
             (order_by_signal_desc (joined_rows s cutoff preferences)) in
    Some (map to_signal (Py.slice_to n rows)).

(** An element of [items_used]: the text of a UUID, or a string that
    [UUID(...)] rejects. *)
Inductive ItemRef :=
| RefItem (id : UUID)
| RefMalformed (text : string).

(** What [complete_json] comes back with. *)
Inductive LlmReply :=
| LlmRaised
| LlmErrorResult
| LlmJson (briefing : option string) (items_used : option (list ItemRef)).

Record LlmEnv := {
  llm_client_available : bool;
  llm_briefing : list Signal -> LlmReply
}.

Definition no_llm : LlmEnv :=
  {| llm_client_available := false; llm_briefing := fun _ => LlmRaised |}.

Record Content := {
  content_briefing : Markdown;
  content_items_used : list ItemRef
}.

(** The lines and the ids the loop of [_generate_fallback_briefing]
    appends, from rank [i] on. *)
Fixpoint fallback_items (i : nat) (signals : list Signal)
  : list MdLine * list ItemRef :=
  match signals with
  | [] => ([], [])
  | signal :: rest =>
      let (lines, used) := fallback_items (S i) rest in
      ([MdItemHeading i (sg_title signal);
        MdSourceScore (sg_source signal) (sg_signal_score signal);
        MdText EmptyString]
       ++ (if String.eqb (sg_content signal) EmptyString then []
           else [MdSnippet (String.append
                              (Py.str_slice_to 200 (sg_content signal)) "...")])
       ++ [MdReadMore (sg_url signal); MdText EmptyString]
       ++ lines,
       RefItem (sg_id signal) :: used)
  end.

Definition _generate_fallback_briefing (cfg : Settings) (now : datetime)
  (signals : list Signal) : Content :=
  let (lines, used) :=
    fallback_items 1 (Py.slice_to (max_items_per_briefing cfg) signals) in
  {| content_briefing :=
       MdTemplate ([MdText "# Daily Intelligence Briefing";
                    MdGenerated now;
                    MdText EmptyString;
                    MdText "## Top Signals";
                    MdText EmptyString] ++ lines);
     content_items_used := used |}.

Definition _generate_briefing_content (cfg : Settings) (llm : LlmEnv)
  (now : datetime) (signals : list Signal) : Content :=
  if negb (llm_client_available llm)
  then _generate_fallback_briefing cfg now signals
  else
    match llm_briefing llm signals with
    | LlmRaised => _generate_fallback_briefing cfg now signals
    | LlmErrorResult => _generate_fallback_briefing cfg now signals
    | LlmJson briefing items_used =>
        {| content_briefing :=
             MdFromLLM (Ingestion.or_empty briefing);
           content_items_used :=
             match items_used with
             | Some l => l
             | None => map (fun sg => RefItem (sg_id sg)) signals
             end |}
    end.

(** The rows the linking loop adds to the session; an element that
    [UUID(...)] rejects is logged and skipped, and keeps its rank. *)
Fixpoint link_items (bid : UUID) (rank : nat) (signals : list Signal)
  (items_used : list ItemRef) : list BriefingItem :=
  match items_used with
  | [] => []
  | RefMalformed _ :: rest => link_items bid (S rank) signals rest
  | RefItem item_id :: rest =>
      let signal_info := find (fun sg => Nat.eqb (sg_id sg) item_id) signals in
      {| bi_briefing_id := bid;
         bi_rank := rank;
         bi_raw_item_id := Some item_id;
         bi_title := match signal_info with
                     | Some sg => sg_title sg
                     | None => Some "Unknown"%string
                     end;
         one_liner := match signal_info with
                      | Some sg => Py.str_slice_to 200 (sg_content sg)
                      | None => EmptyString
                      end;
         why_it_matters := "High signal item";
         confidence := "med";
         bi_signal_score := match signal_info with
                            | Some sg => sg_signal_score sg
                            | None => 0.0%Q
                            end;
         bi_sources := match signal_info with
                       | Some sg => [sg_source sg]
                       | None => []
                       end |}
      :: link_items bid (S rank) signals rest
  end.

(** The constraints [commit()] checks on the new rows: [title] is not
    null and [raw_item_id] references a row of [raw_items]. *)
Definition row_accepted (s : Store) (bi : BriefingItem) : bool :=
  match bi_title bi with Some _ => true | None => false end
  && match bi_raw_item_id bi with
     | Some id => existsb (fun r => Nat.eqb (raw_id r) id) (raw_items s)
     | None => true
     end.

Inductive GenResult :=
| GenError (error : string)
| GenRaised
| GenDone (briefing : UUID) (user : UUID) (items_included : nat).

(** [generate_for_user].  The content is a dictionary of two keys on
    every path, so the exit on [not content] is never taken; the
    [word_count] of the result is left out. *)
Definition generate_for_user (cfg : Settings) (llm : LlmEnv) (now : datetime)
  (s : Store) (uid : UUID) : Store * GenResult :=
  match find (fun u => Nat.eqb (user_id u) uid) (users s) with
  | None => (s, GenError "User not found")
  | Some user =>
      let preferences :=
        find (fun p => Nat.eqb (pref_user_id p) uid) (user_preferences s) in
      match _get_user_signals cfg now s preferences with
      | None => (s, GenRaised)
      | Some [] => (s, GenError "No high-signal items available")
      | Some signals =>
          let content := _generate_briefing_content cfg llm now signals in
          let (bid, s1) := Db.fresh s in
          let briefing :=
            {| briefing_id := bid;
               scope := ScopeUser uid;
               period_start := (now - timedelta_hours 24)%Z;
               period_end := now;
               summary_md := content_briefing content |} in
          let s2 := Db.set_briefings s1 (briefings s1 ++ [briefing]) in
          let rows := link_items bid 1 signals (content_items_used content) in
          if forallb (row_accepted s2) rows then
            (Db.set_briefing_items s2 (briefing_items s2 ++ rows),
             GenDone bid uid (List.length (content_items_used content)))
          else (s, GenRaised)
      end
  end.

(** The signal score of the most recent [ItemScore] row of an item. *)
Definition latest_score (s : Store) (item_id : UUID) : option ItemScore :=
  fold_left
    (fun best sc =>
       if Nat.eqb (score_raw_item_id sc) item_id then
         match best with
         | Some b => if (computed_at b <=? computed_at sc)%Z
                     then Some sc else best
         | None => Some sc
         end
       else best)
    (item_scores s) None.

End Briefing.

(* ================================================================== *)
(** * Concrete stores and environments *)
(* ================================================================== *)

Module Examples.
Import Ingestion.
Local Open Scope string_scope.

Definition noon : datetime := 1700000000000000%Z.

Definition no_metadata : SourceMetadata :=
  {| story_type := None; subreddit := None; sort := None;
     time_filter := None |}.

Definition feed_source : Source :=
  {| source_id := 0;
     source_name := "Example Feed";
     source_type := RSS;
     source_url := Some "https://example.org/feed.xml";
     source_metadata := no_metadata;
     source_category := Some "tech";
     source_enabled := true;
     credibility_tier := 3%Z |}.

Definition headline : string := "A sufficiently long headline".

(** ** A feed of one entry, and a ceiling of zero items per source *)

Definition zero_limit : Settings :=
  {| OPENAI_API_KEY := None;
     MAX_ITEMS_PER_SOURCE := 0%Z;
     AI_SCORING_ENABLED := true;
     BRIEFING_NUM_ITEMS := 10%Z |}.

Definition entry_a : FeedEntry :=
  {| fe_id := Some "guid-1";
     fe_guid := None;
     fe_link := Some "https://example.org/a";
     fe_title := Some headline;
     fe_summary := None;
     fe_description := None;
     fe_published_parsed := None;
     fe_updated_parsed := None;
     fe_created_parsed := None;
     fe_published := None;
     fe_updated := None;
     fe_created := None |}.

Definition one_entry_world : World :=
  {| w_feed := fun _ => HttpOk [entry_a];
     w_hn := {| hn_listing := fun _ => HttpOk [];
                hn_item := fun _ => StoryNull |};
     w_reddit := {| reddit_token := None;
                    reddit_oauth := fun _ _ _ => HttpOk [];
                    reddit_public := fun _ _ _ => HttpOk [] |} |}.

Definition feed_only_store : Store :=
  {| sources := [feed_source]; raw_items := []; extracted_content := [];
     item_embeddings := []; clusters := []; cluster_members := [];
     item_scores := []; briefings := []; briefing_items := [];
     users := []; user_preferences := []; next_uuid := 1;
     dbms := lenient_dbms |}.

(** ** One item that the extractor has passed, and one user *)

Definition article (id : UUID) (status : string) : RawItem :=
  {| raw_id := id;
     raw_source_id := 0;
     raw_external_id := Some "guid-1";
     raw_kind := ARTICLE;
     raw_title := Some headline;
     raw_url := Some "https://example.org/a";
     raw_published_at := None;
     raw_fetched_at := (noon - timedelta_hours 1)%Z;
     raw_payload := PayloadFeed (Some "guid-1") None;
     raw_text := None;
     raw_status := status |}.

Definition reader : User := {| user_id := 7; is_active := true |}.

Definition extracted_store : Store :=
  {| sources := [feed_source]; raw_items := [article 1 "extracted"];
     extracted_content := [];
     item_embeddings := []; clusters := []; cluster_members := [];
     item_scores := []; briefings := []; briefing_items := [];
     users := [reader]; user_preferences := []; next_uuid := 8;
     dbms := lenient_dbms |}.

(** The same item after embedding and clustering. *)
Definition clustered_store : Store :=
  {| sources := [feed_source]; raw_items := [article 1 "clustered"];
     extracted_content := [];
     item_embeddings := [];
     clusters := [{| cluster_id := 2; canonical_item_id := 1;
                     cluster_status := OPEN; cluster_created_at := noon |}];
     cluster_members := [{| cm_cluster_id := 2; cm_raw_item_id := 1;
                            is_canonical := true;
                            similarity := Some 1.0%Q |}];
     item_scores := []; briefings := []; briefing_items := [];
     users := [reader]; user_preferences := []; next_uuid := 8;
     dbms := lenient_dbms |}.

(** The score row the scorer computes for that item at [noon]: tier 3
    over 5, the default velocity, a cluster of one, fetched within six
    hours. *)
Definition article_score : ItemScore :=
  {| score_raw_item_id := 1;
     computed_at := noon;
     relevance_score := (3 # 5)%Q;
     novelty_score := 0.8%Q;
     velocity_score := 0.5%Q;
     cross_source_score := 0.3%Q;
     signal_score := (0.40 * (3 # 5) + 0.20 * 0.5 + 0.20 * 0.3 + 0.20 * 0.8)%Q;
     meta_ai_scored := true |}.

(** The store after the scoring task has run on [extracted_store]. *)
Definition scored_store : Store :=
  fst (Scoring.score_all default_settings Scoring.no_ai noon extracted_store).

(** A store with a user and nothing to brief about. *)
Definition quiet_store : Store :=
  {| sources := [feed_source]; raw_items := []; extracted_content := [];
     item_embeddings := []; clusters := []; cluster_members := [];
     item_scores := []; briefings := []; briefing_items := [];
     users := [reader]; user_preferences := []; next_uuid := 8;
     dbms := lenient_dbms |}.

(** ** An item whose body has exactly 200 characters *)

Definition body_200 : RawItem :=
  {| raw_id := 1;
     raw_source_id := 0;
     raw_external_id := Some "guid-1";
     raw_kind := ARTICLE;
     raw_title := Some headline;
     raw_url := Some "https://example.org/a";
     raw_published_at := None;
     raw_fetched_at := noon;
     raw_payload := PayloadFeed (Some "guid-1") None;
     raw_text := Some (Py.replicate 200 "x"%char);
     raw_status := "extracted" |}.

(** ** A generator that delivers 0, 1, 2, ... *)

Definition counting_rng : Embedding.Rng :=
  {| Embedding.draws := fun n => inject_Z (Z.of_nat n);
     Embedding.position := 0 |}.

(** ** Two stored items whose embeddings equal the target's *)

Definition axis : Vector := 1%Q :: repeat 0%Q 1535.

Definition story (id : UUID) (title : string) (published : datetime)
  : RawItem :=
  {| raw_id := id;
     raw_source_id := 0;
     raw_external_id := Some title;
     raw_kind := ARTICLE;
     raw_title := Some title;
     raw_url := Some title;
     raw_published_at := Some published;
     raw_fetched_at := (noon - timedelta_hours 1)%Z;
     raw_payload := PayloadEmpty;
     raw_text := None;
     raw_status := "embedded" |}.

Definition stored_vector (id : UUID) : ItemEmbedding :=
  {| emb_raw_item_id := id;
     embed_model := Embedding.model;
     emb_dim := Embedding.dimension;
     embedding := axis |}.

Definition sole_member (cid item : UUID) : ClusterMember :=
  {| cm_cluster_id := cid; cm_raw_item_id := item; is_canonical := true;
     similarity := Some 1.0%Q |}.

Definition open_cluster (cid item : UUID) : Cluster :=
  {| cluster_id := cid; canonical_item_id := item; cluster_status := OPEN;
     cluster_created_at := noon |}.

(** Item 10 arrives; item 11 (published later) and item 12 (published
    two days earlier) are each the canonical member of a cluster. *)
Definition tie_store : Store :=
  {| sources := [feed_source];
     raw_items := [story 10 "Acme ships X today" (noon - timedelta_hours 2)%Z;
                   story 11 "Acme ships X" (noon - timedelta_hours 3)%Z;
                   story 12 "Acme releases X" (noon - timedelta_hours 48)%Z];
     extracted_content := [];
     item_embeddings := [stored_vector 10; stored_vector 11; stored_vector 12];
     clusters := [open_cluster 20 11; open_cluster 21 12];
     cluster_members := [sole_member 20 11; sole_member 21 12];
     item_scores := []; briefings := []; briefing_items := [];
     users := []; user_preferences := []; next_uuid := 30;
     dbms := lenient_dbms |}.

(** ** Two items without embeddings, clustered one by one, then merged *)

Definition pair_store : Store :=
  {| sources := [feed_source];
     raw_items := [story 0 "First story" noon; story 1 "Second story" noon];
     extracted_content := [];
     item_embeddings := []; clusters := []; cluster_members := [];
     item_scores := []; briefings := []; briefing_items := [];
     users := []; user_preferences := []; next_uuid := 2;
     dbms := lenient_dbms |}.

Definition assign_then_merge : list Dedup.ClusterOp :=
  [Dedup.OpAssign noon 0; Dedup.OpAssign noon 1; Dedup.OpMerge [2; 3]].

End Examples.

(* ================================================================== *)
(** * Extractor (app/services/processing/extractor.py) *)
(* ================================================================== *)

Module Extractor.

(** [len(text.split())]: the number of maximal runs of characters that
    are not whitespace. *)
Fixpoint count_words_from (in_word : bool) (s : string) : nat :=
  match s with
  | EmptyString => 0
  | String c r =>
      if Py.is_space c then count_words_from false r
      else (if in_word then 0 else 1) + count_words_from true r
  end.

Definition word_count_of (text : string) : nat := count_words_from false text.

(** The web and the two extraction libraries.  A library answers with a
    text, or with [None] when it returns nothing or raises. *)
Record Web := {
  http_get : string -> Ingestion.Http string;
  trafilatura_extract : string -> option string;
  readability_text : string -> option string
}.

Record Extracted := {
  ex_text : string;
  ex_word_count : nat;
  ex_method : string;
  ex_quality : Q
}.

Definition _extract_with_trafilatura (web : Web) (html : string)
  : option Extracted :=
  match trafilatura_extract web html with
  | None => None
  | Some text =>
      if String.eqb text EmptyString then None
      else Some {| ex_text := text;
                   ex_word_count := word_count_of text;
                   ex_method := "trafilatura";
                   ex_quality := 0.9%Q |}
  end.

Definition _extract_with_readability (web : Web) (html : string)
  : option Extracted :=
  match readability_text web html with
  | None => None
  | Some text =>
      if String.eqb text EmptyString then None
      else Some {| ex_text := text;
                   ex_word_count := word_count_of text;
                   ex_method := "readability";
                   ex_quality := 0.7%Q |}
  end.

(** [ContentExtractor.extract]. *)
Definition extract (web : Web) (url : string) : option Extracted :=
  match http_get web url with
  | Ingestion.HttpError _ => None
  | Ingestion.HttpOk html =>
      match _extract_with_trafilatura web html with
      | Some result =>
          if (50 <? ex_word_count result)%nat then Some result
          else
            match _extract_with_readability web html with
            | Some result' =>
                if (50 <? ex_word_count result')%nat then Some result'
                else None
            | None => None
            end
      | None =>
          match _extract_with_readability web html with
          | Some result' =>
              if (50 <? ex_word_count result')%nat then Some result'
              else None
          | None => None
          end
      end
  end.

Record ExtractStats := {
  x_items_processed : nat;
  x_extracted : nat;
  x_failed : nat;
  x_skipped : nat
}.

(** The rows of the query of [extract_all_pending]. *)
Definition pending_items (limit : nat) (s : Store) : list RawItem :=
  firstn limit
    (filter (fun r => String.eqb (raw_status r) "new") (raw_items s)).

Definition has_content (s : Store) (id : UUID) : bool :=
  existsb (fun e => Nat.eqb (ec_raw_item_id e) id) (extracted_content s).

Definition set_extracted_content (s : Store) (l : list ExtractedContent)
  : Store :=
  {| sources := sources s; raw_items := raw_items s;
     extracted_content := l;
     item_embeddings := item_embeddings s; clusters := clusters s;
     cluster_members := cluster_members s; item_scores := item_scores s;
     briefings := briefings s; briefing_items := briefing_items s;
     users := users s; user_preferences := user_preferences s;
     next_uuid := next_uuid s;
     dbms := dbms s |}.

(** One turn of the loop of [extract_all_pending].  [None] when the
    insert of the content row meets a row with the same primary key:
    the flush fails, the session is left rolled back, and the commit at
    the end of the task raises. *)
Definition extract_step (web : Web) (acc : option (Store * ExtractStats))
  (item : RawItem) : option (Store * ExtractStats) :=
  match acc with
  | None => None
  | Some (s, st) =>
      if negb (Py.truthy (raw_url item)) then
        Some (Db.update_status (raw_id item) "extracted" s,
              {| x_items_processed := S (x_items_processed st);
                 x_extracted := x_extracted st;
                 x_failed := x_failed st;
                 x_skipped := S (x_skipped st) |})
      else
        match extract web (Ingestion.or_empty (raw_url item)) with
        | Some extracted =>
            if has_content s (raw_id item) then None
            else
              let s1 :=
                set_extracted_content s
                  (extracted_content s
                   ++ [{| ec_raw_item_id := raw_id item;
                          ec_text := ex_text extracted |}]) in
              Some (Db.update_status (raw_id item) "extracted" s1,
                    {| x_items_processed := S (x_items_processed st);
                       x_extracted := S (x_extracted st);
                       x_failed := x_failed st;
                       x_skipped := x_skipped st |})
        | None =>
            Some (Db.update_status (raw_id item) "extracted" s,
                  {| x_items_processed := S (x_items_processed st);
                     x_extracted := x_extracted st;
                     x_failed := S (x_failed st);
                     x_skipped := x_skipped st |})
        end
  end.

(** [extract_all_pending]; [None] when the task raises and nothing is
    committed. *)
Definition extract_all_pending (web : Web) (limit : nat) (s : Store)
  : option (Store * ExtractStats) :=
  fold_left (extract_step web) (pending_items limit s)
            (Some (s, {| x_items_processed := 0; x_extracted := 0;
                         x_failed := 0; x_skipped := 0 |})).

End Extractor.

(* ================================================================== *)
(** * Embedder, the batch stage (embeddings.py) *)
(* ================================================================== *)

Module EmbeddingStage.
Import Embedding.

Record EmbedStats := {
  e_items_processed : nat;
  e_embeddings_created : nat;
  e_failed : nat
}.

(** The rows of the query of [embed_all_pending]: status ["extracted"]
    and no embedding row. *)
Definition has_embedding (s : Store) (id : UUID) : bool :=
  existsb (fun e => Nat.eqb (emb_raw_item_id e) id) (item_embeddings s).

Definition pending_items (limit : nat) (s : Store) : list RawItem :=
  firstn limit
    (filter (fun r => String.eqb (raw_status r) "extracted"
                      && negb (has_embedding s (raw_id r)))
            (raw_items s)).

(** One turn of the loop of [embed_all_pending], on the store, the
    generator and the counters ([tokens_used] is never written and is
    left out). *)
Definition embed_step (cfg : Settings) (acc : Store * Rng * EmbedStats)
  (item : RawItem) : Store * Rng * EmbedStats :=
  let '(s, g, st) := acc in
  let failed g' :=
    (s, g', {| e_items_processed := S (e_items_processed st);
               e_embeddings_created := e_embeddings_created st;
               e_failed := S (e_failed st) |}) in
  match _get_text_for_embedding s item with
  | None => failed g
  | Some text =>
      match _generate_embedding cfg text g with
      | (None, g') => failed g'
      | (Some [], g') => failed g'
      | (Some v, g') =>
          let row := {| emb_raw_item_id := raw_id item;
                        embed_model := model;
                        emb_dim := dimension;
                        embedding := v |} in
          let s1 := Db.set_item_embeddings s (item_embeddings s ++ [row]) in
          (Db.update_status (raw_id item) "embedded" s1, g',
           {| e_items_processed := S (e_items_processed st);
              e_embeddings_created := S (e_embeddings_created st);
              e_failed := e_failed st |})
      end
  end.

Definition embed_all_pending (cfg : Settings) (limit : nat) (s : Store)
  (g : Rng) : Store * Rng * EmbedStats :=
  fold_left (embed_step cfg) (pending_items limit s)
            (s, g, {| e_items_processed := 0; e_embeddings_created := 0;
                      e_failed := 0 |}).

(** The item has a text to embed. *)
Definition has_text (s : Store) (item : RawItem) : bool :=
  match _get_text_for_embedding s item with
  | Some _ => true
  | None => false
  end.

End EmbeddingStage.

(* ================================================================== *)
(** * Reading scored items (scoring/service.py, api/routes/signals.py) *)
(* ================================================================== *)

Module Signals.

Definition Row : Type := Briefing.Row.

Definition score_of (row : Row) : Q := signal_score (snd (fst row)).

(** [select(RawItem, ItemScore, Source).join(...).join(...)] with the
    conditions of a query as a test on the joined row. *)
Definition joined (s : Store) (keep : Row -> bool) : list Row :=
  flat_map
    (fun item =>
       flat_map
         (fun score =>
            flat_map
              (fun source =>
                 if Nat.eqb (raw_id item) (score_raw_item_id score)
                    && Nat.eqb (raw_source_id item) (source_id source)
                    && keep (item, score, source)
                 then [(item, score, source)] else [])
              (sources s))
         (item_scores s))
    (raw_items s).

(** [ScoringService.get_high_signals]: the rows behind the dictionaries
    it returns. *)
Definition get_high_signals (s : Store) (limit : nat) (min_score : Q)
  : list Row :=
  firstn limit
    (Briefing.order_by_signal_desc
       (joined s (fun row => Qle_bool min_score (score_of row)))).

Definition source_type_value (t : SourceType) : string :=
  match t with
  | RSS => "rss"
  | API_HN => "api_hn"
  | API_REDDIT => "api_reddit"
  | API_X => "api_x"
  | SCRAPE => "scrape"
  end.

(** The labels of the [source_type] enum of the database. *)
Definition is_source_type_label (v : string) : bool :=
  existsb (fun t => String.eqb (source_type_value t) v)
          [RSS; API_HN; API_REDDIT; API_X; SCRAPE].

(** The conditions of [list_signals]. *)
Definition listed (cutoff : datetime) (min_score : Q)
  (category type_filter : option string) (row : Row) : bool :=
  let '(item, score, source) := row in
  (cutoff <=? raw_fetched_at item)%Z
  && Qle_bool min_score (signal_score score)
  && (if Py.truthy category
      then Dedup.option_string_eqb (source_category source) category
      else true)
  && (if Py.truthy type_filter
      then String.eqb (source_type_value (source_type source))
                      (Ingestion.or_empty type_filter)
      else true).

Record Page := {
  page_rows : list Row;
  page_total : nat;
  page_has_more : bool
}.

(** [list_signals]: one page of the rows, in descending order of signal
    score.  [None] when [source_type] is a text the enum of the database
    does not have: the comparison [Source.type == source_type] makes the
    statement fail. *)
Definition list_signals (now : datetime) (s : Store) (min_score : Q)
  (category type_filter : option string) (hours : Z) (limit offset : nat)
  : option Page :=
  let cutoff := (now - timedelta_hours hours)%Z in
  if Py.truthy type_filter
     && negb (is_source_type_label (Ingestion.or_empty type_filter))
  then None
  else
    let rows :=
      firstn (limit + 1)
        (skipn offset
           (Briefing.order_by_signal_desc
              (joined s (listed cutoff min_score category type_filter)))) in
    let has_more := (limit <? List.length rows)%nat in
    let rows := firstn limit rows in
    Some {| page_rows := rows;
            page_total := List.length rows + (if has_more then 1 else 0);
            page_has_more := has_more |}.

(** The rows come in descending order of signal score. *)
Definition descending (l : list Row) : Prop :=
  StronglySorted (fun a b => Qle (score_of b) (score_of a)) l.

End Signals.

(* ================================================================== *)
(** * Shapes and invariants the later sections speak about *)
(* ================================================================== *)

Module Shape.

(** The [(source_id, external_id)] keys of the rows that have an
    external id, in table order. *)
Definition keys_of (l : list RawItem) : list (UUID * string) :=
  flat_map (fun r => match raw_external_id r with
                     | Some e => [(raw_source_id r, e)]
                     | None => []
                     end) l.

(** The database accepts every row of [raw_items]: no insert raises. *)
Definition accepts_all (s : Store) : Prop :=
  forall r, accepts_raw_item (dbms s) r = true.

(** The three fields an item cannot do without are all set. *)
Definition has_required_fields (it : Ingestion.NormalizedItem) : Prop :=
  Ingestion.ni_external_id it <> EmptyString
  /\ Ingestion.ni_url it <> EmptyString
  /\ Ingestion.ni_title it <> EmptyString.

(** The body snippet, when there is one, has at most 2000 characters. *)
Definition snippet_bounded (it : Ingestion.NormalizedItem) : Prop :=
  forall body, Ingestion.ni_raw_text it = Some body ->
               String.length body <= 2000.

(** A row as [BaseIngester.ingest] writes it for source [sid] at [now]. *)
Definition fresh_row (now : datetime) (sid : UUID) (r : RawItem) : Prop :=
  raw_status r = "new"%string
  /\ raw_source_id r = sid
  /\ raw_fetched_at r = now
  /\ raw_external_id r <> None.

(** The rows of [l'] are the rows of [l], in place, up to their status. *)
Definition same_up_to_status (l l' : list RawItem) : Prop :=
  map (fun r => Db.with_status r EmptyString) l'
  = map (fun r => Db.with_status r EmptyString) l.

(** Every table but [raw_items] is the same in both stores. *)
Definition same_but_raw_items (s s' : Store) : Prop :=
  sources s' = sources s
  /\ extracted_content s' = extracted_content s
  /\ item_embeddings s' = item_embeddings s
  /\ clusters s' = clusters s
  /\ cluster_members s' = cluster_members s
  /\ item_scores s' = item_scores s
  /\ briefings s' = briefings s
  /\ briefing_items s' = briefing_items s
  /\ users s' = users s
  /\ user_preferences s' = user_preferences s.

(** The net effect of a merge on a membership row: a row of one of the
    merged clusters goes to the target and is no longer canonical. *)
Definition moved_all (target : UUID) (rest : list UUID) (m : ClusterMember)
  : ClusterMember :=
  if existsb (Nat.eqb (cm_cluster_id m)) rest
  then {| cm_cluster_id := target;
          cm_raw_item_id := cm_raw_item_id m;
          is_canonical := false;
          similarity := similarity m |}
  else m.

(** The net effect of a merge on a cluster row. *)
Definition marked_all (rest : list UUID) (c : Cluster) : Cluster :=
  if existsb (Nat.eqb (cluster_id c)) rest
  then {| cluster_id := cluster_id c;
          canonical_item_id := canonical_item_id c;
          cluster_status := MERGED;
          cluster_created_at := cluster_created_at c |}
  else c.

(** What a clustering pass may write between [s] and [s']: clusters and
    memberships are appended, [dups] memberships more than clusters; a
    new cluster is [OPEN] and created at [now]; a new membership is
    either canonical with similarity 1.0 or not canonical with a
    similarity of at least the threshold; raw items change in their
    status only; embeddings and scores stay. *)
Definition clustering_grows (now : datetime) (s s' : Store)
  (created dups : nat) : Prop :=
  exists newc newm,
    clusters s' = clusters s ++ newc
    /\ cluster_members s' = cluster_members s ++ newm
    /\ List.length newm = List.length newc + dups
    /\ created <= List.length newc
    /\ List.length newc <= created + dups
    /\ Forall (fun c => cluster_status c = OPEN
                        /\ cluster_created_at c = now) newc
    /\ Forall (fun m =>
                 (is_canonical m = true /\ similarity m = Some 1.0%Q)
                 \/ (is_canonical m = false
                     /\ exists sim, similarity m = Some sim
                                    /\ Qle Dedup.semantic_threshold sim))
              newm
    /\ same_up_to_status (raw_items s) (raw_items s')
    /\ item_embeddings s' = item_embeddings s
    /\ item_scores s' = item_scores s.

(** The members of a cluster. *)
Definition members_of (s : Store) (cid : UUID) : list ClusterMember :=
  filter (fun m => Nat.eqb (cm_cluster_id m) cid) (cluster_members s).

End Shape.

(* ================================================================== *)
(** * Further concrete stores and environments *)
(* ================================================================== *)

Module MoreExamples.
Import Ingestion.
Local Open Scope string_scope.

(** ** A Hacker News listing of three ids *)

Definition two_limit : Settings :=
  {| OPENAI_API_KEY := None;
     MAX_ITEMS_PER_SOURCE := 2%Z;
     AI_SCORING_ENABLED := true;
     BRIEFING_NUM_ITEMS := 10%Z |}.

Definition hn_source : Source :=
  {| source_id := 3;
     source_name := "Hacker News - New";
     source_type := API_HN;
     source_url := Some "https://news.ycombinator.com";
     source_metadata := {| story_type := Some "new"; subreddit := None;
                           sort := None; time_filter := None |};
     source_category := Some "tech";
     source_enabled := true;
     credibility_tier := 2%Z |}.

Definition ask_story : HNStory :=
  {| st_type := Some "story"; st_deleted := false; st_dead := false;
     st_title := Some "Ask HN: who is hiring?"; st_url := None;
     st_text := Some "Monthly thread."; st_time := Some 1700000000%Z;
     st_score := Some 42%Z |}.

Definition hn_api : HNApi :=
  {| hn_listing := fun _ => HttpOk [8863%Z; 8864%Z; 8865%Z];
     hn_item := fun id => if Z.eqb id 8863 then StoryJson ask_story
                          else StoryFailed |}.

Definition ask_item : NormalizedItem :=
  {| ni_external_id := "8863";
     ni_url := "https://news.ycombinator.com/item?id=8863";
     ni_title := "Ask HN: who is hiring?";
     ni_kind := POST;
     ni_raw_text := Some "Monthly thread.";
     ni_published_at := Some 1700000000000000%Z;
     ni_raw_payload := PayloadHN 8863 42 (Some "story") |}.

(** ** A subreddit read without credentials *)

Definition reddit_source : Source :=
  {| source_id := 4;
     source_name := "Reddit - r/rust";
     source_type := API_REDDIT;
     source_url := Some "https://reddit.com/r/rust";
     source_metadata := {| story_type := None; subreddit := None;
                           sort := None; time_filter := None |};
     source_category := Some "tech";
     source_enabled := true;
     credibility_tier := 3%Z |}.

Definition self_post : RedditPost :=
  {| p_id := Some "abc123"; p_title := Some "  Weekly questions thread ";
     p_removed_by_category := None; p_removed := false;
     p_url := None; p_permalink := Some "/r/rust/comments/abc123/";
     p_is_self := true; p_selftext := Some "Ask away.";
     p_created_utc := Some 1700000000%Z; p_score := Some 10%Z;
     p_upvote_ratio := Some 0.9%Q |}.

Definition reddit_api : RedditApi :=
  {| reddit_token := None;
     reddit_oauth := fun _ _ _ => HttpError "unauthorized";
     reddit_public := fun sub _ limit =>
                        if String.eqb sub "rust" && (limit =? 25)%Z
                        then HttpOk [self_post] else HttpOk [] |}.

Definition self_item : NormalizedItem :=
  {| ni_external_id := "abc123";
     ni_url := "https://reddit.com/r/rust/comments/abc123/";
     ni_title := "Weekly questions thread";
     ni_kind := POST;
     ni_raw_text := Some "Ask away.";
     ni_published_at := Some 1700000000000000%Z;
     ni_raw_payload := PayloadReddit "abc123" 10 0.9%Q true |}.

(** ** A database that refuses a title holding the NUL character

    PostgreSQL stores no character of code 0 in a [Text] column: the
    insert of such a row raises at [flush]. *)






(** ** Two items with the same link *)

Definition twin_store : Store :=
  {| sources := [Examples.feed_source];
     raw_items := [Examples.story 0 "Same story" Examples.noon;
                   Examples.story 1 "Same story" Examples.noon];
     extracted_content := [];
     item_embeddings := []; clusters := []; cluster_members := [];
     item_scores := []; briefings := []; briefing_items := [];
     users := []; user_preferences := []; next_uuid := 2;
     dbms := lenient_dbms |}.

(** ** An item waiting for extraction, and a web that is down *)

Definition new_store : Store :=
  {| sources := [Examples.feed_source];
     raw_items := [Examples.article 1 "new"];
     extracted_content := [];
     item_embeddings := []; clusters := []; cluster_members := [];
     item_scores := []; briefings := []; briefing_items := [];
     users := []; user_preferences := []; next_uuid := 8;
     dbms := lenient_dbms |}.

Definition dead_web : Extractor.Web :=
  {| Extractor.http_get := fun _ => HttpError "connection refused";
     Extractor.trafilatura_extract := fun _ => None;
     Extractor.readability_text := fun _ => None |}.

(** ** Two different items with the same title *)

Definition same_title (id : UUID) (ext : string) : RawItem :=
  {| raw_id := id;
     raw_source_id := 0;
     raw_external_id := Some ext;
     raw_kind := ARTICLE;
     raw_title := Some "Acme ships X";
     raw_url := Some (String.append "https://example.org/" ext);
     raw_published_at := None;
     raw_fetched_at := Examples.noon;
     raw_payload := PayloadFeed (Some ext) None;
     raw_text := None;
     raw_status := "extracted" |}.

Definition same_title_store : Store :=
  {| sources := [Examples.feed_source];
     raw_items := [same_title 0 "guid-1"; same_title 1 "guid-2"];
     extracted_content := [];
     item_embeddings := []; clusters := []; cluster_members := [];
     item_scores := []; briefings := []; briefing_items := [];
     users := []; user_preferences := []; next_uuid := 2;
     dbms := lenient_dbms |}.

(** ** A configuration with a provider key *)

Definition keyed_settings : Settings :=
  {| OPENAI_API_KEY := Some "sk-test";
     MAX_ITEMS_PER_SOURCE := 50%Z;
     AI_SCORING_ENABLED := true;
     BRIEFING_NUM_ITEMS := 10%Z |}.

(** ** A world with the feed, the listing and the subreddit above *)

Definition busy_world : World :=
  {| w_feed := fun _ => HttpOk [Examples.entry_a; Examples.entry_a];
     w_hn := hn_api;
     w_reddit := reddit_api |}.

Definition three_sources_store : Store :=
  {| sources := [Examples.feed_source; hn_source; reddit_source];
     raw_items := []; extracted_content := [];
     item_embeddings := []; clusters := []; cluster_members := [];
     item_scores := []; briefings := []; briefing_items := [];
     users := []; user_preferences := []; next_uuid := 10;
     dbms := lenient_dbms |}.

End MoreExamples.

(* ================================================================== *)
(** * Properties of the ingesters *)
(* ================================================================== *)

Module IngestionFacts.
Import Ingestion Shape.

Example strip_trims_both_ends :
  Py.strip "  Show HN: a b  " = "Show HN: a b"%string.
Proof. reflexivity. Qed.

Example slice_with_negative_bound :
  Py.slice_to (-1) [1; 2; 3] = [1; 2] /\ Py.slice_to 0 [1; 2; 3] = [].
Proof. split; reflexivity. Qed.

Example story_id_as_text : Py.str_of_Z 8863 = "8863"%string.
Proof. reflexivity. Qed.

Example subreddit_from_url :
  subreddit_of_url "https://reddit.com/r/rust/hot" = Some "rust"%string.
Proof. reflexivity. Qed.

Lemma insert_effect now sid s item s1 :
  insert_raw_item now sid s item = Some s1 ->
  s1 = Db.set_raw_items (snd (Db.fresh s))
         (raw_items s ++ [new_raw_item (next_uuid s) now sid item]).
Proof.
  unfold insert_raw_item, Db.fresh. cbv beta iota.
  destruct (accepts_raw_item _ _); [|discriminate].
  intros H. injection H as <-. reflexivity.
Qed.

Lemma insert_accepted now sid s item :
  accepts_all s ->
  insert_raw_item now sid s item
  = Some (Db.set_raw_items (snd (Db.fresh s))
            (raw_items s ++ [new_raw_item (next_uuid s) now sid item])).
Proof.
  intros H. unfold insert_raw_item, Db.fresh. cbv beta iota.
  rewrite H. reflexivity.
Qed.

Lemma raw_items_insert now sid s item s1 :
  insert_raw_item now sid s item = Some s1 ->
  raw_items s1 = raw_items s ++ [new_raw_item (next_uuid s) now sid item].
Proof. intros H. apply insert_effect in H. subst s1. reflexivity. Qed.

Lemma sources_insert now sid s item s1 :
  insert_raw_item now sid s item = Some s1 -> sources s1 = sources s.
Proof. intros H. apply insert_effect in H. subst s1. reflexivity. Qed.

Lemma dbms_insert now sid s item s1 :
  insert_raw_item now sid s item = Some s1 -> dbms s1 = dbms s.
Proof. intros H. apply insert_effect in H. subst s1. reflexivity. Qed.

Lemma same_key_spec sid ext r :
  same_key sid ext r = true <-> has_key sid ext r.
Proof.
  unfold same_key, has_key. rewrite andb_true_iff, Nat.eqb_eq.
  destruct (raw_external_id r) as [e|].
  - rewrite String.eqb_eq. split; intros [H1 H2]; split; congruence.
  - split; intros [_ H]; discriminate H.
Qed.

Lemma already_present_spec s sid ext :
  already_present s sid ext = true
  <-> exists r, In r (raw_items s) /\ has_key sid ext r.
Proof.
  unfold already_present. rewrite existsb_exists.
  split; intros [r [Hin Hk]]; exists r; split; auto;
    now apply same_key_spec.
Qed.



Lemma accepts_all_dbms s s' : dbms s' = dbms s -> accepts_all s -> accepts_all s'.
Proof. unfold accepts_all. intros ->. auto. Qed.

(** ** What the run keeps whatever the database does *)

Lemma ingest_item_frame now sid committed acc item :
  sources committed = sources (fst acc) ->
  dbms committed = dbms (fst acc) ->
  sources (fst (ingest_item now sid committed acc item)) = sources (fst acc)
  /\ dbms (fst (ingest_item now sid committed acc item)) = dbms (fst acc).
Proof.
  intros Hs Hd. unfold ingest_item.
  destruct (already_present (fst acc) sid (ni_external_id item)); auto.
  destruct (insert_raw_item now sid (fst acc) item) as [s1|] eqn:E;
    cbn [fst]; [|auto].
  split; [exact (sources_insert _ _ _ _ _ E)|exact (dbms_insert _ _ _ _ _ E)].
Qed.

Lemma fold_frame now sid committed items : forall acc,
  sources committed = sources (fst acc) ->
  dbms committed = dbms (fst acc) ->
  sources (fst (fold_left (ingest_item now sid committed) items acc))
  = sources (fst acc)
  /\ dbms (fst (fold_left (ingest_item now sid committed) items acc))
     = dbms (fst acc).
Proof.
  induction items as [|it items IH]; intros acc Hs Hd; simpl; auto.
  destruct (ingest_item_frame now sid committed acc it Hs Hd) as [F1 F2].
  destruct (IH (ingest_item now sid committed acc it)) as [G1 G2];
    [congruence|congruence|].
  split; congruence.
Qed.

Lemma fold_sources now sid s items :
  sources (fst (fold_left (ingest_item now sid s) items (s, 0))) = sources s.
Proof. exact (proj1 (fold_frame now sid s items (s, 0) eq_refl eq_refl)). Qed.

Lemma fold_dbms now sid s items :
  dbms (fst (fold_left (ingest_item now sid s) items (s, 0))) = dbms s.
Proof. exact (proj2 (fold_frame now sid s items (s, 0) eq_refl eq_refl)). Qed.



Lemma ingest_frame now fetch s sid :
  sources (fst (ingest now fetch s sid)) = sources s
  /\ dbms (fst (ingest now fetch s sid)) = dbms s.
Proof.
  unfold ingest. destruct (Db.find_source s sid) as [src|]; auto.
  destruct (source_enabled src); simpl; auto.
  destruct (fetch src) as [msg|items]; auto.
  pose proof (fold_sources now sid s items) as H1.
  pose proof (fold_dbms now sid s items) as H2.
  destruct (fold_left (ingest_item now sid s) items (s, 0)) as [s' n].
  auto.
Qed.




(** ** The run when no insert raises *)

Lemma ingest_item_accepted now sid committed acc item :
  accepts_all (fst acc) ->
  ingest_item now sid committed acc item
  = if already_present (fst acc) sid (ni_external_id item) then acc
    else (Db.set_raw_items (snd (Db.fresh (fst acc)))
            (raw_items (fst acc)
             ++ [new_raw_item (next_uuid (fst acc)) now sid item]),
          S (snd acc)).
Proof.
  intros H. unfold ingest_item.
  destruct (already_present (fst acc) sid (ni_external_id item)); auto.
  rewrite (insert_accepted now sid (fst acc) item H). reflexivity.
Qed.

Lemma ingest_item_accepts now sid committed acc item :
  accepts_all (fst acc) ->
  accepts_all (fst (ingest_item now sid committed acc item)).
Proof.
  intros H. rewrite (ingest_item_accepted _ _ _ _ _ H).
  destruct (already_present (fst acc) sid (ni_external_id item)); auto.
Qed.



Lemma fold_accepts now sid committed items : forall acc,
  accepts_all (fst acc) ->
  accepts_all (fst (fold_left (ingest_item now sid committed) items acc)).
Proof.
  induction items as [|it items IH]; intros acc H; simpl; auto.
  apply IH. now apply ingest_item_accepts.
Qed.






Lemma ingest_accepts now fetch s sid :
  accepts_all s -> accepts_all (fst (ingest now fetch s sid)).
Proof.
  apply accepts_all_dbms. exact (proj2 (ingest_frame now fetch s sid)).
Qed.

Section Stage.
Variables (cfg : Settings) (w : World).

Lemma step_frame now acc source :
  sources (fst (ingest_all_step cfg w now acc source)) = sources (fst acc)
  /\ dbms (fst (ingest_all_step cfg w now acc source)) = dbms (fst acc).
Proof.
  unfold ingest_all_step.
  destruct (fetch_for cfg w (source_type source)) as [fetch|]; auto.
  pose proof (ingest_frame now fetch (fst acc) (source_id source)) as H.
  destruct (ingest now fetch (fst acc) (source_id source)); exact H.
Qed.

Lemma step_sources now acc source :
  sources (fst (ingest_all_step cfg w now acc source)) = sources (fst acc).
Proof. exact (proj1 (step_frame now acc source)). Qed.

Lemma step_accepts now acc source :
  accepts_all (fst acc) ->
  accepts_all (fst (ingest_all_step cfg w now acc source)).
Proof. apply accepts_all_dbms. exact (proj2 (step_frame now acc source)). Qed.











End Stage.




(** ** How many items a fetch returns *)

Lemma collect_length {A B : Type} (f : A -> option B) (l : list A) :
  List.length (collect f l) <= List.length l.
Proof.
  induction l as [|a l IH]; simpl; auto.
  destruct (f a); simpl; lia.
Qed.

(** The Hacker News ingester keeps to a non-negative ceiling. *)
Lemma hn_fetch_bounded cfg api source items :
  (0 <= MAX_ITEMS_PER_SOURCE cfg)%Z ->
  hn_fetch cfg api source = Fetched items ->
  List.length items <= Z.to_nat (MAX_ITEMS_PER_SOURCE cfg).
Proof.
  unfold hn_fetch. intros Hpos H.
  destruct (hn_listing api _) as [msg|ids]; inversion H; subst items.
  eapply Nat.le_trans; [apply collect_length|].
  unfold Py.slice_to.
  apply Z.leb_le in Hpos. rewrite Hpos. cbv iota.
  rewrite length_firstn. lia.
Qed.

(** The feed ingester keeps to 100 entries, whatever the setting. *)
Lemma rss_fetch_bounded feed items :
  rss_fetch feed = Fetched items -> List.length items <= 100.
Proof.
  unfold rss_fetch. intros H.
  destruct feed as [msg|entries]; [discriminate|].
  injection H as <-.
  exact (Nat.le_trans _ _ _
           (collect_length _parse_entry (firstn 100 entries))
           (firstn_le_length 100 entries)).
Qed.

(** C6 fails on the feed ingester.  With [MAX_ITEMS_PER_SOURCE = 0] a
    run over a feed of one entry fetches one item and inserts one
    [RawItem]: [RSSIngester.fetch] cuts the entries at the literal 100
    and never reads the setting. *)
Theorem rss_fetch_ignores_max_items_per_source :
  MAX_ITEMS_PER_SOURCE Examples.zero_limit = 0%Z
  /\ snd (ingest_source Examples.zero_limit Examples.one_entry_world
                        Examples.noon Examples.feed_only_store 0)
     = IngestDone 1 1
  /\ List.length
       (raw_items (fst (ingest_source Examples.zero_limit
                                      Examples.one_entry_world Examples.noon
                                      Examples.feed_only_store 0)))
     = 1.
Proof. repeat split; vm_compute; reflexivity. Qed.

End IngestionFacts.

(* ================================================================== *)
(** * Properties of the deduplicator *)
(* ================================================================== *)

Module DedupFacts.
Import Dedup.

Lemma filter_none {A : Type} (f : A -> bool) (l : list A) :
  (forall x, In x l -> f x = false) -> filter f l = [].
Proof.
  induction l as [|a l IH]; intros H; simpl; auto.
  rewrite (H a) by now left. apply IH. intros x Hx. apply H. now right.
Qed.

Lemma scalar_one_in {A : Type} (l : list A) (a : A) :
  Db.scalar_one_or_none l = Db.OneRow a -> In a l.
Proof.
  destruct l as [|x [|y l]]; simpl; intros H; inversion H. now left.
Qed.

(** The invariant reads three components of the store only. *)
Lemma invariant_ext s s' :
  clusters s' = clusters s ->
  cluster_members s' = cluster_members s ->
  next_uuid s' = next_uuid s ->
  cluster_invariant s -> cluster_invariant s'.
Proof.
  unfold cluster_invariant, keys_below, unmerged_ok, canonical_ok,
    canonical_members.
  intros Hc Hm Hn. rewrite Hc, Hm, Hn. auto.
Qed.

Lemma update_status_invariant id st s :
  cluster_invariant s -> cluster_invariant (Db.update_status id st s).
Proof. apply invariant_ext; reflexivity. Qed.

(** Adding a member that is not canonical, to a cluster id in use. *)
Lemma add_member_plain s m s' :
  add_member s m = Some s' ->
  is_canonical m = false ->
  cm_cluster_id m < next_uuid s ->
  cluster_invariant s -> cluster_invariant s'.
Proof.
  unfold add_member.
  destruct (existsb _ _); intros H; inversion H; subst s'; clear H.
  intros Hnc Hlt [[Hkc Hkm] Hok]. split; [split|]; simpl.
  - exact Hkc.
  - intros x Hx. apply in_app_or in Hx. destruct Hx as [Hx|[<-|[]]]; auto.
  - intros c Hc Hst. destruct (Hok c Hc Hst) as [mc [E Hsim]].
    exists mc. split; auto. unfold canonical_members in *. simpl.
    rewrite filter_app, E. simpl. rewrite Hnc, andb_false_r. reflexivity.
Qed.

(** Opening a cluster and adding its canonical member. *)
Lemma add_canonical now s item s2 :
  add_member (snd (add_cluster now s item))
             {| cm_cluster_id := fst (add_cluster now s item);
                cm_raw_item_id := item;
                is_canonical := true;
                similarity := Some 1.0%Q |} = Some s2 ->
  cluster_invariant s ->
  cluster_invariant s2 /\ fst (add_cluster now s item) < next_uuid s2.
Proof.
  unfold add_member, add_cluster. simpl.
  destruct (existsb _ _); intros H; inversion H; subst s2; clear H.
  intros [[Hkc Hkm] Hok]. split; [|simpl; lia].
  split; [split|]; simpl.
  - intros c Hc. apply in_app_or in Hc. destruct Hc as [Hc|[<-|[]]].
    + specialize (Hkc c Hc). lia.
    + simpl. lia.
  - intros m Hm. apply in_app_or in Hm. destruct Hm as [Hm|[<-|[]]].
    + specialize (Hkm m Hm). lia.
    + simpl. lia.
  - intros c Hc Hst. unfold canonical_ok, canonical_members. simpl.
    rewrite filter_app. simpl.
    apply in_app_or in Hc. destruct Hc as [Hc|[<-|[]]].
    + destruct (Hok c Hc Hst) as [mc [E Hsim]].
      unfold canonical_members in E. rewrite E.
      specialize (Hkc c Hc).
      replace (Nat.eqb (next_uuid s) (cluster_id c)) with false
        by (symmetry; apply Nat.eqb_neq; lia).
      simpl. exists mc. auto.
    + simpl. rewrite Nat.eqb_refl. simpl.
      rewrite filter_none.
      * eexists. split; reflexivity.
      * intros m Hm. specialize (Hkm m Hm).
        replace (Nat.eqb (cm_cluster_id m) (next_uuid s)) with false
          by (symmetry; apply Nat.eqb_neq; lia).
        reflexivity.
Qed.

Lemma add_cluster_eta now s item :
  add_cluster now s item
  = (fst (add_cluster now s item), snd (add_cluster now s item)).
Proof. reflexivity. Qed.

Lemma _add_to_cluster_invariant now s dup canon sim s' :
  _add_to_cluster now s dup canon sim = Some s' ->
  cluster_invariant s -> cluster_invariant s'.
Proof.
  unfold _add_to_cluster. intros H Hinv.
  destruct (Db.scalar_one_or_none _) as [|m|] eqn:E.
  - rewrite add_cluster_eta in H.
    destruct (add_member (snd (add_cluster now s (raw_id canon))) _)
      as [s2|] eqn:E2; [|discriminate].
    destruct (add_canonical _ _ _ _ E2 Hinv) as [Hinv2 Hlt].
    eapply add_member_plain; eauto.
  - apply scalar_one_in in E. apply filter_In in E. destruct E as [E _].
    eapply add_member_plain; eauto. simpl.
    destruct Hinv as [[_ Hkm] _]. now apply Hkm.
  - discriminate.
Qed.

Lemma check_exact_duplicate_invariant now s item s' b :
  check_exact_duplicate now s item = Some (s', b) ->
  cluster_invariant s -> cluster_invariant s'.
Proof.
  unfold check_exact_duplicate. intros H Hinv.
  destruct (Db.scalar_one_or_none _) as [|m|].
  - destruct (Db.scalar_one_or_none _) as [|m|].
    + inversion H; subst; auto.
    + destruct (_add_to_cluster now s item m 1.0%Q) as [s1|] eqn:E;
        inversion H; subst.
      eapply _add_to_cluster_invariant; eauto.
    + discriminate.
  - destruct (_add_to_cluster now s item m 1.0%Q) as [s1|] eqn:E;
      inversion H; subst.
    eapply _add_to_cluster_invariant; eauto.
  - discriminate.
Qed.

Section VectorIndexFacts.
Variable cosine_distance : Vector -> Vector -> Q.

Lemma check_semantic_duplicate_invariant now s item_id s' b :
  check_semantic_duplicate cosine_distance now s item_id = Some (s', b) ->
  cluster_invariant s -> cluster_invariant s'.
Proof.
  unfold check_semantic_duplicate. intros H Hinv.
  destruct (find _ (item_embeddings s)) as [e|]; [|inversion H; subst; auto].
  destruct (similarity_query _ _ _ _ _ _) as [|[best sim] rest];
    [inversion H; subst; auto|].
  destruct (Db.find_raw_item s best) as [canon|]; [|inversion H; subst; auto].
  destruct (Db.find_raw_item s item_id) as [item|]; [|inversion H; subst; auto].
  destruct (_add_to_cluster now s item canon sim) as [s1|] eqn:E;
    inversion H; subst.
  eapply _add_to_cluster_invariant; eauto.
Qed.

Lemma open_cluster_for_invariant now s item cid s' :
  open_cluster_for now s item = Some (cid, s') ->
  cluster_invariant s -> cluster_invariant s'.
Proof.
  unfold open_cluster_for. rewrite add_cluster_eta. intros H Hinv.
  destruct (add_member _ _) as [s2|] eqn:E; inversion H; subst.
  now destruct (add_canonical _ _ _ _ E Hinv).
Qed.

Lemma cluster_item_invariant now s item s' b :
  cluster_item cosine_distance now s item = Some (s', b) ->
  cluster_invariant s -> cluster_invariant s'.
Proof.
  unfold cluster_item. intros H Hinv.
  destruct (check_semantic_duplicate _ _ _ _) as [[s1 [|]]|] eqn:E;
    try discriminate.
  - inversion H; subst. apply update_status_invariant.
    eapply check_semantic_duplicate_invariant; eauto.
  - destruct (open_cluster_for now s1 (raw_id item)) as [[cid s2]|] eqn:E2;
      inversion H; subst.
    apply update_status_invariant.
    eapply open_cluster_for_invariant; eauto.
    eapply check_semantic_duplicate_invariant; eauto.
Qed.

Lemma cluster_step_invariant now acc item :
  cluster_invariant (fst acc) ->
  cluster_invariant (fst (cluster_step cosine_distance now acc item)).
Proof.
  unfold cluster_step. intros Hinv.
  destruct (cluster_item _ _ _ _) as [[s' [|]]|] eqn:E; simpl; auto;
    eapply cluster_item_invariant; eauto.
Qed.

Lemma cluster_all_pending_invariant now limit s :
  cluster_invariant s ->
  cluster_invariant (fst (cluster_all_pending cosine_distance now limit s)).
Proof.
  unfold cluster_all_pending. intros Hinv.
  generalize (pending_items limit s).
  assert (H : cluster_invariant
                (fst (s, {| items_processed := 0; clusters_created := 0;
                            duplicates_found := 0 |}))) by exact Hinv.
  revert H. generalize (s, {| items_processed := 0; clusters_created := 0;
                              duplicates_found := 0 |}).
  intros acc H l. revert acc H.
  induction l as [|x l IH]; intros acc H; simpl; auto.
  apply IH. now apply cluster_step_invariant.
Qed.

Lemma assign_cluster_invariant now s item_id :
  cluster_invariant s ->
  cluster_invariant (fst (assign_cluster cosine_distance now s item_id)).
Proof.
  unfold assign_cluster. intros Hinv.
  destruct (Db.find_raw_item s item_id) as [item|]; simpl; auto.
  destruct (check_semantic_duplicate _ _ _ _) as [[s1 [|]]|] eqn:E;
    simpl; auto.
  - eapply check_semantic_duplicate_invariant; eauto.
  - destruct (open_cluster_for now s1 (raw_id item)) as [[cid s2]|] eqn:E2;
      simpl; auto.
    apply update_status_invariant.
    eapply open_cluster_for_invariant; eauto.
    eapply check_semantic_duplicate_invariant; eauto.
Qed.

End VectorIndexFacts.

Lemma moved_not_canonical target cid k l :
  k <> cid ->
  filter (fun m => Nat.eqb (cm_cluster_id m) k && is_canonical m)
         (map (moved_to target cid) l)
  = filter (fun m => Nat.eqb (cm_cluster_id m) k && is_canonical m) l.
Proof.
  intros Hk. induction l as [|m l IH]; simpl; auto.
  rewrite IH. unfold moved_to.
  destruct (Nat.eqb (cm_cluster_id m) cid) eqn:E; auto.
  simpl. rewrite andb_false_r.
  apply Nat.eqb_eq in E.
  replace (Nat.eqb (cm_cluster_id m) k) with false
    by (symmetry; apply Nat.eqb_neq; lia).
  reflexivity.
Qed.

Lemma move_members_facts target cid s s1 :
  move_members target cid s = Some s1 ->
  keys_below s ->
  keys_below s1
  /\ clusters s1 = clusters s
  /\ (forall k, k <> cid ->
        canonical_members s1 k = canonical_members s k).
Proof.
  unfold move_members. intros H [Hkc Hkm].
  destruct (existsb (fun m => Nat.eqb (cm_cluster_id m) cid)
                    (cluster_members s)) eqn:Et;
    destruct (existsb (fun c => Nat.eqb (cluster_id c) target) (clusters s))
      eqn:Ee; simpl in H; try discriminate;
    destruct (unique_keys _); simpl in H; inversion H; subst s1; clear H;
    (split; [split|split]); simpl; auto;
    try (intros k Hk; unfold canonical_members; simpl;
         now apply moved_not_canonical).
  - intros m Hm. apply in_map_iff in Hm. destruct Hm as [m0 [<- Hm0]].
    unfold moved_to. destruct (Nat.eqb (cm_cluster_id m0) cid); auto.
    simpl. apply existsb_exists in Ee. destruct Ee as [c [Hc Hid]].
    apply Nat.eqb_eq in Hid. rewrite <- Hid. now apply Hkc.
  - intros m Hm. apply in_map_iff in Hm. destruct Hm as [m0 [<- Hm0]].
    unfold moved_to. destruct (Nat.eqb (cm_cluster_id m0) cid) eqn:E; auto.
    exfalso. assert (Hex : existsb (fun m => Nat.eqb (cm_cluster_id m) cid)
                                   (cluster_members s) = true).
    { apply existsb_exists. now exists m0. }
    congruence.
  - intros m Hm. apply in_map_iff in Hm. destruct Hm as [m0 [<- Hm0]].
    unfold moved_to. destruct (Nat.eqb (cm_cluster_id m0) cid) eqn:E; auto.
    exfalso. assert (Hex : existsb (fun m => Nat.eqb (cm_cluster_id m) cid)
                                   (cluster_members s) = true).
    { apply existsb_exists. now exists m0. }
    congruence.
Qed.

(** One turn of the merge loop: the members of [cid] move and lose the
    canonical flag, and [cid] is marked merged. *)
Lemma merge_turn_invariant target cid s s1 :
  move_members target cid s = Some s1 ->
  cluster_invariant s -> cluster_invariant (mark_merged cid s1).
Proof.
  intros H [Hk Hok].
  destruct (move_members_facts _ _ _ _ H Hk) as [[Hkc Hkm] [Hcl Hcan]].
  split; [split|]; simpl.
  - intros c Hc. apply in_map_iff in Hc. destruct Hc as [c0 [<- Hc0]].
    rewrite Hcl in Hc0. destruct Hk as [Hkc0 _]. specialize (Hkc0 c0 Hc0).
    assert (En : next_uuid s1 = next_uuid s).
    { unfold move_members in H.
      destruct (_ && _); [discriminate|].
      destruct (negb _); inversion H; reflexivity. }
    rewrite En. destruct (Nat.eqb (cluster_id c0) cid); simpl; auto.
  - exact Hkm.
  - intros c Hc Hst. apply in_map_iff in Hc. destruct Hc as [c0 [E Hc0]].
    destruct (Nat.eqb (cluster_id c0) cid) eqn:Eid.
    + subst c. simpl in Hst. congruence.
    + subst c. rewrite Hcl in Hc0. apply Nat.eqb_neq in Eid.
      destruct (Hok c0 Hc0 Hst) as [mc [Em Hsim]].
      exists mc. split; auto.
      change (canonical_members (mark_merged cid s1) (cluster_id c0))
        with (canonical_members s1 (cluster_id c0)).
      rewrite Hcan; auto.
Qed.

Lemma merge_loop_invariant target rest : forall s n s' n',
  merge_loop target rest s n = Some (s', n') ->
  cluster_invariant s -> cluster_invariant s'.
Proof.
  induction rest as [|cid rest IH]; intros s n s' n' H Hinv; simpl in H.
  - inversion H; subst; auto.
  - destruct (move_members target cid s) as [s1|] eqn:E; [|discriminate].
    eapply IH; eauto. eapply merge_turn_invariant; eauto.
Qed.

Lemma merge_clusters_invariant s ids :
  cluster_invariant s -> cluster_invariant (fst (merge_clusters s ids)).
Proof.
  intros Hinv. unfold merge_clusters.
  destruct ids as [|target [|cid rest]]; simpl; auto.
  destruct (move_members target cid s) as [s1|] eqn:E; simpl; auto.
  destruct (merge_loop target rest _ _) as [[s' n']|] eqn:E2; simpl; auto.
  eapply merge_loop_invariant; eauto. eapply merge_turn_invariant; eauto.
Qed.

Lemma archive_old_clusters_invariant now days_old s :
  cluster_invariant s ->
  cluster_invariant (archive_old_clusters now days_old s).
Proof.
  intros [[Hkc Hkm] Hok]. split; [split|]; simpl; auto.
  - intros c Hc. apply in_map_iff in Hc. destruct Hc as [c0 [<- Hc0]].
    specialize (Hkc c0 Hc0). destruct (_ && _); simpl; auto.
  - intros c Hc Hst. apply in_map_iff in Hc. destruct Hc as [c0 [E Hc0]].
    assert (Hid : cluster_id c = cluster_id c0).
    { subst c. destruct (_ && _); reflexivity. }
    assert (Hst0 : cluster_status c0 <> MERGED).
    { subst c.
      destruct (_ && ClusterStatus_eqb (cluster_status c0) OPEN) eqn:Eb; auto.
      apply andb_true_iff in Eb. destruct Eb as [_ Eb].
      destruct (cluster_status c0); simpl in Eb; congruence. }
    destruct (Hok c0 Hc0 Hst0) as [mc [Em Hsim]].
    exists mc. split; auto. rewrite Hid. exact Em.
Qed.

Lemma run_op_invariant dist s op :
  cluster_invariant s -> cluster_invariant (run_op dist s op).
Proof.
  intros Hinv. destruct op as [now item|now id|now id|now limit|ids|now d];
    simpl.
  - destruct (check_exact_duplicate now s item) as [[s' b]|] eqn:E; auto.
    eapply check_exact_duplicate_invariant; eauto.
  - destruct (check_semantic_duplicate dist now s id) as [[s' b]|] eqn:E; auto.
    eapply check_semantic_duplicate_invariant; eauto.
  - now apply assign_cluster_invariant.
  - now apply cluster_all_pending_invariant.
  - now apply merge_clusters_invariant.
  - now apply archive_old_clusters_invariant.
Qed.

Lemma run_ops_invariant dist ops : forall s,
  cluster_invariant s -> cluster_invariant (run_ops dist s ops).
Proof.
  induction ops as [|op ops IH]; intros s Hinv; simpl; auto.
  apply IH. now apply run_op_invariant.
Qed.

Lemma no_clusters_invariant s :
  clusters s = [] -> cluster_members s = [] -> cluster_invariant s.
Proof.
  intros Hc Hm. unfold cluster_invariant, keys_below, unmerged_ok.
  rewrite Hc, Hm. repeat split; intros x [].
Qed.

(** C4, as stated, does not hold: after two items are clustered one by
    one and their clusters merged, the emptied cluster is still a row of
    [clusters] and has no canonical member. *)
Lemma merged_cluster_has_no_canonical_member :
  exists c,
    In c (clusters (run_ops unit_cosine_distance Examples.pair_store
                            Examples.assign_then_merge))
    /\ ~ canonical_ok (run_ops unit_cosine_distance Examples.pair_store
                               Examples.assign_then_merge) c.
Proof.
  exists {| cluster_id := 3; canonical_item_id := 1;
            cluster_status := MERGED;
            cluster_created_at := Examples.noon |}.
  split.
  - vm_compute. right. left. reflexivity.
  - intros [m [E _]]. vm_compute in E. discriminate E.
Qed.

(** C4, amended.  Starting from a store without clusters, after any
    sequence of clustering operations (exact join, semantic join, single
    assignment, the batch pass, [merge_clusters], archival) every cluster
    whose status is not [MERGED] has exactly one member with
    [is_canonical = true], and that member's similarity is 1.0. *)
Theorem unmerged_cluster_has_one_canonical_member :
  forall (dist : Vector -> Vector -> Q) (s0 : Store) (ops : list ClusterOp)
         (c : Cluster),
    clusters s0 = [] ->
    cluster_members s0 = [] ->
    In c (clusters (run_ops dist s0 ops)) ->
    cluster_status c <> MERGED ->
    exists m, canonical_members (run_ops dist s0 ops) (cluster_id c) = [m]
              /\ similarity m = Some 1.0%Q.
Proof.
  intros dist s0 ops c Hc Hm Hin Hst.
  destruct (run_ops_invariant dist ops s0 (no_clusters_invariant s0 Hc Hm))
    as [_ Hok].
  exact (Hok c Hin Hst).
Qed.

Lemma unmerged_cluster_has_one_canonical_member_witness :
  exists m,
    canonical_members (run_ops unit_cosine_distance Examples.pair_store
                               Examples.assign_then_merge) 2 = [m]
    /\ similarity m = Some 1.0%Q.
Proof.
  apply (unmerged_cluster_has_one_canonical_member
           unit_cosine_distance Examples.pair_store
           Examples.assign_then_merge
           {| cluster_id := 2; canonical_item_id := 0;
              cluster_status := OPEN;
              cluster_created_at := Examples.noon |}).
  - reflexivity.
  - reflexivity.
  - vm_compute. left. reflexivity.
  - discriminate.
Defined.

(** ** The semantic pass picks a most similar candidate *)

Section BestMatch.
Variable dist : Vector -> Vector -> Q.

Lemma insert_desc_in x l y :
  In y (insert_desc x l) <-> y = x \/ In y l.
Proof.
  induction l as [|a l IH]; simpl.
  - intuition.
  - destruct (Qle_bool (snd a) (snd x)); simpl; [intuition|].
    rewrite IH. intuition.
Qed.

Lemma order_in l y : In y (order_by_similarity_desc l) <-> In y l.
Proof.
  induction l as [|a l IH]; simpl; [reflexivity|].
  rewrite insert_desc_in, IH. intuition.
Qed.

Lemma insert_desc_head x l b :
  (forall b0, hd_error l = Some b0 ->
              forall c, In c l -> (snd c <= snd b0)%Q) ->
  hd_error (insert_desc x l) = Some b ->
  forall c, In c (insert_desc x l) -> (snd c <= snd b)%Q.
Proof.
  intros Hl Hb c Hc. apply insert_desc_in in Hc.
  destruct l as [|y r]; simpl in Hb.
  - inversion Hb; subst b. destruct Hc as [->|[]]. apply Qle_refl.
  - specialize (Hl y eq_refl).
    destruct (Qle_bool (snd y) (snd x)) eqn:E; simpl in Hb;
      inversion Hb; subst b.
    + apply Qle_bool_iff in E. destruct Hc as [->|Hc].
      * apply Qle_refl.
      * eapply Qle_trans; [apply (Hl c Hc)|exact E].
    + destruct Hc as [->|Hc]; [|now apply Hl].
      destruct (Qlt_le_dec (snd x) (snd y)) as [Hlt|Hle].
      * now apply Qlt_le_weak.
      * apply Qle_bool_iff in Hle. congruence.
Qed.

Lemma order_head l : forall b,
  hd_error (order_by_similarity_desc l) = Some b ->
  forall c, In c (order_by_similarity_desc l) -> (snd c <= snd b)%Q.
Proof.
  induction l as [|a l IH]; simpl; intros b Hb c Hc.
  - discriminate Hb.
  - eapply insert_desc_head; eauto.
Qed.

Lemma hd_firstn_5 {A : Type} (l : list A) :
  hd_error (firstn 5 l) = hd_error l.
Proof. destruct l; reflexivity. Qed.

Lemma candidates_above s target item_id cutoff threshold c :
  In c (candidates dist s target item_id cutoff threshold) ->
  (threshold <= snd c)%Q.
Proof.
  unfold candidates. intros H.
  apply in_flat_map in H. destruct H as [ie [_ H]].
  apply in_flat_map in H. destruct H as [ri [_ H]].
  destruct (_ && Qle_bool threshold _) eqn:E; [|destruct H].
  destruct H as [<-|[]]. simpl.
  apply andb_true_iff in E. destruct E as [_ E].
  now apply Qle_bool_iff.
Qed.

Lemma flat_map_over_map {A B C : Type} (g : A -> B) (h : B -> list C) l :
  flat_map h (map g l) = flat_map (fun x => h (g x)) l.
Proof. induction l as [|a l IH]; simpl; congruence. Qed.

Lemma candidates_republish f s target item_id cutoff threshold :
  candidates dist (republish f s) target item_id cutoff threshold
  = candidates dist s target item_id cutoff threshold.
Proof.
  unfold candidates. simpl. apply flat_map_ext. intros ie.
  now rewrite flat_map_over_map.
Qed.

Lemma best_match_republish f now s item_id :
  best_match dist now (republish f s) item_id = best_match dist now s item_id.
Proof.
  unfold best_match, similarity_query. simpl.
  destruct (find _ (item_embeddings s)); auto.
  now rewrite candidates_republish.
Qed.

End BestMatch.

(** C5, as stated, does not hold.  Item 10 has two neighbours of
    similarity exactly 1, the canonical members of clusters 20 and 21;
    item 12 was published 45 hours before item 11, and item 10 joins the
    cluster of item 11. *)
Lemma tie_is_not_broken_by_published_at :
  best_match unit_cosine_distance Examples.noon Examples.tie_store 10
  = Some (11, 1%Q)
  /\ In (12, 1%Q)
        (candidates unit_cosine_distance Examples.tie_store Examples.axis 10
           (Examples.noon - timedelta_days time_window_days)%Z
           semantic_threshold)
  /\ option_map raw_published_at (Db.find_raw_item Examples.tie_store 12)
     = Some (Some (Examples.noon - timedelta_hours 48)%Z)
  /\ option_map raw_published_at (Db.find_raw_item Examples.tie_store 11)
     = Some (Some (Examples.noon - timedelta_hours 3)%Z)
  /\ option_map (fun r => cluster_members (fst r))
       (check_semantic_duplicate unit_cosine_distance Examples.noon
                                 Examples.tie_store 10)
     = Some [Examples.sole_member 20 11; Examples.sole_member 21 12;
             {| cm_cluster_id := 20; cm_raw_item_id := 10;
                is_canonical := false; similarity := Some 1%Q |}].
Proof.
  repeat split; try (vm_compute; reflexivity).
  vm_compute. right. left. reflexivity.
Qed.

(** C5, amended.  The row the semantic pass acts on is the head of the
    similarity-descending result: a neighbour inside the 7-day window
    with similarity at least 0.92 that no other such neighbour exceeds.
    The item is added to a cluster through [_add_to_cluster] with that
    neighbour as canonical item.  [published_at] is not consulted:
    replacing it on every row leaves the choice as it was. *)
Theorem semantic_match_is_most_similar :
  forall (dist : Vector -> Vector -> Q) (now : datetime) (s : Store)
         (item_id : UUID) (b : Neighbor),
    best_match dist now s item_id = Some b ->
    (exists e,
        find (fun e => Nat.eqb (emb_raw_item_id e) item_id) (item_embeddings s)
        = Some e
        /\ In b (candidates dist s (embedding e) item_id
                   (now - timedelta_days time_window_days)%Z
                   semantic_threshold)
        /\ forall c,
             In c (candidates dist s (embedding e) item_id
                     (now - timedelta_days time_window_days)%Z
                     semantic_threshold) ->
             (snd c <= snd b)%Q)
    /\ (semantic_threshold <= snd b)%Q
    /\ check_semantic_duplicate dist now s item_id
       = match Db.find_raw_item s (fst b), Db.find_raw_item s item_id with
         | Some canonical_item, Some item =>
             match _add_to_cluster now s item canonical_item (snd b) with
             | Some s' => Some (s', true)
             | None => None
             end
         | _, _ => Some (s, false)
         end
    /\ forall f, best_match dist now (republish f s) item_id = Some b.
Proof.
  intros dist now s item_id b Hb.
  assert (Hrep : forall f, best_match dist now (republish f s) item_id = Some b)
    by (intros f; now rewrite best_match_republish).
  unfold best_match in Hb. unfold check_semantic_duplicate.
  destruct (find _ (item_embeddings s)) as [e|]; [|discriminate].
  unfold similarity_query in *. rewrite hd_firstn_5 in Hb.
  pose proof (order_head _ b Hb) as Hmax.
  assert (Hin : In b (candidates dist s (embedding e) item_id
                        (now - timedelta_days time_window_days)%Z
                        semantic_threshold)).
  { apply order_in. destruct (order_by_similarity_desc _); simpl in Hb.
    - discriminate.
    - inversion Hb. now left. }
  split; [|split; [|split]]; auto.
  - exists e. split; auto. split; auto.
    intros c Hc. apply Hmax. now apply order_in.
  - eapply candidates_above; eauto.
  - destruct (order_by_similarity_desc _) as [|[bid sim] rest]; simpl in Hb.
    + discriminate.
    + inversion Hb; subst b. simpl.
      destruct (Db.find_raw_item s bid); auto.
Qed.

Lemma semantic_match_is_most_similar_witness :
  best_match unit_cosine_distance Examples.noon Examples.tie_store 10
  = Some (11, 1%Q)
  /\ (semantic_threshold <= 1)%Q.
Proof.
  assert (H : best_match unit_cosine_distance Examples.noon
                         Examples.tie_store 10 = Some (11, 1%Q))
    by (vm_compute; reflexivity).
  split; [exact H|].
  exact (proj1 (proj2 (semantic_match_is_most_similar
                         unit_cosine_distance Examples.noon
                         Examples.tie_store 10 (11, 1%Q) H))).
Defined.

End DedupFacts.

(* ================================================================== *)
(** * Properties of the scorer *)
(* ================================================================== *)

Module ScoringFacts.
Import Scoring.

Lemma clip01_bounds x : (0 <= Py.clip01 x <= 1)%Q.
Proof.
  unfold Py.clip01. split.
  - apply Q.le_max_l.
  - apply Q.max_lub; [easy|apply Q.le_min_l].
Qed.

Lemma _compute_relevance_heuristic_bounds item source r :
  _compute_relevance_heuristic item source = Some r -> (0 <= r <= 1)%Q.
Proof.
  unfold _compute_relevance_heuristic.
  destruct (raw_title item); intros H; inversion H. apply clip01_bounds.
Qed.

Lemma _compute_relevance_bounds cfg ai item source r :
  _compute_relevance cfg ai item source = Some r -> (0 <= r <= 1)%Q.
Proof.
  unfold _compute_relevance, _compute_relevance_ai.
  destruct (_ && _).
  - destruct (ai_relevance ai item source) as [| |score].
    + apply _compute_relevance_heuristic_bounds.
    + apply _compute_relevance_heuristic_bounds.
    + intros H. inversion H. apply clip01_bounds.
  - apply _compute_relevance_heuristic_bounds.
Qed.

Lemma _compute_cross_source_bounds s item :
  (0 <= _compute_cross_source s item <= 1)%Q.
Proof.
  unfold _compute_cross_source.
  destruct (3 <=? cluster_size s item)%nat; [split; easy|].
  destruct (Nat.eqb (cluster_size s item) 2); split; easy.
Qed.

Lemma _compute_novelty_bounds now item :
  (0 <= _compute_novelty now item <= 1)%Q.
Proof.
  unfold _compute_novelty.
  destruct (raw_published_at item) as [p|];
    repeat match goal with
           | |- context [if ?b then _ else _] => destruct b
           end; split; easy.
Qed.

(** [_score_item] succeeds whenever the source row exists and the item
    has a title. *)
Lemma _score_item_total cfg ai now s item source title :
  Db.find_source s (raw_source_id item) = Some source ->
  raw_title item = Some title ->
  exists s' sc, _score_item cfg ai now s item = Some (s', sc).
Proof.
  intros Hs Ht. unfold _score_item. rewrite Hs.
  assert (Hh : exists r, _compute_relevance_heuristic item source = Some r).
  { unfold _compute_relevance_heuristic. rewrite Ht. eauto. }
  assert (Hr : exists r, _compute_relevance cfg ai item source = Some r).
  { unfold _compute_relevance.
    destruct (_ && _); auto.
    destruct (_compute_relevance_ai ai item source); eauto. }
  destruct Hr as [r ->]. eauto.
Qed.

(** C3.  Every score row [_score_item] creates has its four components
    in [[0, 1]], a signal score within 1e-9 of
    0.40*relevance + 0.20*velocity + 0.20*cross_source + 0.20*novelty,
    and is the row appended to [item_scores]. *)
Theorem score_row_is_bounded_and_weighted :
  forall (cfg : Settings) (ai : AiEnv) (now : datetime) (s s' : Store)
         (item : RawItem) (sc : ItemScore),
    _score_item cfg ai now s item = Some (s', sc) ->
    (0 <= relevance_score sc <= 1)%Q
    /\ (0 <= velocity_score sc <= 1)%Q
    /\ (0 <= cross_source_score sc <= 1)%Q
    /\ (0 <= novelty_score sc <= 1)%Q
    /\ (Qabs (signal_score sc
              - (0.40 * relevance_score sc + 0.20 * velocity_score sc
                 + 0.20 * cross_source_score sc + 0.20 * novelty_score sc))
        <= 1 # 1000000000)%Q
    /\ item_scores s' = item_scores s ++ [sc].
Proof.
  intros cfg ai now s s' item sc H. unfold _score_item in H.
  destruct (Db.find_source s (raw_source_id item)) as [source|]; [|discriminate].
  destruct (_compute_relevance cfg ai item source) as [r|] eqn:Er;
    [|discriminate].
  inversion H; subst s' sc; clear H.
  cbn [relevance_score velocity_score cross_source_score novelty_score
       signal_score].
  split; [|split; [|split; [|split; [|split]]]].
  - now apply (_compute_relevance_bounds cfg ai item source).
  - apply clip01_bounds.
  - apply _compute_cross_source_bounds.
  - apply _compute_novelty_bounds.
  - unfold W_relevance, W_velocity, W_cross_source, W_novelty.
    apply (proj2 (Qabs_Qle_condition _ _)). split; lra.
  - reflexivity.
Qed.

Lemma score_row_is_bounded_and_weighted_witness :
  _score_item default_settings no_ai Examples.noon Examples.extracted_store
              (Examples.article 1 "extracted")
  = Some (Examples.scored_store, Examples.article_score)
  /\ (0 <= relevance_score Examples.article_score <= 1)%Q.
Proof.
  assert (H : _score_item default_settings no_ai Examples.noon
                          Examples.extracted_store
                          (Examples.article 1 "extracted")
              = Some (Examples.scored_store, Examples.article_score))
    by (vm_compute; reflexivity).
  split; [exact H|].
  exact (proj1 (score_row_is_bounded_and_weighted
                  default_settings no_ai Examples.noon
                  Examples.extracted_store Examples.scored_store
                  (Examples.article 1 "extracted") Examples.article_score H)).
Defined.

(** The scoring task takes items whose status is ["extracted"], and no
    other. *)
Lemma pending_items_are_extracted s r :
  In r (pending_items s) -> raw_status r = "extracted"%string.
Proof.
  unfold pending_items. intros H.
  match type of H with
  | In _ (firstn ?n ?l) =>
      assert (H' : In r l)
        by (rewrite <- (firstn_skipn n l); apply in_or_app; now left)
  end.
  apply filter_In in H'. destruct H' as [_ H'].
  clear H. rename H' into H.
  apply andb_true_iff in H. destruct H as [H _].
  now apply String.eqb_eq.
Qed.

(** C2 fails on the scoring stage.  The periodic scoring task picks the
    items whose status is ["extracted"]: an item that was never embedded
    or clustered, and has no [ClusterMember] row, goes straight to
    ["scored"], while an item whose status is ["clustered"] is left
    alone. *)
Theorem score_all_takes_extracted_items :
  map raw_status (raw_items Examples.extracted_store) = ["extracted"%string]
  /\ cluster_members Examples.extracted_store = []
  /\ map raw_status
       (raw_items (fst (score_all_pending default_settings no_ai Examples.noon
                                          Examples.extracted_store)))
     = ["scored"%string]
  /\ cluster_members (fst (score_all_pending default_settings no_ai
                                             Examples.noon
                                             Examples.extracted_store)) = []
  /\ map raw_status (raw_items Examples.clustered_store)
     = ["clustered"%string]
  /\ score_all_pending default_settings no_ai Examples.noon
                       Examples.clustered_store
     = (Examples.clustered_store,
        {| items_scored := 0; high_signal_count := 0 |}).
Proof. repeat split; vm_compute; reflexivity. Qed.

(** C8, as stated, does not hold: a body of exactly 200 characters
    earns no boost.  With tier 3 and a title of 28 characters the code
    returns 3/5, where the statement gives 0.7. *)
Lemma body_of_200_characters_gets_no_boost :
  body_length (raw_text Examples.body_200) = 200
  /\ _compute_relevance default_settings no_ai Examples.body_200
                        Examples.feed_source = Some (3 # 5)%Q
  /\ (relevance_as_specified (credibility_tier Examples.feed_source)
                             (raw_text Examples.body_200) Examples.headline
      == 0.7)%Q
  /\ ~ (3 # 5 == 0.7)%Q.
Proof.
  repeat split; try (vm_compute; reflexivity).
  intros H. vm_compute in H. discriminate H.
Qed.

(** C8, amended.  Without an LLM client, or when the LLM call fails,
    the relevance of an item is its source's credibility tier over 5,
    plus 0.1 if the body is longer than 200 characters, minus 0.1 if the
    title is shorter than 20 characters, clipped to [[0, 1]]. *)
Theorem relevance_falls_back_to_heuristic :
  forall (cfg : Settings) (ai : AiEnv) (item : RawItem) (source : Source)
         (title : string),
    raw_title item = Some title ->
    _get_ai_client cfg ai = false
    \/ _compute_relevance_ai ai item source = None ->
    exists r,
      _compute_relevance cfg ai item source = Some r
      /\ (r == relevance_over_200 (credibility_tier source) (raw_text item)
                                  title)%Q.
Proof.
  intros cfg ai item source title Ht Hai.
  assert (Hh : exists r,
             _compute_relevance_heuristic item source = Some r
             /\ (r == relevance_over_200 (credibility_tier source)
                                         (raw_text item) title)%Q).
  { unfold _compute_relevance_heuristic, relevance_over_200, body_length.
    rewrite Ht. eexists. split; [reflexivity|].
    assert (Hb : match raw_text item with
                 | Some t => negb (String.eqb t EmptyString)
                             && (200 <? String.length t)%nat
                 | None => false
                 end
                 = (200 <? match raw_text item with
                           | Some t => String.length t
                           | None => 0
                           end)%nat).
    { destruct (raw_text item) as [t|]; [|reflexivity].
      destruct t; reflexivity. }
    rewrite Hb. unfold Py.clip01.
    destruct (200 <? _)%nat; destruct (String.length title <? 20)%nat;
      apply Q.max_compat; try reflexivity;
      apply Q.min_compat; try reflexivity; ring. }
  unfold _compute_relevance.
  destruct Hai as [Hc|Hf].
  - rewrite Hc. exact Hh.
  - rewrite Hf. destruct (_ && _); exact Hh.
Qed.

Lemma relevance_falls_back_to_heuristic_witness :
  exists r,
    _compute_relevance default_settings no_ai Examples.body_200
                       Examples.feed_source = Some r
    /\ (r == relevance_over_200 3 (raw_text Examples.body_200)
                                Examples.headline)%Q.
Proof.
  apply (relevance_falls_back_to_heuristic
           default_settings no_ai Examples.body_200 Examples.feed_source
           Examples.headline).
  - reflexivity.
  - left. reflexivity.
Defined.

End ScoringFacts.

(* ================================================================== *)
(** * Properties of the embedder *)
(* ================================================================== *)

Module EmbeddingFacts.
Import Embedding.

Lemma map_seq_eq (f : nat -> Q) (n : nat) : forall a b,
  map f (seq a n) = map f (seq b n)
  <-> forall i, i < n -> f (a + i) = f (b + i).
Proof.
  induction n as [|n IH]; intros a b; simpl.
  - split; [intros _ i Hi; lia|reflexivity].
  - split.
    + intros H. injection H as H0 Hr. intros [|i] Hi.
      * now rewrite !Nat.add_0_r.
      * rewrite !Nat.add_succ_r.
        apply (proj1 (IH (S a) (S b)) Hr i). lia.
    + intros H. f_equal.
      * specialize (H 0). rewrite !Nat.add_0_r in H. apply H. lia.
      * apply IH. intros i Hi. specialize (H (S i)).
        rewrite !Nat.add_succ_r in H. apply H. lia.
Qed.

(** C9, as stated, does not hold.  Without a provider key, two
    successive runs over the same text, on a generator that delivers
    0, 1, 2, ..., return different vectors; and two items that have the
    same text, embedded one after the other, get different stored
    vectors. *)
Lemma dummy_embedding_differs_between_runs :
  fst (_generate_embedding default_settings "same text" Examples.counting_rng)
  <> fst (_generate_embedding default_settings "same text"
            (snd (_generate_embedding default_settings "same text"
                                      Examples.counting_rng)))
  /\ _get_text_for_embedding MoreExamples.same_title_store
       (MoreExamples.same_title 0 "guid-1")
     = _get_text_for_embedding MoreExamples.same_title_store
         (MoreExamples.same_title 1 "guid-2")
  /\ (let '(s1, g1, r1) :=
        embed_item default_settings MoreExamples.same_title_store
                   Examples.counting_rng 0 in
      let '(s2, _, r2) := embed_item default_settings s1 g1 1 in
      r1 = EmbedDone dimension
      /\ r2 = EmbedDone dimension
      /\ option_map emb_raw_item_id (nth_error (item_embeddings s2) 0)
         = Some 0
      /\ option_map emb_raw_item_id (nth_error (item_embeddings s2) 1)
         = Some 1
      /\ option_map (fun v => hd_error (embedding v))
                    (nth_error (item_embeddings s2) 0)
         <> option_map (fun v => hd_error (embedding v))
                       (nth_error (item_embeddings s2) 1)).
Proof.
  split; [|split].
  - intros H. apply (f_equal (option_map (@hd_error Q))) in H.
    vm_compute in H. discriminate H.
  - reflexivity.
  - vm_compute. repeat split. discriminate.
Qed.

Lemma dummy_vector_not_nil (g : Rng) :
  map (draws g) (seq (position g) dimension) <> [].
Proof.
  intros H. apply (f_equal (@List.length Q)) in H.
  rewrite length_map, length_seq in H. discriminate H.
Qed.

(** C9, amended.  Without a provider key the embedder returns the next
    1536 draws of the process-wide random generator, whatever the text.
    A second run returns the 1536 draws that follow, so the two vectors
    agree exactly when the generator repeats itself 1536 draws later.
    The vector [embed_item] stores for an item that has a text and no
    embedding yet is that vector of draws, and the generator has moved
    on by 1536 draws when the call returns. *)
Theorem dummy_embedding_follows_generator :
  forall (cfg : Settings) (text1 text2 : string) (g : Rng),
    Py.truthy (OPENAI_API_KEY cfg) = false ->
    let first := _generate_embedding cfg text1 g in
    let second := _generate_embedding cfg text2 (snd first) in
    fst first = Some (map (draws g) (seq (position g) dimension))
    /\ fst second
       = Some (map (draws g) (seq (position g + dimension) dimension))
    /\ (fst first = fst second
        <-> forall i, i < dimension ->
                      draws g (position g + i)
                      = draws g (position g + dimension + i))
    /\ (forall (s : Store) (raw_item_id : UUID) (item : RawItem),
          Db.find_raw_item s raw_item_id = Some item ->
          _get_text_for_embedding s item = Some text1 ->
          existsb (fun e => Nat.eqb (emb_raw_item_id e) (raw_id item))
                  (item_embeddings s) = false ->
          embed_item cfg s g raw_item_id
          = (Db.update_status (raw_id item) "embedded"
               (Db.set_item_embeddings s
                  (item_embeddings s
                   ++ [{| emb_raw_item_id := raw_id item;
                          embed_model := model;
                          emb_dim := dimension;
                          embedding :=
                            map (draws g) (seq (position g) dimension) |}])),
             {| draws := draws g; position := position g + dimension |},
             EmbedDone dimension)).
Proof.
  intros cfg text1 text2 g Hkey.
  assert (Hgen : forall text g0,
            _generate_embedding cfg text g0
            = (Some (map (draws g0) (seq (position g0) dimension)),
               {| draws := draws g0; position := position g0 + dimension |})).
  { intros text g0. unfold _generate_embedding. rewrite Hkey.
    reflexivity. }
  cbv zeta. rewrite !Hgen. cbn [fst snd draws position].
  split; [reflexivity|split; [reflexivity|split]].
  - generalize dimension. intros n.
    assert (Hsome : forall x y : Vector, Some x = Some y -> x = y)
      by (intros x y E; now inversion E).
    split; intros H.
    + apply Hsome in H.
      exact (proj1 (map_seq_eq (draws g) n _ _) H).
    + apply (f_equal (@Some Vector)).
      exact (proj2 (map_seq_eq (draws g) n _ _) H).
  - intros s id item Hfind Htext Hnew. unfold embed_item.
    rewrite Hfind, Htext, Hgen, Hnew.
    pose proof (dummy_vector_not_nil g) as Hne.
    destruct (map (draws g) (seq (position g) dimension)) as [|x v];
      [congruence|reflexivity].
Qed.

Lemma dummy_embedding_follows_generator_witness :
  fst (_generate_embedding default_settings "same text" Examples.counting_rng)
  = Some (map (draws Examples.counting_rng)
              (seq (position Examples.counting_rng) dimension)).
Proof.
  exact (proj1 (dummy_embedding_follows_generator
                  default_settings "same text" "same text"
                  Examples.counting_rng eq_refl)).
Defined.

End EmbeddingFacts.

(* ================================================================== *)
(** * Properties of the briefing composer *)
(* ================================================================== *)

Module BriefingFacts.
Import Briefing.

(** C1 fails on the composer's threshold.  The scorer gives the example
    item a signal score of 0.56, below its own high-signal threshold of
    0.6; the composer, whose threshold is 0.5, selects the item and
    links it to the user's briefing. *)
Theorem briefing_links_item_scored_below_0_6 :
  exists bi sc,
    briefing_items (fst (generate_for_user default_settings no_llm
                                           Examples.noon
                                           Examples.scored_store 7)) = [bi]
    /\ bi_raw_item_id bi = Some 1
    /\ latest_score Examples.scored_store 1 = Some sc
    /\ (signal_score sc == 0.56)%Q
    /\ (signal_score sc < 0.6)%Q
    /\ Qle_bool Scoring.high_signal_threshold (signal_score sc) = false
    /\ Qle_bool high_signal_threshold (signal_score sc) = true.
Proof.
  eexists. eexists.
  split; [vm_compute; reflexivity|].
  split; [reflexivity|].
  split; [vm_compute; reflexivity|].
  repeat split; vm_compute; reflexivity.
Qed.

(** C10.  When the candidate selection for the user yields no item,
    [generate_for_user] returns an error and the store is the one it was
    called on: no [Briefing] row and no [BriefingItem] row is added. *)
Theorem no_candidates_no_briefing :
  forall (cfg : Settings) (llm : LlmEnv) (now : datetime) (s : Store)
         (uid : UUID),
    _get_user_signals cfg now s
      (find (fun p => Nat.eqb (pref_user_id p) uid) (user_preferences s))
    = Some [] ->
    exists msg,
      generate_for_user cfg llm now s uid = (s, GenError msg)
      /\ briefings (fst (generate_for_user cfg llm now s uid)) = briefings s
      /\ briefing_items (fst (generate_for_user cfg llm now s uid))
         = briefing_items s.
Proof.
  intros cfg llm now s uid H. unfold generate_for_user.
  destruct (find _ (users s)).
  - rewrite H. eexists. repeat split.
  - eexists. repeat split.
Qed.

Lemma no_candidates_no_briefing_witness :
  exists msg,
    generate_for_user default_settings no_llm Examples.noon
                      Examples.quiet_store 7
    = (Examples.quiet_store, GenError msg)
    /\ briefings (fst (generate_for_user default_settings no_llm Examples.noon
                                         Examples.quiet_store 7))
       = briefings Examples.quiet_store
    /\ briefing_items (fst (generate_for_user default_settings no_llm
                                              Examples.noon
                                              Examples.quiet_store 7))
       = briefing_items Examples.quiet_store.
Proof.
  apply (no_candidates_no_briefing default_settings no_llm Examples.noon
           Examples.quiet_store 7).
  reflexivity.
Defined.

End BriefingFacts.

(* ================================================================== *)
(** * Further properties of the ingesters *)
(* ================================================================== *)

Module IngestionMore.
Import Ingestion Shape.

Lemma collect_in {A B : Type} (f : A -> option B) (l : list A) (y : B) :
  In y (collect f l) -> exists x, In x l /\ f x = Some y.
Proof.
  induction l as [|a l IH]; simpl; [intros []|].
  destruct (f a) as [b|] eqn:E.
  - intros [<-|H].
    + exists a. auto.
    + destruct (IH H) as [x [Hx Hf]]. exists x. auto.
  - intros H. destruct (IH H) as [x [Hx Hf]]. exists x. auto.
Qed.

Lemma in_firstn {A : Type} (n : nat) (l : list A) (x : A) :
  In x (firstn n l) -> In x l.
Proof.
  intros H. rewrite <- (firstn_skipn n l). apply in_or_app. now left.
Qed.

Lemma truthy_not_empty o :
  Py.truthy o = true -> or_empty o <> EmptyString.
Proof.
  destruct o as [t|]; simpl; [|discriminate].
  intros H E. subst t. discriminate H.
Qed.

Lemma eqb_false_not_empty t :
  String.eqb t EmptyString = false -> t <> EmptyString.
Proof. intros H E. subst t. discriminate H. Qed.

Lemma slice_length n t : String.length (Py.str_slice_to n t) <= n.
Proof.
  unfold Py.str_slice_to. revert t.
  induction n as [|n IH]; intros [|c t]; simpl; try lia.
  specialize (IH t). lia.
Qed.

Lemma append_not_empty a b :
  a <> EmptyString -> String.append a b <> EmptyString.
Proof. destruct a; simpl; [congruence|discriminate]. Qed.

Lemma str_of_Z_not_empty z : Py.str_of_Z z <> EmptyString.
Proof.
  unfold Py.str_of_Z, NilZero.string_of_int, NilZero.string_of_uint.
  destruct (Z.to_int z) as [d|d]; [|discriminate].
  destruct d; discriminate.
Qed.

(** X1.  Every item the feed ingester returns comes from one of the
    first 100 entries of the feed and has an external id, a link and a
    title that are not empty, the kind [ARTICLE], and a body snippet of
    at most 2000 characters; an entry that lacks one of the three fields
    is dropped. *)
Theorem feed_items_have_required_fields :
  forall (feed : Http (list FeedEntry)) (items : list NormalizedItem)
         (it : NormalizedItem),
    rss_fetch feed = Fetched items ->
    In it items ->
    has_required_fields it
    /\ snippet_bounded it
    /\ ni_kind it = ARTICLE
    /\ exists entries entry,
         feed = HttpOk entries
         /\ In entry (firstn 100 entries)
         /\ ni_url it = or_empty (fe_link entry)
         /\ ni_title it = Py.strip (or_empty (fe_title entry)).
Proof.
  intros feed items it Hf Hin. unfold rss_fetch in Hf.
  destruct feed as [msg|entries]; [discriminate|].
  injection Hf as <-.
  apply collect_in in Hin. destruct Hin as [entry [Hentry Hp]].
  unfold _parse_entry in Hp.
  destruct (Py.truthy (Py.or_else (Py.or_else (fe_id entry) (fe_guid entry))
                                  (fe_link entry))) eqn:E1;
    [|discriminate].
  destruct (Py.truthy (fe_link entry)) eqn:E2; [|discriminate].
  destruct (String.eqb (Py.strip (or_empty (fe_title entry))) EmptyString)
    eqn:E3; [discriminate|].
  cbn [negb] in Hp. injection Hp as <-.
  split; [|split; [|split]].
  - unfold has_required_fields. cbn [ni_external_id ni_url ni_title].
    split; [|split].
    + now apply truthy_not_empty.
    + now apply truthy_not_empty.
    + now apply eqb_false_not_empty.
  - unfold snippet_bounded. cbn [ni_raw_text]. intros body Hb.
    destruct (Py.truthy (fe_summary entry)).
    + injection Hb as <-. apply slice_length.
    + destruct (Py.truthy (fe_description entry)); [|discriminate].
      injection Hb as <-. apply slice_length.
  - reflexivity.
  - exists entries, entry. repeat split; auto.
Qed.

Lemma feed_items_have_required_fields_witness :
  has_required_fields
    {| ni_external_id := "guid-1";
       ni_url := "https://example.org/a";
       ni_title := Examples.headline;
       ni_kind := ARTICLE;
       ni_raw_text := None;
       ni_published_at := None;
       ni_raw_payload := PayloadFeed (Some "guid-1"%string) None |}.
Proof.
  refine (proj1 (feed_items_have_required_fields
                   (HttpOk [Examples.entry_a]) _ _ _ _)).
  - reflexivity.
  - left. reflexivity.
Defined.

Lemma collect_complete {A B : Type} (f : A -> option B) (l : list A)
  (x : A) (y : B) :
  In x l -> f x = Some y -> In y (collect f l).
Proof.
  induction l as [|a l IH]; simpl; [intros []|].
  intros [->|Hin] Hf.
  - rewrite Hf. now left.
  - destruct (f a); [right|]; now apply IH.
Qed.

Lemma _fetch_story_shape api id it :
  _fetch_story api id = Some it ->
  has_required_fields it
  /\ exists story,
       hn_item api id = StoryJson story
       /\ st_type story = Some "story"%string
       /\ st_deleted story = false
       /\ st_dead story = false
       /\ ni_external_id it = Py.str_of_Z id.
Proof.
  unfold _fetch_story. intros Hp.
  destruct (hn_item api id) as [| |story] eqn:Es; try discriminate.
  destruct (st_type story) as [t|] eqn:Et; [|discriminate].
  destruct (String.eqb t "story") eqn:Ett; [|discriminate].
  apply String.eqb_eq in Ett. subst t.
  destruct (st_deleted story) eqn:Ed; [discriminate|].
  destruct (st_dead story) eqn:Edd; [discriminate|].
  destruct (String.eqb (Py.strip (or_empty (st_title story))) EmptyString)
    eqn:E3; [discriminate|].
  cbn [negb orb] in Hp. injection Hp as <-.
  split.
  - unfold has_required_fields. cbn [ni_external_id ni_url ni_title].
    split; [apply str_of_Z_not_empty|split].
    + destruct (Py.truthy (st_url story)) eqn:Eu.
      * now apply truthy_not_empty.
      * first [discriminate
              |apply append_not_empty; unfold HN_ITEM_URL; discriminate].
    + now apply eqb_false_not_empty.
  - exists story. repeat split; auto.
Qed.

(** X2.  The Hacker News ingester fails only when the listing cannot be
    read.  With a ceiling that is not negative and a listing that can be
    read, it returns a batch of at most [MAX_ITEMS_PER_SOURCE] items: an
    id among the first [MAX_ITEMS_PER_SOURCE] ids of the listing whose
    record is accepted has its item in the batch, whatever happens to
    the records of the other ids, and every item of the batch is the
    record of such an id: a story of type ["story"], neither deleted
    nor dead, with the id as external id and with an id, a link and a
    title that are not empty. *)
Theorem hn_items_come_from_the_listing :
  forall (cfg : Settings) (api : HNApi) (source : Source),
    (0 <= MAX_ITEMS_PER_SOURCE cfg)%Z ->
    match hn_listing api (match story_type (source_metadata source) with
                          | Some t => t
                          | None => "top"%string
                          end) with
    | HttpError msg => hn_fetch cfg api source = FetchRaised msg
    | HttpOk ids =>
        exists items,
          hn_fetch cfg api source = Fetched items
          /\ List.length items <= Z.to_nat (MAX_ITEMS_PER_SOURCE cfg)
          /\ (forall id it,
                In id (firstn (Z.to_nat (MAX_ITEMS_PER_SOURCE cfg)) ids) ->
                _fetch_story api id = Some it ->
                In it items)
          /\ (forall it,
                In it items ->
                has_required_fields it
                /\ exists id story,
                     In id (firstn (Z.to_nat (MAX_ITEMS_PER_SOURCE cfg)) ids)
                     /\ _fetch_story api id = Some it
                     /\ hn_item api id = StoryJson story
                     /\ st_type story = Some "story"%string
                     /\ st_deleted story = false
                     /\ st_dead story = false
                     /\ ni_external_id it = Py.str_of_Z id)
    end.
Proof.
  intros cfg api source Hpos. unfold hn_fetch.
  destruct (hn_listing api _) as [msg|ids] eqn:El; [reflexivity|].
  assert (Hcut : Py.slice_to (MAX_ITEMS_PER_SOURCE cfg) ids
                 = firstn (Z.to_nat (MAX_ITEMS_PER_SOURCE cfg)) ids).
  { unfold Py.slice_to. apply Z.leb_le in Hpos. rewrite Hpos. reflexivity. }
  rewrite Hcut.
  exists (collect (_fetch_story api)
                  (firstn (Z.to_nat (MAX_ITEMS_PER_SOURCE cfg)) ids)).
  split; [reflexivity|]. split.
  { eapply Nat.le_trans; [apply IngestionFacts.collect_length|].
    rewrite length_firstn. apply Nat.le_min_l. }
  split.
  { intros id it Hid Hs. exact (collect_complete _ _ _ _ Hid Hs). }
  intros it Hin. apply collect_in in Hin. destruct Hin as [id [Hid Hp]].
  destruct (_fetch_story_shape api id it Hp)
    as [Hreq [story [S1 [S2 [S3 [S4 S5]]]]]].
  split; [exact Hreq|]. exists id, story. auto 10.
Qed.

Lemma hn_items_come_from_the_listing_witness :
  exists items,
    hn_fetch MoreExamples.two_limit MoreExamples.hn_api MoreExamples.hn_source
    = Fetched items
    /\ In MoreExamples.ask_item items.
Proof.
  assert (Hpos : (0 <= MAX_ITEMS_PER_SOURCE MoreExamples.two_limit)%Z)
    by (vm_compute; discriminate).
  pose proof (hn_items_come_from_the_listing
                MoreExamples.two_limit MoreExamples.hn_api
                MoreExamples.hn_source Hpos) as T.
  cbn [MoreExamples.hn_api hn_listing] in T.
  destruct T as [items [H1 [_ [H3 _]]]].
  exists items. split; [exact H1|].
  apply (H3 8863%Z); [now left|reflexivity].
Defined.

Lemma _parse_post_shape post it :
  _parse_post post = Some it ->
  has_required_fields it
  /\ snippet_bounded it
  /\ p_removed post = false
  /\ Py.truthy (p_removed_by_category post) = false
  /\ ni_external_id it = or_empty (p_id post).
Proof.
  unfold _parse_post. intros Hp.
  destruct (Py.truthy (p_id post)) eqn:E1; [|discriminate].
  destruct (String.eqb (Py.strip (or_empty (p_title post))) EmptyString)
    eqn:E2; [discriminate|].
  destruct (Py.truthy (p_removed_by_category post)) eqn:E3; [discriminate|].
  destruct (p_removed post) eqn:E4; [discriminate|].
  cbn [negb orb] in Hp. injection Hp as <-.
  split; [|split; [|repeat split]].
  - unfold has_required_fields. cbn [ni_external_id ni_url ni_title].
    split; [now apply truthy_not_empty|split].
    + destruct (Py.truthy (p_url post)) eqn:Eu; cbn [negb orb].
      * destruct (Py.startswith "/r/" (or_empty (p_url post))).
        -- discriminate.
        -- now apply truthy_not_empty.
      * discriminate.
    + now apply eqb_false_not_empty.
  - unfold snippet_bounded. cbn [ni_raw_text]. intros body Hb.
    destruct (Py.truthy (p_selftext post)); [|discriminate].
    injection Hb as <-. apply slice_length.
Qed.

(** X3.  Every item the Reddit ingester returns has an id, a link and a
    title that are not empty and a body of at most 2000 characters, and
    comes from a post of the listing that is not removed.  With a token
    the listing is asked for with [limit = MAX_ITEMS_PER_SOURCE]; without
    one the public endpoint is asked for with the smaller of 25 and that
    setting. *)
Theorem reddit_items_come_from_the_listing :
  forall (cfg : Settings) (api : RedditApi) (source : Source)
         (items : list NormalizedItem) (it : NormalizedItem),
    reddit_fetch cfg api source = Fetched items ->
    In it items ->
    has_required_fields it
    /\ snippet_bounded it
    /\ exists post children sub sort_by,
         In post children
         /\ _parse_post post = Some it
         /\ p_removed post = false
         /\ Py.truthy (p_removed_by_category post) = false
         /\ ((reddit_token api <> None
              /\ reddit_oauth api sub sort_by (MAX_ITEMS_PER_SOURCE cfg)
                 = HttpOk children)
             \/ (reddit_token api = None
                 /\ reddit_public api sub sort_by
                      (Z.min 25 (MAX_ITEMS_PER_SOURCE cfg))
                    = HttpOk children)).
Proof.
  intros cfg api source items it Hf Hin. unfold reddit_fetch in Hf.
  destruct (if Py.truthy (subreddit (source_metadata source))
            then subreddit (source_metadata source)
            else subreddit_of_url (or_empty (source_url source)))
    as [sub|]; [|injection Hf as <-; destruct Hin].
  set (sort_by := match sort (source_metadata source) with
                  | Some o => o
                  | None => "hot"%string
                  end) in Hf.
  assert (Hshape : forall post children,
             In post children -> _parse_post post = Some it ->
             (reddit_token api <> None
              /\ reddit_oauth api sub sort_by (MAX_ITEMS_PER_SOURCE cfg)
                 = HttpOk children)
             \/ (reddit_token api = None
                 /\ reddit_public api sub sort_by
                      (Z.min 25 (MAX_ITEMS_PER_SOURCE cfg))
                    = HttpOk children) ->
             has_required_fields it
             /\ snippet_bounded it
             /\ exists post children sub sort_by,
                  In post children
                  /\ _parse_post post = Some it
                  /\ p_removed post = false
                  /\ Py.truthy (p_removed_by_category post) = false
                  /\ ((reddit_token api <> None
                       /\ reddit_oauth api sub sort_by
                            (MAX_ITEMS_PER_SOURCE cfg) = HttpOk children)
                      \/ (reddit_token api = None
                          /\ reddit_public api sub sort_by
                               (Z.min 25 (MAX_ITEMS_PER_SOURCE cfg))
                             = HttpOk children))).
  { intros post children Hpost Hp Hwhere.
    destruct (_parse_post_shape post it Hp) as [H1 [H2 [H3 [H4 _]]]].
    split; [exact H1|split; [exact H2|]].
    exists post, children, sub, sort_by. auto. }
  destruct (reddit_token api) as [tok|] eqn:Et.
  - destruct (reddit_oauth api sub sort_by (MAX_ITEMS_PER_SOURCE cfg))
      as [msg|children] eqn:Eo; [discriminate|].
    injection Hf as <-. apply collect_in in Hin.
    destruct Hin as [post [Hpost Hp]].
    apply (Hshape post children Hpost Hp). left. split; [discriminate|auto].
  - unfold _fetch_unauthenticated in Hf.
    destruct (reddit_public api sub sort_by
                (Z.min 25 (MAX_ITEMS_PER_SOURCE cfg)))
      as [msg|children] eqn:Eo; [discriminate|].
    injection Hf as <-. apply collect_in in Hin.
    destruct Hin as [post [Hpost Hp]].
    apply (Hshape post children Hpost Hp). right. auto.
Qed.

Lemma reddit_items_come_from_the_listing_witness :
  has_required_fields MoreExamples.self_item.
Proof.
  assert (H : reddit_fetch default_settings MoreExamples.reddit_api
                           MoreExamples.reddit_source
              = Fetched [MoreExamples.self_item]) by reflexivity.
  exact (proj1 (reddit_items_come_from_the_listing
                  default_settings MoreExamples.reddit_api
                  MoreExamples.reddit_source [MoreExamples.self_item]
                  MoreExamples.self_item H (or_introl eq_refl))).
Defined.

(** ** What a run writes *)

Lemma same_but_raw_items_refl s : same_but_raw_items s s.
Proof. unfold same_but_raw_items. repeat split. Qed.

Lemma same_but_raw_items_trans s1 s2 s3 :
  same_but_raw_items s1 s2 -> same_but_raw_items s2 s3 ->
  same_but_raw_items s1 s3.
Proof.
  unfold same_but_raw_items.
  intros [A1 [A2 [A3 [A4 [A5 [A6 [A7 [A8 [A9 A10]]]]]]]]]
         [B1 [B2 [B3 [B4 [B5 [B6 [B7 [B8 [B9 B10]]]]]]]]].
  repeat split; congruence.
Qed.

Lemma fresh_row_new now sid id item :
  fresh_row now sid (new_raw_item id now sid item).
Proof. unfold fresh_row, new_raw_item. simpl. repeat split. discriminate. Qed.

Lemma same_but_raw_items_insert now sid s item s1 :
  insert_raw_item now sid s item = Some s1 -> same_but_raw_items s s1.
Proof.
  intros H. apply IngestionFacts.insert_effect in H. subst s1.
  unfold same_but_raw_items. repeat split.
Qed.

(** The loop, from any point of a run that started from [committed]:
    the session's view is [committed] plus the rows flushed since the
    last rollback. *)
Lemma fold_appends now sid committed items : forall acc cur,
  raw_items (fst acc) = raw_items committed ++ cur ->
  Forall (fresh_row now sid) cur ->
  same_but_raw_items committed (fst acc) ->
  dbms (fst acc) = dbms committed ->
  exists added,
    raw_items (fst (fold_left (ingest_item now sid committed) items acc))
    = raw_items committed ++ added
    /\ Forall (fresh_row now sid) added
    /\ same_but_raw_items committed
         (fst (fold_left (ingest_item now sid committed) items acc))
    /\ snd (fold_left (ingest_item now sid committed) items acc)
       <= snd acc + List.length items
    /\ (List.length cur <= snd acc ->
        List.length added
        <= snd (fold_left (ingest_item now sid committed) items acc))
    /\ (accepts_all committed ->
        List.length cur = snd acc ->
        List.length added
        = snd (fold_left (ingest_item now sid committed) items acc))
    /\ ((forall item, In item items ->
           already_present (fst acc) sid (ni_external_id item) = true) ->
        fold_left (ingest_item now sid committed) items acc = acc).
Proof.
  induction items as [|it items IH]; intros acc cur Hraw Hfresh Hsame Hd.
  - exists cur. cbn [fold_left List.length].
    split; [exact Hraw|]. split; [exact Hfresh|]. split; [exact Hsame|].
    split; [lia|]. split; [auto|]. split; [auto|reflexivity].
  - cbn [fold_left List.length].
    destruct (already_present (fst acc) sid (ni_external_id it)) eqn:E.
    + assert (Hs : ingest_item now sid committed acc it = acc)
        by (unfold ingest_item; rewrite E; reflexivity).
      rewrite Hs.
      destruct (IH acc cur Hraw Hfresh Hsame Hd)
        as [added [H1 [H2 [H3 [H4 [H5 [H6 H7]]]]]]].
      exists added.
      split; [exact H1|]. split; [exact H2|]. split; [exact H3|].
      split; [lia|]. split; [exact H5|]. split; [exact H6|].
      intros Hall. apply H7. intros item Hin. apply Hall. now right.
    + destruct (insert_raw_item now sid (fst acc) it) as [s1|] eqn:Ei.
      * assert (Hs : ingest_item now sid committed acc it
                     = (s1, S (snd acc)))
          by (unfold ingest_item; rewrite E, Ei; reflexivity).
        rewrite Hs.
        assert (Hraw1 : raw_items (fst (s1, S (snd acc)))
                        = raw_items committed
                          ++ (cur ++ [new_raw_item (next_uuid (fst acc))
                                                   now sid it])).
        { cbn [fst]. rewrite (IngestionFacts.raw_items_insert _ _ _ _ _ Ei).
          rewrite Hraw, <- app_assoc. reflexivity. }
        destruct (IH (s1, S (snd acc))
                     (cur ++ [new_raw_item (next_uuid (fst acc)) now sid it])
                     Hraw1)
          as [added [H1 [H2 [H3 [H4 [H5 [H6 H7]]]]]]].
        { apply Forall_app. split; [exact Hfresh|].
          constructor; [apply fresh_row_new|constructor]. }
        { cbn [fst]. eapply same_but_raw_items_trans; [exact Hsame|].
          exact (same_but_raw_items_insert _ _ _ _ _ Ei). }
        { cbn [fst]. rewrite (IngestionFacts.dbms_insert _ _ _ _ _ Ei).
          exact Hd. }
        rewrite length_app in H5, H6. cbn [List.length snd] in H4, H5, H6.
        exists added.
        split; [exact H1|]. split; [exact H2|]. split; [exact H3|].
        split; [lia|].
        split; [intros Hle; apply H5; lia|].
        split; [intros Ha Hle; apply H6; [exact Ha|lia]|].
        intros Hall. rewrite (Hall it (or_introl eq_refl)) in E.
        discriminate E.
      * assert (Hs : ingest_item now sid committed acc it
                     = (committed, snd acc))
          by (unfold ingest_item; rewrite E, Ei; reflexivity).
        rewrite Hs.
        destruct (IH (committed, snd acc) [])
          as [added [H1 [H2 [H3 [H4 [H5 [H6 H7]]]]]]].
        { cbn [fst]. now rewrite app_nil_r. }
        { constructor. }
        { apply same_but_raw_items_refl. }
        { reflexivity. }
        cbn [List.length snd] in H4, H5, H6.
        exists added.
        split; [exact H1|]. split; [exact H2|]. split; [exact H3|].
        split; [lia|].
        split; [intros Hle; apply H5; lia|].
        split.
        { intros Ha _. exfalso.
          assert (Ha' : accepts_all (fst acc))
            by (exact (IngestionFacts.accepts_all_dbms _ _ Hd Ha)).
          rewrite (IngestionFacts.insert_accepted now sid (fst acc) it Ha')
            in Ei.
          discriminate Ei. }
        intros Hall. rewrite (Hall it (or_introl eq_refl)) in E.
        discriminate E.
Qed.

Lemma ingest_appends now fetch s sid :
  exists added,
    raw_items (fst (ingest now fetch s sid)) = raw_items s ++ added
    /\ List.length added <= items_inserted_of (snd (ingest now fetch s sid))
    /\ (accepts_all s ->
        List.length added = items_inserted_of (snd (ingest now fetch s sid)))
    /\ Forall (fresh_row now sid) added
    /\ same_but_raw_items s (fst (ingest now fetch s sid)).
Proof.
  unfold ingest.
  assert (Hnone : forall r : IngestResult,
             items_inserted_of r = 0 ->
             exists added,
               raw_items (fst (s, r)) = raw_items s ++ added
               /\ List.length added <= items_inserted_of (snd (s, r))
               /\ (accepts_all s ->
                   List.length added = items_inserted_of (snd (s, r)))
               /\ Forall (fresh_row now sid) added
               /\ same_but_raw_items s (fst (s, r))).
  { intros r Hr. exists []. cbn [fst snd List.length].
    rewrite app_nil_r, Hr.
    split; [reflexivity|]. split; [lia|]. split; [reflexivity|].
    split; [constructor|apply same_but_raw_items_refl]. }
  destruct (Db.find_source s sid) as [source|];
    [|apply Hnone; reflexivity].
  destruct (source_enabled source); cbn [negb];
    [|apply Hnone; reflexivity].
  destruct (fetch source) as [msg|items]; [apply Hnone; reflexivity|].
  destruct (fold_appends now sid s items (s, 0) [])
    as [added [H1 [H2 [H3 [H4 [H5 [H6 _]]]]]]];
    [cbn [fst]; now rewrite app_nil_r|constructor
    |apply same_but_raw_items_refl|reflexivity|].
  destruct (fold_left (ingest_item now sid s) items (s, 0)) as [s' n].
  cbn [fst snd List.length items_inserted_of] in *. exists added.
  split; [exact H1|]. split; [apply H5; lia|].
  split; [intros Ha; apply H6; [exact Ha|reflexivity]|].
  split; [exact H2|exact H3].
Qed.

(** X4.  Whatever the outcome, a run of [ingest] only appends to
    [raw_items]: the rows that were there stay as they were and in
    place, and each appended row has status ["new"], the source's id,
    the run's time and an external id; no other table changes.  The
    reported [items_inserted] is never more than [items_fetched] and
    never less than the number of rows appended: a row that a later
    failed insert rolled back is counted and not stored.  When the
    database refuses no row, [items_inserted] is exactly the number of
    rows appended.  A run that reports an error or skips a disabled
    source leaves the store as it was. *)
Theorem ingest_only_appends_new_rows :
  forall (now : datetime) (fetch : Source -> FetchOutcome) (s : Store)
         (sid : UUID),
    exists added,
      raw_items (fst (ingest now fetch s sid)) = raw_items s ++ added
      /\ List.length added <= items_inserted_of (snd (ingest now fetch s sid))
      /\ (accepts_all s ->
          List.length added
          = items_inserted_of (snd (ingest now fetch s sid)))
      /\ Forall (fresh_row now sid) added
      /\ same_but_raw_items s (fst (ingest now fetch s sid))
      /\ (forall fetched inserted,
            snd (ingest now fetch s sid) = IngestDone fetched inserted ->
            inserted <= fetched)
      /\ ((forall fetched inserted,
             snd (ingest now fetch s sid) <> IngestDone fetched inserted) ->
          fst (ingest now fetch s sid) = s).
Proof.
  intros now fetch s sid. unfold ingest.
  assert (Hnone : forall r : IngestResult,
             (forall f n, r <> IngestDone f n) ->
             exists added,
               raw_items (fst (s, r)) = raw_items s ++ added
               /\ List.length added <= items_inserted_of (snd (s, r))
               /\ (accepts_all s ->
                   List.length added = items_inserted_of (snd (s, r)))
               /\ Forall (fresh_row now sid) added
               /\ same_but_raw_items s (fst (s, r))
               /\ (forall fetched inserted,
                     snd (s, r) = IngestDone fetched inserted ->
                     inserted <= fetched)
               /\ ((forall fetched inserted,
                      snd (s, r) <> IngestDone fetched inserted) ->
                   fst (s, r) = s)).
  { intros r Hr. exists []. cbn [fst snd List.length]. rewrite app_nil_r.
    assert (H0 : items_inserted_of r = 0).
    { destruct r; simpl; auto. exfalso. eapply Hr. reflexivity. }
    rewrite H0.
    split; [reflexivity|]. split; [lia|]. split; [reflexivity|].
    split; [constructor|]. split; [apply same_but_raw_items_refl|].
    split; [|reflexivity].
    intros f n E. exfalso. eapply Hr. exact E. }
  destruct (Db.find_source s sid) as [source|];
    [|apply Hnone; discriminate].
  destruct (source_enabled source); cbn [negb];
    [|apply Hnone; discriminate].
  destruct (fetch source) as [msg|items]; [apply Hnone; discriminate|].
  destruct (fold_appends now sid s items (s, 0) [])
    as [added [H1 [H2 [H3 [H4 [H5 [H6 _]]]]]]];
    [cbn [fst]; now rewrite app_nil_r|constructor
    |apply same_but_raw_items_refl|reflexivity|].
  destruct (fold_left (ingest_item now sid s) items (s, 0)) as [s' n].
  cbn [fst snd List.length items_inserted_of] in *. exists added.
  split; [exact H1|]. split; [apply H5; lia|].
  split; [intros Ha; apply H6; [exact Ha|reflexivity]|].
  split; [exact H2|]. split; [exact H3|]. split.
  - intros f k E. injection E as <- <-. lia.
  - intros E. exfalso. eapply E. reflexivity.
Qed.

(** ** The uniqueness of [(source_id, external_id)] *)

Lemma keys_of_app a b : keys_of (a ++ b) = keys_of a ++ keys_of b.
Proof. unfold keys_of. apply flat_map_app. Qed.

Lemma present_iff_key s sid ext :
  already_present s sid ext = true <-> In (sid, ext) (keys_of (raw_items s)).
Proof.
  rewrite IngestionFacts.already_present_spec. unfold keys_of, has_key.
  rewrite in_flat_map. split.
  - intros [r [Hin [H1 H2]]]. exists r. split; auto.
    rewrite H2, H1. now left.
  - intros [r [Hin Hk]]. exists r. split; auto.
    destruct (raw_external_id r) as [e|]; [|destruct Hk].
    destruct Hk as [Hk|[]]. injection Hk as <- <-. auto.
Qed.

Lemma NoDup_snoc {A : Type} (l : list A) (a : A) :
  NoDup l -> ~ In a l -> NoDup (l ++ [a]).
Proof.
  intros Hl Ha. induction Hl as [|x l Hx Hl IH]; simpl.
  - constructor; [intros []|constructor].
  - constructor.
    + intros Hin. apply in_app_or in Hin. destruct Hin as [Hin|[->|[]]].
      * now apply Hx.
      * apply Ha. now left.
    + apply IH. intros Hin. apply Ha. now right.
Qed.

Lemma ingest_item_unique now sid committed acc item :
  NoDup (keys_of (raw_items committed)) ->
  NoDup (keys_of (raw_items (fst acc))) ->
  NoDup (keys_of (raw_items (fst (ingest_item now sid committed acc item)))).
Proof.
  intros Hc H. unfold ingest_item.
  destruct (already_present (fst acc) sid (ni_external_id item)) eqn:E; auto.
  destruct (insert_raw_item now sid (fst acc) item) as [s1|] eqn:Ei;
    cbn [fst]; [|exact Hc].
  rewrite (IngestionFacts.raw_items_insert _ _ _ _ _ Ei), keys_of_app. simpl.
  apply NoDup_snoc; auto.
  intros Hin. apply present_iff_key in Hin. congruence.
Qed.

Lemma fold_unique now sid committed items : forall acc,
  NoDup (keys_of (raw_items committed)) ->
  NoDup (keys_of (raw_items (fst acc))) ->
  NoDup (keys_of (raw_items
                    (fst (fold_left (ingest_item now sid committed)
                                    items acc)))).
Proof.
  induction items as [|it items IH]; intros acc Hc H; simpl; auto.
  apply IH; [exact Hc|]. now apply ingest_item_unique.
Qed.

Lemma ingest_unique now fetch s sid :
  NoDup (keys_of (raw_items s)) ->
  NoDup (keys_of (raw_items (fst (ingest now fetch s sid)))).
Proof.
  intros H. unfold ingest.
  destruct (Db.find_source s sid) as [source|]; auto.
  destruct (source_enabled source); simpl; auto.
  destruct (fetch source) as [msg|items]; auto.
  pose proof (fold_unique now sid s items (s, 0) H H) as Hf.
  destruct (fold_left (ingest_item now sid s) items (s, 0)). exact Hf.
Qed.

(** X5.  The ingest stage keeps [(source_id, external_id)] unique: if no
    two rows of [raw_items] that carry an external id share the pair,
    none do after [ingest_all], even when a listing repeats an id within
    one batch or across sources. *)
Theorem ingest_all_keeps_keys_unique :
  forall (cfg : Settings) (w : World) (now : datetime) (s : Store),
    NoDup (keys_of (raw_items s)) ->
    NoDup (keys_of (raw_items (fst (ingest_all cfg w now s)))).
Proof.
  intros cfg w now s H. unfold ingest_all.
  assert (H0 : NoDup (keys_of (raw_items (fst (s, 0))))) by exact H.
  revert H0. generalize (s, 0). generalize (filter source_enabled (sources s)).
  intros l. induction l as [|source l IH]; intros acc Hacc; simpl; auto.
  apply IH. unfold ingest_all_step.
  destruct (fetch_for cfg w (source_type source)) as [fetch|]; auto.
  pose proof (ingest_unique now fetch (fst acc) (source_id source) Hacc) as Hi.
  destruct (ingest now fetch (fst acc) (source_id source)). exact Hi.
Qed.

Lemma ingest_all_keeps_keys_unique_witness :
  NoDup (keys_of (raw_items (fst (ingest_all default_settings
                                             MoreExamples.busy_world
                                             Examples.noon
                                             MoreExamples.three_sources_store)))).
Proof.
  apply (ingest_all_keeps_keys_unique default_settings MoreExamples.busy_world
           Examples.noon MoreExamples.three_sources_store).
  simpl. constructor.
Defined.

Lemma stage_appends cfg w now l : forall acc,
  exists added,
    raw_items (fst (fold_left (ingest_all_step cfg w now) l acc))
    = raw_items (fst acc) ++ added
    /\ snd acc + List.length added
       <= snd (fold_left (ingest_all_step cfg w now) l acc)
    /\ (accepts_all (fst acc) ->
        snd (fold_left (ingest_all_step cfg w now) l acc)
        = snd acc + List.length added)
    /\ Forall (fun r => exists source,
                   In source l
                   /\ fresh_row now (source_id source) r
                   /\ fetch_for cfg w (source_type source) <> None) added
    /\ same_but_raw_items (fst acc)
         (fst (fold_left (ingest_all_step cfg w now) l acc)).
Proof.
  induction l as [|source l IH]; intros acc; simpl.
  - exists []. rewrite app_nil_r. cbn [List.length].
    split; [reflexivity|]. split; [lia|]. split; [intros _; lia|].
    split; [constructor|apply same_but_raw_items_refl].
  - destruct (IH (ingest_all_step cfg w now acc source))
      as [added [H1 [H2 [H2' [H3 H4]]]]].
    assert (Hweak : Forall (fun r => exists source0,
                              (source = source0 \/ In source0 l)
                              /\ fresh_row now (source_id source0) r
                              /\ fetch_for cfg w (source_type source0)
                                 <> None) added).
    { eapply Forall_impl; [|exact H3].
      intros r [src [Hin Hr]]. exists src. split; auto. }
    pose proof (IngestionFacts.step_accepts cfg w now acc source) as Hacc.
    unfold ingest_all_step in *.
    destruct (fetch_for cfg w (source_type source)) as [fetch|] eqn:Ef.
    + destruct (ingest_appends now fetch (fst acc) (source_id source))
        as [first [G1 [G2 [G2' [G3 G4]]]]].
      destruct (ingest now fetch (fst acc) (source_id source)) as [s1 r1].
      cbn [fst snd] in *.
      exists (first ++ added). rewrite length_app.
      split; [rewrite H1, G1; now rewrite app_assoc|].
      split; [lia|].
      split; [intros Ha; rewrite (H2' (Hacc Ha)), (G2' Ha); lia|].
      split.
      * apply Forall_app. split; auto.
        eapply Forall_impl; [|exact G3].
        intros r Hr. exists source. split; [now left|]. split; auto.
        congruence.
      * eapply same_but_raw_items_trans; eauto.
    + exists added. auto.
Qed.

(** X6.  [ingest_all] only appends to [raw_items]; every appended row
    belongs to a source that was enabled when the stage started and
    whose type has an ingester, and no other table changes.  The
    reported [items_ingested] is never less than the number of rows
    appended, and is exactly that number when the database refuses no
    row. *)
Theorem ingest_all_counts_what_it_adds :
  forall (cfg : Settings) (w : World) (now : datetime) (s : Store),
    exists added,
      raw_items (fst (ingest_all cfg w now s)) = raw_items s ++ added
      /\ List.length added <= snd (ingest_all cfg w now s)
      /\ (accepts_all s -> snd (ingest_all cfg w now s) = List.length added)
      /\ Forall (fun r => exists source,
                     In source (sources s)
                     /\ source_enabled source = true
                     /\ fresh_row now (source_id source) r
                     /\ fetch_for cfg w (source_type source) <> None) added
      /\ same_but_raw_items s (fst (ingest_all cfg w now s)).
Proof.
  intros cfg w now s. unfold ingest_all.
  destruct (stage_appends cfg w now (filter source_enabled (sources s)) (s, 0))
    as [added [H1 [H2 [H2' [H3 H4]]]]].
  exists added. cbn [fst snd] in *.
  split; [exact H1|]. split; [lia|].
  split; [intros Ha; rewrite (H2' Ha); lia|]. split; [|exact H4].
  eapply Forall_impl; [|exact H3].
  intros r [source [Hin [Hr Hf]]]. apply filter_In in Hin.
  destruct Hin as [Hin Hen]. exists source. auto.
Qed.

End IngestionMore.

(* ================================================================== *)
(** * Further properties of the scorer *)
(* ================================================================== *)

Module ScoringMore.
Import Scoring Shape.

Lemma age_hours_mono now1 now2 t :
  (now1 <= now2)%Z -> (age_hours now1 t <= age_hours now2 t)%Q.
Proof.
  intros H. unfold age_hours, Qdiv. apply Qmult_le_compat_r.
  - rewrite <- Zle_Qle. lia.
  - vm_compute. discriminate.
Qed.

Lemma Qlt_bool_mono a b k :
  (a <= b)%Q -> Qlt_bool b k = true -> Qlt_bool a k = true.
Proof.
  unfold Qlt_bool. intros Hab Hb.
  destruct (Qle_bool k a) eqn:E; auto.
  apply Qle_bool_iff in E.
  assert (Hkb : Qle_bool k b = true)
    by (apply Qle_bool_iff; eapply Qle_trans; eauto).
  rewrite Hkb in Hb. discriminate Hb.
Qed.

Lemma age_below now t (k : Z) :
  Qlt_bool (age_hours now t) (inject_Z k) = true
  <-> (now - t < timedelta_hours k)%Z.
Proof.
  unfold Qlt_bool, age_hours, timedelta_hours, microseconds_per_hour.
  rewrite negb_true_iff.
  unfold Qle_bool, Qdiv, Qmult, Qinv, inject_Z. simpl.
  rewrite Z.leb_gt. lia.
Qed.

(** X7.  Novelty never rises as time passes: scored later, an item gets
    the same or a lower novelty.  The top band is strict at its edge: an
    item with a publication time scores 0.9 exactly when it was
    published less than six hours before the scoring, so at six hours
    sharp it is already in the next band. *)
Theorem novelty_never_rises :
  forall (item : RawItem) (now1 now2 : datetime),
    (now1 <= now2)%Z ->
    (_compute_novelty now2 item <= _compute_novelty now1 item)%Q
    /\ (forall published,
          raw_published_at item = Some published ->
          ((_compute_novelty now1 item == 0.9)%Q
           <-> (now1 - published < timedelta_hours 6)%Z)).
Proof.
  intros item now1 now2 Hle. split.
  - unfold _compute_novelty.
    destruct (raw_published_at item) as [p|].
    + pose proof (age_hours_mono now1 now2 p Hle) as Hm.
      pose proof (Qlt_bool_mono _ _ 6 Hm) as M6.
      pose proof (Qlt_bool_mono _ _ 24 Hm) as M24.
      pose proof (Qlt_bool_mono _ _ 72 Hm) as M72.
      destruct (Qlt_bool (age_hours now2 p) 6);
        destruct (Qlt_bool (age_hours now2 p) 24);
        destruct (Qlt_bool (age_hours now2 p) 72);
        try rewrite (M6 eq_refl); try rewrite (M24 eq_refl);
        try rewrite (M72 eq_refl);
        destruct (Qlt_bool (age_hours now1 p) 6);
        destruct (Qlt_bool (age_hours now1 p) 24);
        destruct (Qlt_bool (age_hours now1 p) 72); lra.
    + pose proof (age_hours_mono now1 now2 (raw_fetched_at item) Hle) as Hm.
      pose proof (Qlt_bool_mono _ _ 6 Hm) as M6.
      pose proof (Qlt_bool_mono _ _ 24 Hm) as M24.
      destruct (Qlt_bool (age_hours now2 (raw_fetched_at item)) 6);
        destruct (Qlt_bool (age_hours now2 (raw_fetched_at item)) 24);
        try rewrite (M6 eq_refl); try rewrite (M24 eq_refl);
        destruct (Qlt_bool (age_hours now1 (raw_fetched_at item)) 6);
        destruct (Qlt_bool (age_hours now1 (raw_fetched_at item)) 24); lra.
  - intros p Hp. unfold _compute_novelty. rewrite Hp.
    rewrite <- (age_below now1 p 6). change (inject_Z 6) with 6%Q.
    destruct (Qlt_bool (age_hours now1 p) 6).
    + split; reflexivity.
    + split; [|discriminate].
      destruct (Qlt_bool (age_hours now1 p) 24);
        [|destruct (Qlt_bool (age_hours now1 p) 72)];
        intros H; vm_compute in H; discriminate H.
Qed.

Lemma novelty_never_rises_witness :
  Qle (_compute_novelty (Examples.noon + timedelta_hours 6)%Z
                        (Examples.story 1 "Launch" Examples.noon))
      (_compute_novelty Examples.noon
                        (Examples.story 1 "Launch" Examples.noon)).
Proof.
  refine (proj1 (novelty_never_rises
                   (Examples.story 1 "Launch" Examples.noon)
                   Examples.noon (Examples.noon + timedelta_hours 6)%Z _)).
  vm_compute. discriminate.
Defined.

Lemma hn_velocity item id sc ty :
  raw_payload item = PayloadHN id sc ty ->
  _compute_velocity item
  = Py.clip01 (Qmin 1 (inject_Z sc * (1 # 200))).
Proof. unfold _compute_velocity. now intros ->. Qed.

Ltac split_min_max :=
  repeat match goal with
         | |- context [Qmin ?a ?b] =>
             lazymatch b with
             | context [Qmin _ _] => fail
             | context [Qmax _ _] => fail
             | _ => let m := fresh "m" in
                    pose proof (Q.min_spec a b);
                    set (m := Qmin a b) in *; clearbody m
             end
         | |- context [Qmax ?a ?b] =>
             lazymatch b with
             | context [Qmin _ _] => fail
             | context [Qmax _ _] => fail
             | _ => let m := fresh "m" in
                    pose proof (Q.max_spec a b);
                    set (m := Qmax a b) in *; clearbody m
             end
         end.

(** X8.  For a Hacker News item the velocity is the story's points over
    200, kept inside [[0, 1]]: it grows with the points, is 1 from 200
    points on, and 0 for a story with no points or a negative count. *)
Theorem hn_velocity_saturates_at_200 :
  forall (item1 item2 : RawItem) (id1 id2 sc1 sc2 : Z)
         (ty1 ty2 : option string),
    raw_payload item1 = PayloadHN id1 sc1 ty1 ->
    raw_payload item2 = PayloadHN id2 sc2 ty2 ->
    ((sc1 <= sc2)%Z ->
     (_compute_velocity item1 <= _compute_velocity item2)%Q)
    /\ ((200 <= sc1)%Z -> (_compute_velocity item1 == 1)%Q)
    /\ ((sc1 <= 0)%Z -> (_compute_velocity item1 == 0)%Q)
    /\ ((0 <= sc1 <= 200)%Z ->
        (_compute_velocity item1 == inject_Z sc1 / 200)%Q).
Proof.
  intros item1 item2 id1 id2 sc1 sc2 ty1 ty2 H1 H2.
  rewrite (hn_velocity item1 id1 sc1 ty1 H1),
          (hn_velocity item2 id2 sc2 ty2 H2).
  change (inject_Z sc1 / 200)%Q with (inject_Z sc1 * (1 # 200))%Q.
  unfold Py.clip01.
  split; [|split; [|split]].
  - intros Hle. rewrite Zle_Qle in Hle.
    split_min_max. lra.
  - intros Hle. rewrite Zle_Qle in Hle.
    change (inject_Z 200) with 200%Q in Hle.
    split_min_max. lra.
  - intros Hle. rewrite Zle_Qle in Hle.
    change (inject_Z 0) with 0%Q in Hle.
    split_min_max. lra.
  - intros [Hlo Hhi]. rewrite Zle_Qle in Hlo, Hhi.
    change (inject_Z 0) with 0%Q in Hlo.
    change (inject_Z 200) with 200%Q in Hhi.
    split_min_max. lra.
Qed.

Lemma hn_velocity_saturates_at_200_witness :
  Qeq (_compute_velocity
         (Ingestion.new_raw_item 1 Examples.noon 3 MoreExamples.ask_item))
      (inject_Z 42 / 200)%Q.
Proof.
  refine (proj2 (proj2 (proj2
            (hn_velocity_saturates_at_200
               (Ingestion.new_raw_item 1 Examples.noon 3 MoreExamples.ask_item)
               (Ingestion.new_raw_item 1 Examples.noon 3 MoreExamples.ask_item)
               8863 8863 42 42 (Some "story"%string) (Some "story"%string)
               eq_refl eq_refl))) _).
  split; vm_compute; discriminate.
Defined.

(** ** What the scoring pass writes *)

Lemma same_up_to_status_refl l : same_up_to_status l l.
Proof. reflexivity. Qed.

Lemma same_up_to_status_trans l1 l2 l3 :
  same_up_to_status l1 l2 -> same_up_to_status l2 l3 ->
  same_up_to_status l1 l3.
Proof. unfold same_up_to_status. congruence. Qed.

Lemma update_status_same_up_to_status id st s :
  same_up_to_status (raw_items s) (raw_items (Db.update_status id st s)).
Proof.
  unfold same_up_to_status, Db.update_status. simpl.
  rewrite map_map. apply map_ext. intros r.
  destruct (Nat.eqb (raw_id r) id); reflexivity.
Qed.

Lemma _score_item_effect cfg ai now s item s' sc :
  _score_item cfg ai now s item = Some (s', sc) ->
  item_scores s' = item_scores s ++ [sc]
  /\ score_raw_item_id sc = raw_id item
  /\ computed_at sc = now
  /\ same_up_to_status (raw_items s) (raw_items s')
  /\ sources s' = sources s
  /\ clusters s' = clusters s
  /\ cluster_members s' = cluster_members s
  /\ item_embeddings s' = item_embeddings s.
Proof.
  unfold _score_item. intros H.
  destruct (Db.find_source s (raw_source_id item)) as [source|];
    [|discriminate].
  destruct (_compute_relevance cfg ai item source) as [r|]; [|discriminate].
  injection H as <- <-.
  split; [reflexivity|]. split; [reflexivity|]. split; [reflexivity|].
  split; [|repeat split].
  apply (update_status_same_up_to_status (raw_id item) "scored"
           (Db.set_item_scores s _)).
Qed.

Lemma score_fold cfg ai now items : forall acc,
  exists added,
    item_scores (fst (fold_left (score_step cfg ai now) items acc))
    = item_scores (fst acc) ++ added
    /\ items_scored (snd (fold_left (score_step cfg ai now) items acc))
       = items_scored (snd acc) + List.length added
    /\ List.length added <= List.length items
    /\ high_signal_count (snd (fold_left (score_step cfg ai now) items acc))
       <= high_signal_count (snd acc) + List.length added
    /\ Forall (fun sc => computed_at sc = now
                         /\ exists item, In item items
                                         /\ raw_id item = score_raw_item_id sc)
              added
    /\ same_up_to_status
         (raw_items (fst acc))
         (raw_items (fst (fold_left (score_step cfg ai now) items acc)))
    /\ sources (fst (fold_left (score_step cfg ai now) items acc))
       = sources (fst acc)
    /\ clusters (fst (fold_left (score_step cfg ai now) items acc))
       = clusters (fst acc)
    /\ cluster_members (fst (fold_left (score_step cfg ai now) items acc))
       = cluster_members (fst acc)
    /\ item_embeddings (fst (fold_left (score_step cfg ai now) items acc))
       = item_embeddings (fst acc).
Proof.
  induction items as [|item items IH]; intros acc; simpl.
  - exists []. rewrite app_nil_r. simpl.
    repeat (split; [first [reflexivity|lia|constructor]|]). reflexivity.
  - destruct (IH (score_step cfg ai now acc item))
      as [added [H1 [H2 [H3 [H4 [H5 [H6 [H7 [H8 [H9 H10]]]]]]]]]].
    assert (Hweak : Forall (fun sc => computed_at sc = now
                              /\ exists item0,
                                   (item = item0 \/ In item0 items)
                                   /\ raw_id item0 = score_raw_item_id sc)
                           added).
    { eapply Forall_impl; [|exact H5].
      intros sc [Hc [it [Hin Hid]]]. split; auto. exists it. auto. }
    unfold score_step in *.
    destruct (_score_item cfg ai now (fst acc) item) as [[s1 sc1]|] eqn:E.
    + destruct (_score_item_effect _ _ _ _ _ _ _ E)
        as [G1 [G2 [G3 [G4 [G5 [G6 [G7 G8]]]]]]].
      cbn [fst snd items_scored high_signal_count] in *.
      exists (sc1 :: added).
      split; [rewrite H1, G1, <- app_assoc; reflexivity|].
      split; [rewrite H2; simpl; lia|].
      split; [simpl; lia|].
      split.
      { destruct (Qle_bool high_signal_threshold (signal_score sc1));
          simpl; lia. }
      split.
      { constructor; auto. split; auto. exists item. auto. }
      split; [eapply same_up_to_status_trans; eauto|].
      repeat split; congruence.
    + exists added.
      split; [exact H1|]. split; [exact H2|]. split; [lia|].
      split; [exact H4|]. split; [exact Hweak|].
      split; [exact H6|]. auto.
Qed.

(** X9.  The scoring pass is append-only.  [score_all] leaves the score
    rows that exist as they are and appends one row per item it counts
    in [items_scored], at most 200; each new row carries the time of
    the pass and belongs to an item that had status ["extracted"] and no
    score row before.  [high_signal_count] never exceeds
    [items_scored].  Raw items change in their status only, and sources,
    clusters, memberships and embeddings do not change. *)
Theorem score_all_appends_one_row_per_item :
  forall (cfg : Settings) (ai : AiEnv) (now : datetime) (s : Store),
    exists added,
      item_scores (fst (score_all cfg ai now s)) = item_scores s ++ added
      /\ items_scored (snd (score_all cfg ai now s)) = List.length added
      /\ high_signal_count (snd (score_all cfg ai now s))
         <= items_scored (snd (score_all cfg ai now s))
      /\ items_scored (snd (score_all cfg ai now s)) <= 200
      /\ Forall (fun sc =>
                   computed_at sc = now
                   /\ exists item,
                        In item (raw_items s)
                        /\ raw_id item = score_raw_item_id sc
                        /\ raw_status item = "extracted"%string
                        /\ has_score s (raw_id item) = false) added
      /\ same_up_to_status (raw_items s)
                           (raw_items (fst (score_all cfg ai now s)))
      /\ sources (fst (score_all cfg ai now s)) = sources s
      /\ clusters (fst (score_all cfg ai now s)) = clusters s
      /\ cluster_members (fst (score_all cfg ai now s)) = cluster_members s
      /\ item_embeddings (fst (score_all cfg ai now s)) = item_embeddings s.
Proof.
  intros cfg ai now s. unfold score_all.
  destruct (score_fold cfg ai now (pending_items s)
              (s, {| items_scored := 0; high_signal_count := 0 |}))
    as [added [H1 [H2 [H3 [H4 [H5 [H6 [H7 [H8 [H9 H10]]]]]]]]]].
  cbn [fst snd items_scored high_signal_count] in *.
  assert (Hlen : List.length (pending_items s) <= 200)
    by (unfold pending_items; apply firstn_le_length).
  exists added.
  split; [exact H1|]. split; [lia|]. split; [lia|]. split; [lia|].
  split; [|auto].
  eapply Forall_impl; [|exact H5].
  intros sc [Hc [item [Hin Hid]]]. split; auto. exists item.
  assert (Hin' : In item (filter
                            (fun r => String.eqb (raw_status r) "extracted"
                                      && negb (has_score s (raw_id r)))
                            (raw_items s)))
    by (unfold pending_items in Hin;
        eapply IngestionMore.in_firstn; exact Hin).
  apply filter_In in Hin'. destruct Hin' as [Hraw Hcond].
  apply andb_true_iff in Hcond. destruct Hcond as [Hst Hsc].
  apply String.eqb_eq in Hst. apply negb_true_iff in Hsc. auto.
Qed.

(** ** One score row per item *)

Lemma NoDup_map_filter {A B : Type} (k : A -> B) (f : A -> bool) l :
  NoDup (map k l) -> NoDup (map k (filter f l)).
Proof.
  induction l as [|a l IH]; cbn [map filter]; intros H; [constructor|].
  apply NoDup_cons_iff in H. destruct H as [Hn Hd].
  destruct (f a); cbn [map]; [|auto].
  constructor; [|auto].
  intros Hin. apply Hn. apply in_map_iff in Hin.
  destruct Hin as [x [E Hx]]. apply filter_In in Hx.
  apply in_map_iff. exists x. tauto.
Qed.

Lemma NoDup_map_firstn {A B : Type} (k : A -> B) n : forall l,
  NoDup (map k l) -> NoDup (map k (firstn n l)).
Proof.
  induction n as [|n IH]; intros [|a l] H; cbn [firstn map];
    try constructor.
  - cbn [map] in H. apply NoDup_cons_iff in H. destruct H as [Hn Hd].
    intros Hin. apply Hn. apply in_map_iff in Hin.
    destruct Hin as [x [E Hx]]. apply IngestionMore.in_firstn in Hx.
    apply in_map_iff. exists x. tauto.
  - cbn [map] in H. apply NoDup_cons_iff in H. apply IH. tauto.
Qed.

Lemma has_score_false_iff s id :
  has_score s id = false
  <-> ~ In id (map score_raw_item_id (item_scores s)).
Proof.
  unfold has_score. split.
  - intros H Hin. apply in_map_iff in Hin. destruct Hin as [sc [E Hsc]].
    assert (Hex : existsb (fun sc => Nat.eqb (score_raw_item_id sc) id)
                          (item_scores s) = true).
    { apply existsb_exists. exists sc. split; [exact Hsc|].
      now apply Nat.eqb_eq. }
    congruence.
  - intros H. apply not_true_is_false. intros Hex.
    apply existsb_exists in Hex. destruct Hex as [sc [Hsc E]].
    apply Nat.eqb_eq in E. apply H. apply in_map_iff. exists sc. auto.
Qed.

Lemma score_fold_unique cfg ai now : forall items acc,
  NoDup (map raw_id items) ->
  NoDup (map score_raw_item_id (item_scores (fst acc))) ->
  (forall it, In it items -> has_score (fst acc) (raw_id it) = false) ->
  NoDup (map score_raw_item_id
             (item_scores (fst (fold_left (score_step cfg ai now) items acc)))).
Proof.
  induction items as [|item items IH]; intros acc Hids Hsc Hfree;
    cbn [fold_left]; [exact Hsc|].
  cbn [map] in Hids. apply NoDup_cons_iff in Hids.
  destruct Hids as [Hnew Hids].
  apply IH; [exact Hids| |]; unfold score_step;
    destruct (_score_item cfg ai now (fst acc) item) as [[s1 sc1]|] eqn:E;
    cbn [fst].
  - destruct (_score_item_effect _ _ _ _ _ _ _ E) as [G1 [G2 _]].
    rewrite G1, map_app. cbn [map]. apply IngestionMore.NoDup_snoc.
    + exact Hsc.
    + rewrite G2. apply has_score_false_iff. apply Hfree. now left.
  - exact Hsc.
  - destruct (_score_item_effect _ _ _ _ _ _ _ E) as [G1 [G2 _]].
    intros it Hit. apply has_score_false_iff. rewrite G1, map_app.
    cbn [map]. intros Hin. apply in_app_or in Hin.
    destruct Hin as [Hin|[Hin|[]]].
    + exact (proj1 (has_score_false_iff _ _) (Hfree it (or_intror Hit)) Hin).
    + apply Hnew. apply in_map_iff. exists it. split; [congruence|exact Hit].
  - intros it Hit. apply Hfree. now right.
Qed.

(** X26.  The scoring pass keeps one score row per item: when the ids of
    the raw items are distinct and no item has two score rows, none has
    two after [score_all]. *)
Theorem score_all_keeps_one_score_per_item :
  forall (cfg : Settings) (ai : AiEnv) (now : datetime) (s : Store),
    NoDup (map raw_id (raw_items s)) ->
    NoDup (map score_raw_item_id (item_scores s)) ->
    NoDup (map score_raw_item_id
               (item_scores (fst (score_all cfg ai now s)))).
Proof.
  intros cfg ai now s Hids Hsc. unfold score_all.
  apply score_fold_unique.
  - unfold pending_items. apply NoDup_map_firstn, NoDup_map_filter.
    exact Hids.
  - exact Hsc.
  - intros it Hit. cbn [fst]. unfold pending_items in Hit.
    apply IngestionMore.in_firstn in Hit. apply filter_In in Hit.
    destruct Hit as [_ Hc]. apply andb_true_iff in Hc.
    destruct Hc as [_ Hc]. now apply negb_true_iff in Hc.
Qed.

Lemma score_all_keeps_one_score_per_item_witness :
  NoDup (map score_raw_item_id
             (item_scores (fst (score_all default_settings no_ai
                                          Examples.noon
                                          Examples.extracted_store)))).
Proof.
  apply (score_all_keeps_one_score_per_item
           default_settings no_ai Examples.noon Examples.extracted_store).
  - cbn. constructor; [intros []|constructor].
  - cbn. constructor.
Defined.

End ScoringMore.

(* ================================================================== *)
(** * Further properties of the readers of scored items *)
(* ================================================================== *)

Module SignalsMore.
Import Signals.

Lemma joined_spec s keep item score source :
  In (item, score, source) (joined s keep)
  <-> In item (raw_items s) /\ In score (item_scores s)
      /\ In source (sources s)
      /\ raw_id item = score_raw_item_id score
      /\ raw_source_id item = source_id source
      /\ keep (item, score, source) = true.
Proof.
  unfold joined. rewrite in_flat_map. split.
  - intros [i [Hi H]]. apply in_flat_map in H. destruct H as [sc [Hsc H]].
    apply in_flat_map in H. destruct H as [so [Hso H]].
    destruct (Nat.eqb (raw_id i) (score_raw_item_id sc)) eqn:E1;
      [|simpl in H; contradiction].
    destruct (Nat.eqb (raw_source_id i) (source_id so)) eqn:E2;
      [|simpl in H; contradiction].
    destruct (keep (i, sc, so)) eqn:E3; [|simpl in H; contradiction].
    simpl in H. destruct H as [H|[]].
    injection H as <- <- <-.
    apply Nat.eqb_eq in E1. apply Nat.eqb_eq in E2. auto 10.
  - intros [Hi [Hsc [Hso [E1 [E2 E3]]]]].
    exists item. split; [exact Hi|].
    apply in_flat_map. exists score. split; [exact Hsc|].
    apply in_flat_map. exists source. split; [exact Hso|].
    apply Nat.eqb_eq in E1. apply Nat.eqb_eq in E2.
    rewrite E1, E2, E3. simpl. auto.
Qed.

Lemma insert_desc_perm x l :
  Permutation (Briefing.insert_desc x l) (x :: l).
Proof.
  induction l as [|y r IH]; simpl; [reflexivity|].
  destruct (Qle_bool _ _); [reflexivity|].
  rewrite IH. apply perm_swap.
Qed.

Lemma order_perm l : Permutation (Briefing.order_by_signal_desc l) l.
Proof.
  induction l as [|x l IH]; simpl; [reflexivity|].
  rewrite insert_desc_perm. now constructor.
Qed.

Lemma insert_desc_sorted x l :
  descending l -> descending (Briefing.insert_desc x l).
Proof.
  unfold descending.
  induction l as [|y r IH]; intros H; simpl.
  - constructor; constructor.
  - apply StronglySorted_inv in H. destruct H as [Hr Hy].
    destruct (Qle_bool (signal_score (snd (fst y)))
                       (signal_score (snd (fst x)))) eqn:E.
    + apply Qle_bool_iff in E.
      constructor; [constructor; assumption|].
      constructor; [exact E|].
      eapply Forall_impl; [|exact Hy].
      intros a Ha. unfold score_of in *. cbv beta in *.
      eapply Qle_trans; eassumption.
    + constructor; [apply IH; exact Hr|].
      eapply Permutation_Forall.
      * symmetry. apply insert_desc_perm.
      * constructor; [|exact Hy].
        unfold score_of.
        destruct (Qlt_le_dec (signal_score (snd (fst x)))
                             (signal_score (snd (fst y)))) as [Hlt|Hle].
        -- apply Qlt_le_weak. exact Hlt.
        -- apply Qle_bool_iff in Hle. congruence.
Qed.

Lemma order_sorted l : descending (Briefing.order_by_signal_desc l).
Proof.
  induction l as [|x l IH]; simpl.
  - constructor.
  - apply insert_desc_sorted. exact IH.
Qed.

Lemma descending_firstn k : forall l,
  descending l -> descending (firstn k l).
Proof.
  unfold descending.
  induction k as [|k IH]; intros [|x l] H; simpl; try constructor.
  - apply IH. now apply StronglySorted_inv in H.
  - apply StronglySorted_inv in H. destruct H as [_ H].
    rewrite Forall_forall in *. intros y Hy. apply H.
    rewrite <- (firstn_skipn k l). apply in_or_app. now left.
Qed.

Lemma descending_skipn k : forall l,
  descending l -> descending (skipn k l).
Proof.
  unfold descending.
  induction k as [|k IH]; intros [|x l] H; simpl; try assumption.
  apply IH. now apply StronglySorted_inv in H.
Qed.

Lemma descending_cut k : forall l a b,
  descending l -> In a (firstn k l) -> In b (skipn k l) ->
  Qle (score_of b) (score_of a).
Proof.
  unfold descending.
  induction k as [|k IH]; intros [|x l] a b H Ha Hb; simpl in *;
    try contradiction.
  apply StronglySorted_inv in H. destruct H as [Hl Hx].
  destruct Ha as [<-|Ha].
  - rewrite Forall_forall in Hx. apply Hx.
    rewrite <- (firstn_skipn k l). apply in_or_app. now right.
  - eapply IH; eassumption.
Qed.

(** X10.  [get_high_signals] returns the best-scored rows.  It returns
    [min(limit, n)] rows, where [n] is the number of joined rows whose
    signal score reaches [min_score]; they come in descending order of
    signal score; each one pairs an item of the store with one of its
    score rows, of at least [min_score], and with its source; and no
    qualifying row that is left out scores higher than a row that is
    returned. *)
Theorem high_signals_are_the_best_scored :
  forall (s : Store) (limit : nat) (min_score : Q),
    List.length (get_high_signals s limit min_score)
    = Nat.min limit
        (List.length (joined s (fun row => Qle_bool min_score (score_of row))))
    /\ descending (get_high_signals s limit min_score)
    /\ (forall item score source,
          In (item, score, source) (get_high_signals s limit min_score) ->
          In item (raw_items s) /\ In score (item_scores s)
          /\ In source (sources s)
          /\ score_raw_item_id score = raw_id item
          /\ source_id source = raw_source_id item
          /\ Qle min_score (signal_score score))
    /\ (forall row other,
          In row (get_high_signals s limit min_score) ->
          In other (joined s (fun row => Qle_bool min_score (score_of row))) ->
          ~ In other (get_high_signals s limit min_score) ->
          Qle (score_of other) (score_of row)).
Proof.
  intros s limit min_score. unfold get_high_signals.
  set (rows := joined s (fun row => Qle_bool min_score (score_of row))).
  split; [|split; [|split]].
  - rewrite length_firstn. rewrite (Permutation_length (order_perm rows)).
    reflexivity.
  - apply descending_firstn. apply order_sorted.
  - intros item score source Hin.
    assert (Hj : In (item, score, source) rows).
    { apply (Permutation_in _ (order_perm rows)).
      rewrite <- (firstn_skipn limit (Briefing.order_by_signal_desc rows)).
      apply in_or_app. now left. }
    apply joined_spec in Hj.
    destruct Hj as [H1 [H2 [H3 [H4 [H5 H6]]]]].
    apply Qle_bool_iff in H6. unfold score_of in H6. simpl in H6.
    auto 10.
  - intros row other Hrow Hother Hout.
    apply (Permutation_in _ (Permutation_sym (order_perm rows))) in Hother.
    rewrite <- (firstn_skipn limit (Briefing.order_by_signal_desc rows))
      in Hother.
    apply in_app_or in Hother. destruct Hother as [H|H]; [contradiction|].
    eapply descending_cut; [apply order_sorted|exact Hrow|exact H].
Qed.

(** X11.  A page of [list_signals].  When the request is accepted, the
    page holds [min(limit, n - offset)] rows, where [n] is the number of
    rows that pass the filters; [has_more] is set exactly when rows remain
    after the page ([offset + limit < n]); [total] is the size of the page
    plus one when [has_more] is set, so it never exceeds [limit + 1]
    whatever [n] is; the rows come in descending order of signal score,
    were fetched within the last [hours] hours and score at least
    [min_score]. *)
Theorem list_signals_page :
  forall (now : datetime) (s : Store) (min_score : Q)
         (category type_filter : option string) (hours : Z)
         (limit offset : nat) (page : Page),
    list_signals now s min_score category type_filter hours limit offset
    = Some page ->
    List.length (page_rows page)
    = Nat.min limit
        (List.length (joined s (listed (now - timedelta_hours hours)%Z
                                       min_score category type_filter))
         - offset)
    /\ (page_has_more page = true
        <-> offset + limit
            < List.length (joined s (listed (now - timedelta_hours hours)%Z
                                            min_score category type_filter)))
    /\ page_total page
       = List.length (page_rows page) + (if page_has_more page then 1 else 0)
    /\ page_total page <= limit + 1
    /\ descending (page_rows page)
    /\ (forall item score source,
          In (item, score, source) (page_rows page) ->
          In item (raw_items s) /\ In score (item_scores s)
          /\ In source (sources s)
          /\ score_raw_item_id score = raw_id item
          /\ source_id source = raw_source_id item
          /\ (now - timedelta_hours hours <= raw_fetched_at item)%Z
          /\ Qle min_score (signal_score score)).
Proof.
  intros now s min_score category type_filter hours limit offset page.
  unfold list_signals.
  destruct (Py.truthy type_filter
            && negb (is_source_type_label (Ingestion.or_empty type_filter)));
    [discriminate|].
  set (rows := joined s (listed (now - timedelta_hours hours)%Z
                                min_score category type_filter)).
  set (all := Briefing.order_by_signal_desc rows).
  intros H. injection H as <-. cbn [page_rows page_total page_has_more].
  assert (Hlen : List.length all = List.length rows)
    by apply (Permutation_length (order_perm rows)).
  assert (Hcut : firstn limit (firstn (limit + 1) (skipn offset all))
                 = firstn limit (skipn offset all)).
  { rewrite firstn_firstn. f_equal. lia. }
  rewrite Hcut.
  assert (Hrows : List.length (firstn limit (skipn offset all))
                  = Nat.min limit (List.length rows - offset)).
  { rewrite length_firstn, length_skipn, Hlen. reflexivity. }
  assert (Hmore : (limit <? List.length (firstn (limit + 1) (skipn offset all)))%nat
                  = true <-> offset + limit < List.length rows).
  { rewrite Nat.ltb_lt, length_firstn, length_skipn, Hlen. lia. }
  split; [exact Hrows|]. split; [exact Hmore|]. split; [reflexivity|].
  split.
  { rewrite Hrows.
    destruct (limit <? List.length (firstn (limit + 1) (skipn offset all)))%nat;
      lia. }
  split.
  { apply descending_firstn, descending_skipn, order_sorted. }
  intros item score source Hin.
  assert (Hj : In (item, score, source) rows).
  { apply (Permutation_in _ (order_perm rows)). fold all.
    rewrite <- (firstn_skipn offset all). apply in_or_app. right.
    rewrite <- (firstn_skipn limit (skipn offset all)).
    apply in_or_app. now left. }
  apply joined_spec in Hj. destruct Hj as [H1 [H2 [H3 [H4 [H5 H6]]]]].
  unfold listed in H6.
  apply andb_true_iff in H6. destruct H6 as [H6 _].
  apply andb_true_iff in H6. destruct H6 as [H6 _].
  apply andb_true_iff in H6. destruct H6 as [H6 H7].
  apply Z.leb_le in H6. apply Qle_bool_iff in H7. auto 10.
Qed.

Lemma list_signals_page_witness :
  exists page,
    list_signals Examples.noon Examples.scored_store 0.5%Q None None 24 50 0
    = Some page
    /\ List.length (page_rows page) = 1
    /\ page_has_more page = false.
Proof.
  eexists. split; [reflexivity|].
  split.
  - rewrite (proj1 (list_signals_page
                      Examples.noon Examples.scored_store 0.5%Q None None
                      24 50 0 _ eq_refl)).
    reflexivity.
  - reflexivity.
Defined.

(** ** No item is listed twice *)

Lemma flat_map_nil {A B : Type} (h : A -> list B) l :
  (forall x, In x l -> h x = []) -> flat_map h l = [].
Proof.
  induction l as [|a l IH]; cbn [flat_map]; intros H; [reflexivity|].
  rewrite (H a (or_introl eq_refl)), IH; [reflexivity|].
  intros x Hx. apply H. now right.
Qed.

Lemma at_most_one {A B : Type} (k : A -> nat) (a : nat) (h : A -> list B) l :
  NoDup (map k l) ->
  (forall x, k x <> a -> h x = []) ->
  (forall x, List.length (h x) <= 1) ->
  List.length (flat_map h l) <= 1.
Proof.
  intros Hnd Hne Hone.
  induction l as [|x l IH]; cbn [flat_map]; [cbn; lia|].
  cbn [map] in Hnd. apply NoDup_cons_iff in Hnd. destruct Hnd as [Hn Hd].
  rewrite length_app. destruct (Nat.eq_dec (k x) a) as [E|E].
  - rewrite (flat_map_nil h l).
    + specialize (Hone x). cbn [List.length]. lia.
    + intros y Hy. apply Hne. intros Ey. apply Hn.
      apply in_map_iff. exists y. split; [congruence|exact Hy].
  - rewrite (Hne x E). cbn [List.length]. apply IH. exact Hd.
Qed.

Lemma rows_of_item_at_most_one s keep item :
  NoDup (map score_raw_item_id (item_scores s)) ->
  NoDup (map source_id (sources s)) ->
  List.length
    (flat_map
       (fun score =>
          flat_map
            (fun source =>
               if Nat.eqb (raw_id item) (score_raw_item_id score)
                  && Nat.eqb (raw_source_id item) (source_id source)
                  && keep (item, score, source)
               then [(item, score, source)] else [])
            (sources s))
       (item_scores s)) <= 1.
Proof.
  intros Hsc Hso.
  apply (at_most_one score_raw_item_id (raw_id item)); [exact Hsc| |].
  - intros sc Hne. apply flat_map_nil. intros so _.
    destruct (Nat.eqb_spec (raw_id item) (score_raw_item_id sc));
      [congruence|reflexivity].
  - intros sc.
    apply (at_most_one source_id (raw_source_id item)); [exact Hso| |].
    + intros so Hne.
      destruct (Nat.eqb_spec (raw_source_id item) (source_id so));
        [congruence|]. rewrite andb_false_r. reflexivity.
    + intros so. destruct (_ && _); cbn; lia.
Qed.

Lemma joined_items_distinct s keep :
  NoDup (map raw_id (raw_items s)) ->
  NoDup (map score_raw_item_id (item_scores s)) ->
  NoDup (map source_id (sources s)) ->
  NoDup (map (fun row : Row => raw_id (fst (fst row))) (joined s keep)).
Proof.
  intros Hids Hsc Hso. unfold joined.
  induction (raw_items s) as [|item l IH]; cbn [flat_map map];
    [constructor|].
  cbn [map] in Hids. apply NoDup_cons_iff in Hids.
  destruct Hids as [Hn Hd]. specialize (IH Hd).
  rewrite map_app.
  pose proof (rows_of_item_at_most_one s keep item Hsc Hso) as Hone.
  match goal with
  | |- NoDup (map _ ?rows ++ _) => set (mine := rows) in *
  end.
  assert (Hmine : forall row, In row mine -> raw_id (fst (fst row)) = raw_id item).
  { intros row Hrow. unfold mine in Hrow.
    apply in_flat_map in Hrow. destruct Hrow as [sc [_ Hrow]].
    apply in_flat_map in Hrow. destruct Hrow as [so [_ Hrow]].
    destruct (_ && _); [|contradiction].
    destruct Hrow as [<-|[]]. reflexivity. }
  destruct mine as [|row [|row' rest]]; cbn [List.length] in Hone;
    [exact IH| |lia].
  cbn [map app]. constructor; [|exact IH].
  rewrite (Hmine row (or_introl eq_refl)).
  intros Hin. apply in_map_iff in Hin.
  destruct Hin as [[[i sc] so] [E Hrow]]. cbn [fst] in E.
  apply in_flat_map in Hrow. destruct Hrow as [i' [Hi' Hrow]].
  apply in_flat_map in Hrow. destruct Hrow as [sc' [_ Hrow]].
  apply in_flat_map in Hrow. destruct Hrow as [so' [_ Hrow]].
  destruct (_ && _); [|contradiction].
  destruct Hrow as [Hrow|[]]. injection Hrow as -> _ _.
  apply Hn. apply in_map_iff. exists i. auto.
Qed.

(** X27.  No item is listed twice.  When raw items, sources and score
    rows each have distinct keys, with one score row per item, the rows
    that [get_high_signals] returns belong to pairwise different
    items. *)
Theorem high_signals_list_each_item_once :
  forall (s : Store) (limit : nat) (min_score : Q),
    NoDup (map raw_id (raw_items s)) ->
    NoDup (map score_raw_item_id (item_scores s)) ->
    NoDup (map source_id (sources s)) ->
    NoDup (map (fun row : Row => raw_id (fst (fst row)))
               (get_high_signals s limit min_score)).
Proof.
  intros s limit min_score Hids Hsc Hso. unfold get_high_signals.
  apply ScoringMore.NoDup_map_firstn.
  eapply Permutation_NoDup.
  - apply Permutation_map. symmetry. apply order_perm.
  - apply joined_items_distinct; assumption.
Qed.

Lemma high_signals_list_each_item_once_witness :
  NoDup (map (fun row : Row => raw_id (fst (fst row)))
             (get_high_signals Examples.scored_store 10 0.5%Q)).
Proof.
  apply (high_signals_list_each_item_once Examples.scored_store 10 0.5%Q).
  - cbn. constructor; [intros []|constructor].
  - vm_compute. constructor; [intros []|constructor].
  - cbn. constructor; [intros []|constructor].
Defined.

End SignalsMore.

(* ================================================================== *)
(** * Further properties of the embedder *)
(* ================================================================== *)

Module EmbeddingMore.
Import Embedding EmbeddingStage Shape.

Lemma slice_not_empty n t :
  n <> 0 -> t <> EmptyString -> 1 <= String.length (Py.str_slice_to n t).
Proof.
  unfold Py.str_slice_to. destruct n as [|n]; [congruence|].
  destruct t as [|c t]; [congruence|]. simpl. lia.
Qed.

Lemma append_right_not_empty a b :
  b <> EmptyString -> String.append a b <> EmptyString.
Proof.
  destruct a; simpl; [auto|discriminate].
Qed.

Lemma parts_text_not_empty (title text : option string) :
  (if Py.truthy title then [Ingestion.or_empty title] else [])
  ++ (if Py.truthy text then [Ingestion.or_empty text] else []) <> [] ->
  String.concat " "
    ((if Py.truthy title then [Ingestion.or_empty title] else [])
     ++ (if Py.truthy text then [Ingestion.or_empty text] else []))
  <> EmptyString.
Proof.
  destruct (Py.truthy title) eqn:Et, (Py.truthy text) eqn:Ex; simpl;
    intros H.
  - apply IngestionMore.append_not_empty.
    apply IngestionMore.truthy_not_empty. exact Et.
  - apply IngestionMore.truthy_not_empty. exact Et.
  - apply IngestionMore.truthy_not_empty. exact Ex.
  - congruence.
Qed.

Lemma limit_8000_positive : 8000 <> 0.
Proof. intros H. discriminate H. Qed.

(** X12.  The text handed to the embedding provider is never empty and
    never longer than 8000 characters.  [_get_text_for_embedding] returns
    nothing only for an item whose title and raw text are both missing
    or empty and that has no extracted text. *)
Theorem embedding_text_is_bounded :
  forall (s : Store) (item : RawItem),
    match _get_text_for_embedding s item with
    | Some text => 1 <= String.length text /\ String.length text <= 8000
    | None =>
        Py.truthy (raw_title item) = false
        /\ Py.truthy (raw_text item) = false
        /\ (forall e,
              find (fun e => Nat.eqb (ec_raw_item_id e) (raw_id item))
                   (extracted_content s) = Some e ->
              ec_text e = EmptyString)
    end.
Proof.
  intros s item. unfold _get_text_for_embedding.
  assert (Hparts :
    match
      match (if Py.truthy (raw_title item)
             then [Ingestion.or_empty (raw_title item)] else [])
            ++ (if Py.truthy (raw_text item)
                then [Ingestion.or_empty (raw_text item)] else []) with
      | [] => None
      | _ :: _ =>
          Some (Py.str_slice_to 8000
                  (String.concat " "
                     ((if Py.truthy (raw_title item)
                       then [Ingestion.or_empty (raw_title item)] else [])
                      ++ (if Py.truthy (raw_text item)
                          then [Ingestion.or_empty (raw_text item)]
                          else []))))
      end
    with
    | Some text => 1 <= String.length text /\ String.length text <= 8000
    | None => Py.truthy (raw_title item) = false
              /\ Py.truthy (raw_text item) = false
    end).
  { pose proof (parts_text_not_empty (raw_title item) (raw_text item)) as Hne.
    destruct ((if Py.truthy (raw_title item)
               then [Ingestion.or_empty (raw_title item)] else [])
              ++ (if Py.truthy (raw_text item)
                  then [Ingestion.or_empty (raw_text item)] else []))
      as [|p ps] eqn:E.
    - destruct (Py.truthy (raw_title item)); [discriminate E|].
      destruct (Py.truthy (raw_text item)); [discriminate E|]. auto.
    - split; [|apply IngestionMore.slice_length].
      apply slice_not_empty; [exact limit_8000_positive|].
      apply Hne. discriminate. }
  destruct (find (fun e => Nat.eqb (ec_raw_item_id e) (raw_id item))
                 (extracted_content s)) as [e|].
  - destruct (String.eqb (ec_text e) EmptyString) eqn:Et; cbn [negb].
    + apply String.eqb_eq in Et.
      destruct (match _ ++ _ with [] => None | _ :: _ => _ end).
      * exact Hparts.
      * destruct Hparts as [H1 H2]. split; [exact H1|]. split; [exact H2|].
        intros e' He'. injection He' as <-. exact Et.
    + split; [|apply IngestionMore.slice_length].
      apply slice_not_empty; [exact limit_8000_positive|].
      apply append_right_not_empty. simpl.
      discriminate.
  - destruct (match _ ++ _ with [] => None | _ :: _ => _ end).
    + exact Hparts.
    + destruct Hparts as [H1 H2]. split; [exact H1|]. split; [exact H2|].
      intros e' He'. discriminate He'.
Qed.

(** ** The batch stage *)

Lemma text_depends_on_content s s' item :
  extracted_content s' = extracted_content s ->
  _get_text_for_embedding s' item = _get_text_for_embedding s item.
Proof. unfold _get_text_for_embedding. intros ->. reflexivity. Qed.

Lemma has_text_depends_on_content s s' item :
  extracted_content s' = extracted_content s ->
  has_text s' item = has_text s item.
Proof.
  unfold has_text. intros H.
  rewrite (text_depends_on_content _ _ _ H). reflexivity.
Qed.

Lemma randn_length n g : List.length (fst (randn n g)) = n.
Proof. unfold randn. cbn [fst]. rewrite length_map, length_seq. reflexivity. Qed.

Lemma randn_not_nil g : fst (randn dimension g) <> [].
Proof.
  intros H. apply (f_equal (@List.length Q)) in H.
  rewrite randn_length in H. discriminate H.
Qed.

Lemma _generate_embedding_without_key cfg text g :
  Py.truthy (OPENAI_API_KEY cfg) = false ->
  _generate_embedding cfg text g
  = (Some (fst (randn dimension g)), snd (randn dimension g)).
Proof.
  intros Hkey. unfold _generate_embedding, _generate_dummy_embedding.
  rewrite Hkey. reflexivity.
Qed.

Lemma _generate_embedding_with_key cfg text g :
  Py.truthy (OPENAI_API_KEY cfg) = true ->
  _generate_embedding cfg text g = (None, g).
Proof.
  intros Hkey. unfold _generate_embedding. rewrite Hkey. reflexivity.
Qed.

(** The row and the store a successful turn leaves. *)
Lemma embed_step_stores cfg s g st item text v g' :
  _get_text_for_embedding s item = Some text ->
  _generate_embedding cfg text g = (Some v, g') ->
  v <> [] ->
  embed_step cfg (s, g, st) item
  = (Db.update_status (raw_id item) "embedded"
       (Db.set_item_embeddings s
          (item_embeddings s
           ++ [{| emb_raw_item_id := raw_id item; embed_model := model;
                  emb_dim := dimension; embedding := v |}])),
     g',
     {| e_items_processed := S (e_items_processed st);
        e_embeddings_created := S (e_embeddings_created st);
        e_failed := e_failed st |}).
Proof.
  intros Ht Hg Hv. unfold embed_step. rewrite Ht, Hg.
  destruct v as [|x v]; [congruence|reflexivity].
Qed.

Lemma embed_step_fails cfg s g st item :
  (_get_text_for_embedding s item = None
   \/ Py.truthy (OPENAI_API_KEY cfg) = true) ->
  embed_step cfg (s, g, st) item
  = (s, g,
     {| e_items_processed := S (e_items_processed st);
        e_embeddings_created := e_embeddings_created st;
        e_failed := S (e_failed st) |}).
Proof.
  intros H. unfold embed_step.
  destruct (_get_text_for_embedding s item) as [text|] eqn:Ht;
    [|reflexivity].
  destruct H as [H|H]; [discriminate H|].
  rewrite (_generate_embedding_with_key cfg text g H). reflexivity.
Qed.

Lemma embed_fold_without_key cfg s0 :
  Py.truthy (OPENAI_API_KEY cfg) = false ->
  forall items s g st,
    extracted_content s = extracted_content s0 ->
    exists added,
      item_embeddings
        (fst (fst (fold_left (embed_step cfg) items (s, g, st))))
      = item_embeddings s ++ added
      /\ List.length added = List.length (filter (has_text s0) items)
      /\ e_items_processed (snd (fold_left (embed_step cfg) items (s, g, st)))
         = e_items_processed st + List.length items
      /\ e_embeddings_created
           (snd (fold_left (embed_step cfg) items (s, g, st)))
         = e_embeddings_created st + List.length added
      /\ e_failed (snd (fold_left (embed_step cfg) items (s, g, st)))
         + List.length added
         = e_failed st + List.length items
      /\ position (snd (fst (fold_left (embed_step cfg) items (s, g, st))))
         = position g + dimension * List.length added
      /\ Forall (fun row =>
                   List.length (embedding row) = dimension
                   /\ emb_dim row = dimension
                   /\ embed_model row = model
                   /\ exists item, In item items
                                   /\ raw_id item = emb_raw_item_id row
                                   /\ has_text s0 item = true) added
      /\ same_up_to_status
           (raw_items s)
           (raw_items (fst (fst (fold_left (embed_step cfg) items (s, g, st)))))
      /\ extracted_content
           (fst (fst (fold_left (embed_step cfg) items (s, g, st))))
         = extracted_content s0
      /\ item_scores (fst (fst (fold_left (embed_step cfg) items (s, g, st))))
         = item_scores s
      /\ cluster_members
           (fst (fst (fold_left (embed_step cfg) items (s, g, st))))
         = cluster_members s.
Proof.
  intros Hkey.
  induction items as [|item items IH]; intros s g st Hc.
  - exists []. cbn [fold_left fst snd List.length filter].
    rewrite app_nil_r, Nat.mul_0_r, !Nat.add_0_r.
    repeat (split; [first [reflexivity|exact Hc|constructor]|]). reflexivity.
  - cbn [fold_left filter].
    assert (Hh : has_text s0 item
                 = match _get_text_for_embedding s item with
                   | Some _ => true
                   | None => false
                   end)
      by (rewrite <- (has_text_depends_on_content s0 s item Hc);
          reflexivity).
    rewrite Hh.
    destruct (_get_text_for_embedding s item) as [text|] eqn:Ht.
    + rewrite (embed_step_stores cfg s g st item text _ _ Ht
                 (_generate_embedding_without_key cfg text g Hkey)
                 (randn_not_nil g)).
      set (row := {| emb_raw_item_id := raw_id item; embed_model := model;
                     emb_dim := dimension;
                     embedding := fst (randn dimension g) |}).
      remember (Db.update_status (raw_id item) "embedded"
                  (Db.set_item_embeddings s (item_embeddings s ++ [row])))
        as s1 eqn:Es1.
      remember (snd (randn dimension g)) as g1 eqn:Eg1.
      remember {| e_items_processed := S (e_items_processed st);
                  e_embeddings_created := S (e_embeddings_created st);
                  e_failed := e_failed st |} as st1 eqn:Est1.
      assert (F1 : item_embeddings s1 = item_embeddings s ++ [row])
        by (rewrite Es1; reflexivity).
      assert (F2 : extracted_content s1 = extracted_content s0)
        by (rewrite Es1; exact Hc).
      assert (F3 : position g1 = position g + dimension)
        by (rewrite Eg1; reflexivity).
      assert (F4 : e_items_processed st1 = S (e_items_processed st)
                   /\ e_embeddings_created st1 = S (e_embeddings_created st)
                   /\ e_failed st1 = e_failed st)
        by (rewrite Est1; repeat split).
      assert (F5 : same_up_to_status (raw_items s) (raw_items s1)).
      { rewrite Es1. unfold same_up_to_status, Db.update_status.
        cbn [raw_items Db.set_raw_items Db.set_item_embeddings].
        rewrite map_map. apply map_ext.
        intros r. destruct (Nat.eqb (raw_id r) (raw_id item)); reflexivity. }
      assert (F6 : item_scores s1 = item_scores s
                   /\ cluster_members s1 = cluster_members s)
        by (rewrite Es1; split; reflexivity).
      destruct F4 as [F4a [F4b F4c]]. destruct F6 as [F6a F6b].
      destruct (IH s1 g1 st1 F2)
        as [added [H1 [H2 [H3 [H4 [H5 [H6 [H7 [H8 [H9 [H10 H11]]]]]]]]]]].
      exists (row :: added).
      split; [rewrite H1, F1, <- app_assoc; reflexivity|].
      split; [cbn [List.length]; rewrite H2; reflexivity|].
      split; [rewrite H3, F4a; cbn [List.length]; lia|].
      split; [rewrite H4, F4b; cbn [List.length]; lia|].
      split; [cbn [List.length]; lia|].
      split; [rewrite H6, F3; cbn [List.length]; lia|].
      split.
      { constructor.
        - unfold row. cbn [embedding emb_dim embed_model emb_raw_item_id].
          split; [apply randn_length|]. split; [reflexivity|].
          split; [reflexivity|]. exists item.
          split; [now left|]. split; [reflexivity|]. exact Hh.
        - eapply Forall_impl; [|exact H7].
          intros r [R1 [R2 [R3 [it [Hin R4]]]]].
          split; [exact R1|]. split; [exact R2|]. split; [exact R3|].
          exists it. split; [now right|exact R4]. }
      split; [eapply ScoringMore.same_up_to_status_trans; eassumption|].
      split; [exact H9|].
      split; [rewrite H10; exact F6a|rewrite H11; exact F6b].
    + rewrite (embed_step_fails cfg s g st item (or_introl Ht)).
      match goal with
      | |- context [fold_left _ items (?s1, ?g1, ?st1)] =>
          destruct (IH s1 g1 st1 Hc)
            as [added [H1 [H2 [H3 [H4 [H5 [H6 [H7 [H8 [H9 [H10 H11]]]]]]]]]]]
      end.
      cbn [e_items_processed e_embeddings_created e_failed] in H3, H4, H5.
      exists added.
      split; [exact H1|]. split; [exact H2|].
      split; [rewrite H3; cbn [List.length]; lia|].
      split; [exact H4|].
      split; [cbn [List.length]; lia|].
      split; [exact H6|].
      split.
      { eapply Forall_impl; [|exact H7].
        intros row [R1 [R2 [R3 [it [Hin R4]]]]].
        split; [exact R1|]. split; [exact R2|]. split; [exact R3|].
        exists it. split; [now right|exact R4]. }
      split; [exact H8|]. split; [exact H9|].
      split; [exact H10|exact H11].
Qed.

(** X13.  The embedding pass without a provider key.  [embed_all_pending]
    takes at most [limit] items, each with status ["extracted"] and no
    embedding row; it appends one row of 1536 components per taken item
    that has a text and counts exactly those in [embeddings_created]; the
    others are counted in [failed], so that [items_processed =
    embeddings_created + failed]; the random generator moves on by 1536
    draws per stored vector; existing embedding rows stay as they are,
    raw items change in their status only, and extracted content, scores
    and memberships do not change. *)
Theorem embed_all_pending_without_key :
  forall (cfg : Settings) (limit : nat) (s : Store) (g : Rng),
    Py.truthy (OPENAI_API_KEY cfg) = false ->
    exists added,
      item_embeddings (fst (fst (embed_all_pending cfg limit s g)))
      = item_embeddings s ++ added
      /\ e_items_processed (snd (embed_all_pending cfg limit s g))
         = List.length (pending_items limit s)
      /\ e_items_processed (snd (embed_all_pending cfg limit s g)) <= limit
      /\ e_embeddings_created (snd (embed_all_pending cfg limit s g))
         = List.length added
      /\ List.length added
         = List.length (filter (has_text s) (pending_items limit s))
      /\ e_items_processed (snd (embed_all_pending cfg limit s g))
         = e_embeddings_created (snd (embed_all_pending cfg limit s g))
           + e_failed (snd (embed_all_pending cfg limit s g))
      /\ position (snd (fst (embed_all_pending cfg limit s g)))
         = position g + dimension * List.length added
      /\ Forall (fun row =>
                   List.length (embedding row) = dimension
                   /\ emb_dim row = dimension
                   /\ embed_model row = model
                   /\ exists item,
                        In item (raw_items s)
                        /\ raw_id item = emb_raw_item_id row
                        /\ raw_status item = "extracted"%string
                        /\ has_embedding s (raw_id item) = false
                        /\ has_text s item = true) added
      /\ same_up_to_status
           (raw_items s)
           (raw_items (fst (fst (embed_all_pending cfg limit s g))))
      /\ extracted_content (fst (fst (embed_all_pending cfg limit s g)))
         = extracted_content s
      /\ item_scores (fst (fst (embed_all_pending cfg limit s g)))
         = item_scores s
      /\ cluster_members (fst (fst (embed_all_pending cfg limit s g)))
         = cluster_members s.
Proof.
  intros cfg limit s g Hkey. unfold embed_all_pending.
  destruct (embed_fold_without_key cfg s Hkey (pending_items limit s) s g
              {| e_items_processed := 0; e_embeddings_created := 0;
                 e_failed := 0 |} eq_refl)
    as [added [H1 [H2 [H3 [H4 [H5 [H6 [H7 [H8 [H9 [H10 H11]]]]]]]]]]].
  cbn [e_items_processed e_embeddings_created e_failed] in H3, H4, H5.
  assert (Hlen : List.length (pending_items limit s) <= limit)
    by (unfold pending_items; apply firstn_le_length).
  exists added.
  split; [exact H1|]. split; [lia|]. split; [lia|]. split; [lia|].
  split; [exact H2|]. split; [lia|]. split; [exact H6|].
  split.
  { eapply Forall_impl; [|exact H7].
    intros row [R1 [R2 [R3 [item [Hin [R4 R5]]]]]].
    split; [exact R1|]. split; [exact R2|]. split; [exact R3|].
    exists item.
    unfold pending_items in Hin. apply IngestionMore.in_firstn in Hin.
    apply filter_In in Hin. destruct Hin as [Hraw Hcond].
    apply andb_true_iff in Hcond. destruct Hcond as [Hst Hemb].
    apply String.eqb_eq in Hst. apply negb_true_iff in Hemb. auto 10. }
  split; [exact H8|]. split; [exact H9|]. split; [exact H10|exact H11].
Qed.

Lemma embed_all_pending_without_key_witness :
  exists added,
    item_embeddings
      (fst (fst (embed_all_pending default_settings 100
                   Examples.extracted_store Examples.counting_rng)))
    = item_embeddings Examples.extracted_store ++ added
    /\ e_embeddings_created
         (snd (embed_all_pending default_settings 100
                 Examples.extracted_store Examples.counting_rng))
       = List.length added.
Proof.
  destruct (embed_all_pending_without_key
              default_settings 100 Examples.extracted_store
              Examples.counting_rng eq_refl)
    as [added [H1 [_ [_ [H4 _]]]]].
  exists added. split; [exact H1|exact H4].
Defined.

Lemma embed_fold_with_key cfg :
  Py.truthy (OPENAI_API_KEY cfg) = true ->
  forall items s g st,
    fold_left (embed_step cfg) items (s, g, st)
    = (s, g,
       {| e_items_processed := e_items_processed st + List.length items;
          e_embeddings_created := e_embeddings_created st;
          e_failed := e_failed st + List.length items |}).
Proof.
  intros Hkey.
  induction items as [|item items IH]; intros s g st.
  - cbn [fold_left List.length]. rewrite !Nat.add_0_r.
    destruct st; reflexivity.
  - cbn [fold_left].
    rewrite (embed_step_fails cfg s g st item (or_intror Hkey)), IH.
    cbn [e_items_processed e_embeddings_created e_failed List.length].
    rewrite !Nat.add_succ_r. reflexivity.
Qed.

(** X14.  With a provider key configured no embedding is ever stored.
    [_generate_embedding] then answers [None] whatever the provider
    returns, so [embed_all_pending] leaves the store and the generator as
    they were, creates nothing, and counts every item it took as
    failed. *)
Theorem embed_all_pending_with_key_stores_nothing :
  forall (cfg : Settings) (limit : nat) (s : Store) (g : Rng),
    Py.truthy (OPENAI_API_KEY cfg) = true ->
    (forall text g', fst (_generate_embedding cfg text g') = None)
    /\ fst (fst (embed_all_pending cfg limit s g)) = s
    /\ snd (fst (embed_all_pending cfg limit s g)) = g
    /\ e_embeddings_created (snd (embed_all_pending cfg limit s g)) = 0
    /\ e_failed (snd (embed_all_pending cfg limit s g))
       = List.length (pending_items limit s)
    /\ e_items_processed (snd (embed_all_pending cfg limit s g))
       = List.length (pending_items limit s).
Proof.
  intros cfg limit s g Hkey. split.
  - intros text g'. rewrite (_generate_embedding_with_key cfg text g' Hkey).
    reflexivity.
  - unfold embed_all_pending. rewrite (embed_fold_with_key cfg Hkey).
    cbn [fst snd e_items_processed e_embeddings_created e_failed].
    repeat split.
Qed.

Lemma embed_all_pending_with_key_stores_nothing_witness :
  fst (fst (embed_all_pending MoreExamples.keyed_settings 100
              Examples.extracted_store Examples.counting_rng))
  = Examples.extracted_store
  /\ e_failed (snd (embed_all_pending MoreExamples.keyed_settings 100
                      Examples.extracted_store Examples.counting_rng))
     = 1.
Proof.
  destruct (embed_all_pending_with_key_stores_nothing
              MoreExamples.keyed_settings 100 Examples.extracted_store
              Examples.counting_rng eq_refl)
    as [_ [H1 [_ [_ [H2 _]]]]].
  split; [exact H1|]. rewrite H2. reflexivity.
Defined.

End EmbeddingMore.

(* ================================================================== *)
(** * Further properties of the deduplicator *)
(* ================================================================== *)

Module DedupMore.
Import Dedup Shape.

(** ** Merging *)

Lemma move_members_effect target cid s s1 :
  move_members target cid s = Some s1 ->
  s1 = Db.set_cluster_members s (map (moved_to target cid) (cluster_members s)).
Proof.
  unfold move_members. intros H.
  destruct (_ && _); [discriminate|].
  destruct (negb _); [discriminate|].
  now injection H as <-.
Qed.

Lemma moved_all_step target cid rest m :
  moved_all target rest (moved_to target cid m)
  = moved_all target (cid :: rest) m.
Proof.
  unfold moved_all, moved_to. cbn [existsb].
  destruct (Nat.eqb (cm_cluster_id m) cid) eqn:E; cbn [orb].
  - cbn [cm_cluster_id cm_raw_item_id similarity].
    destruct (existsb (Nat.eqb target) rest); reflexivity.
  - reflexivity.
Qed.

Lemma marked_all_step cid rest c :
  marked_all rest
    (if Nat.eqb (cluster_id c) cid
     then {| cluster_id := cluster_id c;
             canonical_item_id := canonical_item_id c;
             cluster_status := MERGED;
             cluster_created_at := cluster_created_at c |}
     else c)
  = marked_all (cid :: rest) c.
Proof.
  unfold marked_all. cbn [existsb].
  destruct (Nat.eqb (cluster_id c) cid) eqn:E; cbn [orb].
  - cbn [cluster_id canonical_item_id cluster_created_at].
    destruct (existsb (Nat.eqb (cluster_id c)) rest); reflexivity.
  - reflexivity.
Qed.

Lemma merge_loop_effect target : forall rest s acc s' moved,
  merge_loop target rest s acc = Some (s', moved) ->
  cluster_members s' = map (moved_all target rest) (cluster_members s)
  /\ clusters s' = map (marked_all rest) (clusters s)
  /\ raw_items s' = raw_items s
  /\ item_embeddings s' = item_embeddings s
  /\ item_scores s' = item_scores s
  /\ next_uuid s' = next_uuid s
  /\ acc <= moved
  /\ (rest <> [] ->
      acc + List.length (members_of s' target) <= moved).
Proof.
  induction rest as [|cid rest IH]; intros s acc s' moved H.
  - injection H as <- <-. cbn [moved_all marked_all existsb].
    unfold moved_all, marked_all. cbn [existsb].
    rewrite !map_id.
    repeat (split; [first [reflexivity|lia]|]). congruence.
  - cbn [merge_loop] in H.
    destruct (move_members target cid s) as [s1|] eqn:Em; [|discriminate].
    pose proof (move_members_effect _ _ _ _ Em) as E1.
    apply IH in H.
    destruct H as [H1 [H2 [H3 [H4 [H5 [H6 [H7 H8]]]]]]].
    subst s1.
    cbn [mark_merged Db.set_clusters Db.set_cluster_members cluster_members
         clusters raw_items item_embeddings item_scores next_uuid] in *.
    split.
    { rewrite H1, map_map. apply map_ext. intros m. apply moved_all_step. }
    split.
    { rewrite H2, map_map. apply map_ext. intros c. apply marked_all_step. }
    split; [exact H3|]. split; [exact H4|]. split; [exact H5|].
    split; [exact H6|]. split; [lia|].
    intros _. destruct rest as [|cid' rest'].
    + unfold members_of. rewrite H1.
      unfold moved_all at 1. cbn [existsb]. rewrite map_id. lia.
    + assert (Hne : cid' :: rest' <> []) by discriminate.
      specialize (H8 Hne). lia.
Qed.

(** X15.  What a successful merge does.  [merge_clusters] takes the first
    id as the target; every membership row of one of the other listed
    clusters goes to the target and is no longer canonical, and every
    other row stays as it is, so that the rows, their items and their
    similarities are conserved in number and order; the other listed
    clusters stay in the table with status [MERGED]; raw items,
    embeddings and scores do not change.  [clusters_merged] is the number
    of listed ids minus one, and the reported [members_moved] is at least
    the size of the target cluster after the merge. *)
Theorem merge_moves_members_to_the_target :
  forall (s s' : Store) (cluster_ids : list UUID)
         (target merged moved : nat),
    merge_clusters s cluster_ids = (s', MergeDone target merged moved) ->
    hd_error cluster_ids = Some target
    /\ 2 <= List.length cluster_ids
    /\ merged = List.length cluster_ids - 1
    /\ cluster_members s'
       = map (moved_all target (tl cluster_ids)) (cluster_members s)
    /\ map cm_raw_item_id (cluster_members s')
       = map cm_raw_item_id (cluster_members s)
    /\ map similarity (cluster_members s')
       = map similarity (cluster_members s)
    /\ (forall m, In m (cluster_members s') ->
                  In (cm_cluster_id m) (tl cluster_ids) ->
                  cm_cluster_id m = target /\ is_canonical m = false)
    /\ clusters s' = map (marked_all (tl cluster_ids)) (clusters s)
    /\ raw_items s' = raw_items s
    /\ item_embeddings s' = item_embeddings s
    /\ item_scores s' = item_scores s
    /\ List.length (members_of s' target) <= moved.
Proof.
  intros s s' ids target merged moved H.
  unfold merge_clusters in H.
  destruct ids as [|t [|c rest]]; try discriminate.
  destruct (merge_loop t (c :: rest) s 0) as [[s1 mv]|] eqn:El;
    [|discriminate].
  injection H as <- <- <- <-.
  destruct (merge_loop_effect _ _ _ _ _ _ El)
    as [H1 [H2 [H3 [H4 [H5 [H6 [H7 H8]]]]]]].
  cbn [hd_error tl List.length].
  split; [reflexivity|]. split; [lia|]. split; [reflexivity|].
  split; [exact H1|].
  split.
  { rewrite H1, map_map. apply map_ext. intros m. unfold moved_all.
    destruct (existsb _ _); reflexivity. }
  split.
  { rewrite H1, map_map. apply map_ext. intros m. unfold moved_all.
    destruct (existsb _ _); reflexivity. }
  split.
  { intros m Hm Hin. rewrite H1 in Hm. apply in_map_iff in Hm.
    destruct Hm as [m0 [<- Hm0]]. revert Hin. unfold moved_all.
    destruct (existsb (Nat.eqb (cm_cluster_id m0)) (c :: rest)) eqn:E.
    - cbn [cm_cluster_id is_canonical]. auto.
    - intros Hin. exfalso.
      assert (Hex : existsb (Nat.eqb (cm_cluster_id m0)) (c :: rest) = true).
      { apply existsb_exists. exists (cm_cluster_id m0).
        split; [exact Hin|apply Nat.eqb_refl]. }
      congruence. }
  split; [exact H2|]. split; [exact H3|]. split; [exact H4|].
  split; [exact H5|].
  assert (Hne : c :: rest <> []) by discriminate.
  specialize (H8 Hne). lia.
Qed.

Lemma merge_moves_members_to_the_target_witness :
  cluster_members
    (fst (merge_clusters
            (run_ops unit_cosine_distance Examples.pair_store
                     [OpAssign Examples.noon 0; OpAssign Examples.noon 1])
            [2; 3]))
  = map (moved_all 2 [3])
        (cluster_members
           (run_ops unit_cosine_distance Examples.pair_store
                    [OpAssign Examples.noon 0; OpAssign Examples.noon 1])).
Proof.
  refine (proj1 (proj2 (proj2 (proj2
            (merge_moves_members_to_the_target
               (run_ops unit_cosine_distance Examples.pair_store
                        [OpAssign Examples.noon 0; OpAssign Examples.noon 1])
               (fst (merge_clusters
                       (run_ops unit_cosine_distance Examples.pair_store
                                [OpAssign Examples.noon 0;
                                 OpAssign Examples.noon 1])
                       [2; 3]))
               [2; 3] 2 1 2 _))))).
  vm_compute. reflexivity.
Defined.

(** ** Archival *)


(** ** Joining a duplicate to a cluster *)

Lemma option_string_eqb_eq a b :
  option_string_eqb a b = true <-> a = b.
Proof.
  destruct a as [x|], b as [y|]; simpl; split; intros H;
    try discriminate; try reflexivity.
  - apply String.eqb_eq in H. now subst.
  - injection H as ->. apply String.eqb_refl.
Qed.

Lemma add_member_effect s m s' :
  add_member s m = Some s' ->
  s' = Db.set_cluster_members s (cluster_members s ++ [m]).
Proof.
  unfold add_member. destruct (existsb _ _); [discriminate|].
  now intros H; injection H as <-.
Qed.

Lemma scalar_no_row {A : Type} (f : A -> bool) (l : list A) :
  Db.scalar_one_or_none (filter f l) = Db.NoRow ->
  forall x, In x l -> f x = false.
Proof.
  intros H x Hin. destruct (f x) eqn:E; [|reflexivity].
  assert (Hf : In x (filter f l)) by (apply filter_In; auto).
  destruct (filter f l) as [|a [|b r]]; [contradiction| |]; discriminate H.
Qed.

Lemma _add_to_cluster_effect now s dup canon sim s' :
  _add_to_cluster now s dup canon sim = Some s' ->
  exists cid newc newm,
    clusters s' = clusters s ++ newc
    /\ cluster_members s'
       = cluster_members s ++ newm
         ++ [{| cm_cluster_id := cid; cm_raw_item_id := raw_id dup;
                is_canonical := false; similarity := Some sim |}]
    /\ List.length newm = List.length newc
    /\ List.length newc <= 1
    /\ Forall (fun c => cluster_status c = OPEN
                        /\ cluster_created_at c = now
                        /\ cluster_id c = cid
                        /\ canonical_item_id c = raw_id canon) newc
    /\ (exists m, In m (cluster_members s ++ newm)
                  /\ cm_cluster_id m = cid
                  /\ cm_raw_item_id m = raw_id canon
                  /\ is_canonical m = true)
    /\ raw_items s' = raw_items s
    /\ item_embeddings s' = item_embeddings s
    /\ item_scores s' = item_scores s.
Proof.
  unfold _add_to_cluster. intros H.
  destruct (Db.scalar_one_or_none _) as [|m|] eqn:E.
  - rewrite DedupFacts.add_cluster_eta in H.
    destruct (add_member (snd (add_cluster now s (raw_id canon))) _)
      as [s2|] eqn:E2; [|discriminate].
    apply add_member_effect in E2. apply add_member_effect in H.
    subst s2. subst s'.
    exists (next_uuid s).
    exists [{| cluster_id := next_uuid s;
               canonical_item_id := raw_id canon;
               cluster_status := OPEN;
               cluster_created_at := now |}].
    exists [{| cm_cluster_id := next_uuid s;
               cm_raw_item_id := raw_id canon;
               is_canonical := true;
               similarity := Some 1.0%Q |}].
    cbn. rewrite <- app_assoc.
    split; [reflexivity|]. split; [reflexivity|]. split; [reflexivity|].
    split; [lia|].
    split; [constructor; [auto|constructor]|].
    split; [|auto].
    eexists. split; [apply in_or_app; right; left; reflexivity|].
    cbn. auto.
  - apply add_member_effect in H. subst s'.
    apply DedupFacts.scalar_one_in in E. apply filter_In in E.
    destruct E as [Hin Hc]. apply andb_true_iff in Hc.
    destruct Hc as [Hid Hcan]. apply Nat.eqb_eq in Hid.
    exists (cm_cluster_id m), [], [].
    cbn. rewrite app_nil_r.
    split; [reflexivity|]. split; [reflexivity|]. split; [reflexivity|].
    split; [lia|]. split; [constructor|].
    split; [|auto].
    exists m. rewrite app_nil_r. auto.
  - discriminate.
Qed.

(** X17.  What the exact-duplicate check decides and writes.  When
    [check_exact_duplicate] answers that the item is no duplicate, the
    store is as it was, no other row has the item's link, and no other
    row fetched within the last 7 days has its title.  When it answers
    that the item is a duplicate, another row has the same link, or the
    same title within 7 days; the item then gets a membership that is not
    canonical, with similarity 1.0, in a cluster in which that other row
    is canonical; the tables only grow, by at most one cluster and its
    canonical membership, and raw items do not change, their status
    included. *)
Theorem exact_duplicate_joins_the_matching_row :
  forall (now : datetime) (s s' : Store) (item : RawItem) (dup : bool),
    check_exact_duplicate now s item = Some (s', dup) ->
    (dup = false ->
     s' = s
     /\ forall r, In r (raw_items s) -> raw_id r <> raw_id item ->
                  raw_url r <> raw_url item
                  /\ (raw_title r = raw_title item ->
                      (raw_fetched_at r
                       < now - timedelta_days time_window_days)%Z))
    /\ (dup = true ->
        exists other cid newc newm,
          In other (raw_items s)
          /\ raw_id other <> raw_id item
          /\ (raw_url other = raw_url item
              \/ (raw_title other = raw_title item
                  /\ (now - timedelta_days time_window_days
                      <= raw_fetched_at other)%Z))
          /\ clusters s' = clusters s ++ newc
          /\ cluster_members s'
             = cluster_members s ++ newm
               ++ [{| cm_cluster_id := cid; cm_raw_item_id := raw_id item;
                      is_canonical := false; similarity := Some 1.0%Q |}]
          /\ List.length newm = List.length newc
          /\ List.length newc <= 1
          /\ (exists m, In m (cluster_members s ++ newm)
                        /\ cm_cluster_id m = cid
                        /\ cm_raw_item_id m = raw_id other
                        /\ is_canonical m = true)
          /\ raw_items s' = raw_items s).
Proof.
  intros now s s' item dup. unfold check_exact_duplicate.
  set (by_url := fun r => option_string_eqb (raw_url r) (raw_url item)
                          && negb (Nat.eqb (raw_id r) (raw_id item))).
  set (by_title := fun r => option_string_eqb (raw_title r) (raw_title item)
                            && negb (Nat.eqb (raw_id r) (raw_id item))
                            && (now - timedelta_days time_window_days
                                <=? raw_fetched_at r)%Z).
  assert (Hjoin : forall other,
    (by_url other = true \/ by_title other = true) ->
    In other (raw_items s) ->
    forall s1, _add_to_cluster now s item other 1.0%Q = Some s1 ->
    exists other cid newc newm,
      In other (raw_items s)
      /\ raw_id other <> raw_id item
      /\ (raw_url other = raw_url item
          \/ (raw_title other = raw_title item
              /\ (now - timedelta_days time_window_days
                  <= raw_fetched_at other)%Z))
      /\ clusters s1 = clusters s ++ newc
      /\ cluster_members s1
         = cluster_members s ++ newm
           ++ [{| cm_cluster_id := cid; cm_raw_item_id := raw_id item;
                  is_canonical := false; similarity := Some 1.0%Q |}]
      /\ List.length newm = List.length newc
      /\ List.length newc <= 1
      /\ (exists m, In m (cluster_members s ++ newm)
                    /\ cm_cluster_id m = cid
                    /\ cm_raw_item_id m = raw_id other
                    /\ is_canonical m = true)
      /\ raw_items s1 = raw_items s).
  { intros other Hmatch Hin s1 Ha.
    destruct (_add_to_cluster_effect _ _ _ _ _ _ Ha)
      as [cid [newc [newm [H1 [H2 [H3 [H4 [_ [H6 [H7 _]]]]]]]]]].
    exists other, cid, newc, newm.
    split; [exact Hin|].
    assert (Hk : raw_id other <> raw_id item
                 /\ (raw_url other = raw_url item
                     \/ (raw_title other = raw_title item
                         /\ (now - timedelta_days time_window_days
                             <= raw_fetched_at other)%Z))).
    { destruct Hmatch as [Hm|Hm].
      - unfold by_url in Hm. apply andb_true_iff in Hm.
        destruct Hm as [Hu Hn]. apply option_string_eqb_eq in Hu.
        apply negb_true_iff, Nat.eqb_neq in Hn. auto.
      - unfold by_title in Hm. apply andb_true_iff in Hm.
        destruct Hm as [Hm Hw]. apply andb_true_iff in Hm.
        destruct Hm as [Ht Hn]. apply option_string_eqb_eq in Ht.
        apply negb_true_iff, Nat.eqb_neq in Hn. apply Z.leb_le in Hw.
        auto. }
    destruct Hk as [Hk1 Hk2]. auto 10. }
  destruct (Db.scalar_one_or_none (filter by_url (raw_items s)))
    as [|m|] eqn:Eu.
  - destruct (Db.scalar_one_or_none (filter by_title (raw_items s)))
      as [|m|] eqn:Et.
    + intros H. injection H as <- <-. split; [|discriminate].
      intros _. split; [reflexivity|].
      intros r Hin Hne.
      pose proof (scalar_no_row _ _ Eu r Hin) as Hu.
      pose proof (scalar_no_row _ _ Et r Hin) as Ht.
      unfold by_url in Hu. unfold by_title in Ht.
      assert (Hn : negb (Nat.eqb (raw_id r) (raw_id item)) = true)
        by (apply negb_true_iff, Nat.eqb_neq; exact Hne).
      rewrite Hn, andb_true_r in Hu. rewrite Hn, andb_true_r in Ht.
      split.
      * intros E. apply option_string_eqb_eq in E. congruence.
      * intros E. apply option_string_eqb_eq in E. rewrite E in Ht.
        cbn [andb] in Ht. apply Z.leb_gt in Ht. exact Ht.
    + destruct (_add_to_cluster now s item m 1.0%Q) as [s1|] eqn:Ea;
        [|discriminate].
      intros H. injection H as <- <-. split; [discriminate|]. intros _.
      apply DedupFacts.scalar_one_in in Et. apply filter_In in Et.
      destruct Et as [Hin Hm].
      exact (Hjoin m (or_intror Hm) Hin s1 Ea).
    + discriminate.
  - destruct (_add_to_cluster now s item m 1.0%Q) as [s1|] eqn:Ea;
      [|discriminate].
    intros H. injection H as <- <-. split; [discriminate|]. intros _.
    apply DedupFacts.scalar_one_in in Eu. apply filter_In in Eu.
    destruct Eu as [Hin Hm].
    exact (Hjoin m (or_introl Hm) Hin s1 Ea).
  - discriminate.
Qed.

Lemma exact_duplicate_joins_the_matching_row_witness :
  exists s',
    check_exact_duplicate Examples.noon MoreExamples.twin_store
      (Examples.story 1 "Same story" Examples.noon) = Some (s', true)
    /\ raw_items s' = raw_items MoreExamples.twin_store.
Proof.
  eexists. split; [vm_compute; reflexivity|].
  destruct (proj2 (exact_duplicate_joins_the_matching_row
                     Examples.noon MoreExamples.twin_store _
                     (Examples.story 1 "Same story" Examples.noon) true
                     eq_refl) eq_refl)
    as [other [cid [newc [newm [_ [_ [_ [_ [_ [_ [_ [_ H]]]]]]]]]]]].
  exact H.
Defined.

(** ** The clustering pass *)

Lemma clustering_grows_refl now s : clustering_grows now s s 0 0.
Proof.
  exists [], []. rewrite !app_nil_r. cbn [List.length].
  repeat (split; [first [reflexivity|lia|constructor]|]). reflexivity.
Qed.

Lemma clustering_grows_trans now s1 s2 s3 c1 d1 c2 d2 :
  clustering_grows now s1 s2 c1 d1 ->
  clustering_grows now s2 s3 c2 d2 ->
  clustering_grows now s1 s3 (c1 + c2) (d1 + d2).
Proof.
  intros [nc1 [nm1 [A1 [A2 [A3 [A4 [A5 [A6 [A7 [A8 [A9 A10]]]]]]]]]]]
         [nc2 [nm2 [B1 [B2 [B3 [B4 [B5 [B6 [B7 [B8 [B9 B10]]]]]]]]]]].
  exists (nc1 ++ nc2), (nm1 ++ nm2).
  rewrite !length_app.
  split; [rewrite B1, A1, app_assoc; reflexivity|].
  split; [rewrite B2, A2, app_assoc; reflexivity|].
  split; [lia|]. split; [lia|]. split; [lia|].
  split; [apply Forall_app; auto|].
  split; [apply Forall_app; auto|].
  split; [eapply ScoringMore.same_up_to_status_trans; eassumption|].
  split; congruence.
Qed.

Lemma clustering_grows_status now s s' c d id st :
  clustering_grows now s s' c d ->
  clustering_grows now s (Db.update_status id st s') c d.
Proof.
  intros [nc [nm [A1 [A2 [A3 [A4 [A5 [A6 [A7 [A8 [A9 A10]]]]]]]]]]].
  exists nc, nm.
  split; [exact A1|]. split; [exact A2|]. split; [exact A3|].
  split; [exact A4|]. split; [exact A5|]. split; [exact A6|].
  split; [exact A7|].
  split.
  { eapply ScoringMore.same_up_to_status_trans; [exact A8|].
    apply ScoringMore.update_status_same_up_to_status. }
  split; [exact A9|exact A10].
Qed.

Section ClusteringPass.
Variable dist : Vector -> Vector -> Q.

Lemma check_semantic_duplicate_grows now s id s' b :
  check_semantic_duplicate dist now s id = Some (s', b) ->
  clustering_grows now s s' 0 (if b then 1 else 0).
Proof.
  unfold check_semantic_duplicate. intros H.
  assert (Hsame : forall s0 b0, Some (s, false) = Some (s0, b0) ->
                    clustering_grows now s s0 0 (if b0 then 1 else 0)).
  { intros s0 b0 E. injection E as <- <-. apply clustering_grows_refl. }
  destruct (find _ (item_embeddings s)) as [ie|]; [|now apply Hsame].
  destruct (similarity_query dist s (embedding ie) id _ semantic_threshold)
    as [|[best sim] rest] eqn:Eq; [now apply Hsame|].
  destruct (Db.find_raw_item s best) as [canon|]; [|now apply Hsame].
  destruct (Db.find_raw_item s id) as [item|]; [|now apply Hsame].
  destruct (_add_to_cluster now s item canon sim) as [s1|] eqn:Ea;
    [|discriminate].
  injection H as <- <-.
  assert (Hsim : Qle semantic_threshold sim).
  { assert (Hin : In (best, sim)
                     (similarity_query dist s (embedding ie) id
                        (now - timedelta_days time_window_days)%Z
                        semantic_threshold))
      by (rewrite Eq; now left).
    unfold similarity_query in Hin.
    apply IngestionMore.in_firstn in Hin.
    apply (proj1 (DedupFacts.order_in _ _)) in Hin.
    apply (DedupFacts.candidates_above dist) in Hin. exact Hin. }
  destruct (_add_to_cluster_effect _ _ _ _ _ _ Ea)
    as [cid [newc [newm [H1 [H2 [H3 [H4 [H5 [H6 [H7 [H8 H9]]]]]]]]]]].
  exists newc.
  exists (newm ++ [{| cm_cluster_id := cid; cm_raw_item_id := raw_id item;
                      is_canonical := false; similarity := Some sim |}]).
  rewrite length_app. cbn [List.length].
  split; [exact H1|]. split; [exact H2|]. split; [lia|].
  split; [lia|]. split; [lia|].
  split.
  { eapply Forall_impl; [|exact H5]. intros c [C1 [C2 _]]. auto. }
  split.
  { apply Forall_app. split.
    - destruct newc as [|c0 [|c1 r]]; cbn [List.length] in H3, H4;
        [| |lia].
      + destruct newm; [constructor|discriminate H3].
      + unfold _add_to_cluster in Ea.
        destruct (Db.scalar_one_or_none _) as [|m|] eqn:E.
        * rewrite DedupFacts.add_cluster_eta in Ea.
          destruct (add_member (snd (add_cluster now s (raw_id canon))) _)
            as [s2|] eqn:E2; [|discriminate].
          apply add_member_effect in E2. apply add_member_effect in Ea.
          subst s2. subst s1. cbn in H2.
          rewrite <- app_assoc in H2. apply app_inv_head in H2.
          destruct newm as [|m0 [|m1 r]]; cbn [List.length] in H3;
            try discriminate H3.
          cbn in H2. injection H2 as <- _.
          constructor; [|constructor]. left. split; reflexivity.
        * apply add_member_effect in Ea. subst s1. cbn in H1.
          rewrite <- (app_nil_r (clusters s)) in H1 at 1.
          apply app_inv_head in H1. discriminate H1.
        * discriminate.
    - constructor; [|constructor]. right. split; [reflexivity|].
      exists sim. split; [reflexivity|exact Hsim]. }
  split; [unfold same_up_to_status; rewrite H7; reflexivity|].
  split; [exact H8|exact H9].
Qed.

Lemma open_cluster_for_grows now s id cid s' :
  open_cluster_for now s id = Some (cid, s') ->
  clustering_grows now s s' 1 0.
Proof.
  unfold open_cluster_for. rewrite DedupFacts.add_cluster_eta.
  destruct (add_member _ _) as [s2|] eqn:E; [|discriminate].
  intros H. injection H as _ <-.
  apply add_member_effect in E. subst s2.
  eexists [_], [_]. cbn.
  split; [reflexivity|]. split; [reflexivity|]. split; [reflexivity|].
  split; [lia|]. split; [lia|].
  split; [constructor; [split; reflexivity|constructor]|].
  split; [constructor; [left; split; reflexivity|constructor]|].
  split; [reflexivity|]. split; reflexivity.
Qed.

Lemma cluster_item_grows now s item s' b :
  cluster_item dist now s item = Some (s', b) ->
  clustering_grows now s s' (if b then 0 else 1) (if b then 1 else 0).
Proof.
  unfold cluster_item. intros H.
  destruct (check_semantic_duplicate dist now s (raw_id item))
    as [[s1 [|]]|] eqn:Ec; [| |discriminate].
  - injection H as <- <-. apply clustering_grows_status.
    exact (check_semantic_duplicate_grows _ _ _ _ _ Ec).
  - destruct (open_cluster_for now s1 (raw_id item)) as [[cid s2]|] eqn:Eo;
      [|discriminate].
    injection H as <- <-. apply clustering_grows_status.
    exact (clustering_grows_trans _ _ _ _ _ _ _ _
             (check_semantic_duplicate_grows _ _ _ _ _ Ec)
             (open_cluster_for_grows _ _ _ _ _ Eo)).
Qed.

Lemma cluster_fold_grows now items : forall acc,
  exists created dups,
    clusters_created (snd (fold_left (cluster_step dist now) items acc))
    = clusters_created (snd acc) + created
    /\ duplicates_found (snd (fold_left (cluster_step dist now) items acc))
       = duplicates_found (snd acc) + dups
    /\ items_processed (snd (fold_left (cluster_step dist now) items acc))
       = items_processed (snd acc) + List.length items
    /\ created + dups <= List.length items
    /\ clustering_grows now (fst acc)
         (fst (fold_left (cluster_step dist now) items acc)) created dups.
Proof.
  induction items as [|item items IH]; intros acc.
  - exists 0, 0. cbn [fold_left List.length]. rewrite !Nat.add_0_r.
    split; [reflexivity|]. split; [reflexivity|]. split; [reflexivity|].
    split; [lia|]. apply clustering_grows_refl.
  - cbn [fold_left List.length].
    destruct (IH (cluster_step dist now acc item))
      as [c [d [H1 [H2 [H3 [H4 H5]]]]]].
    unfold cluster_step in H1, H2, H3, H5 |- *.
    destruct (cluster_item dist now (fst acc) item) as [[s1 [|]]|] eqn:Ei;
      cbn [fst snd items_processed clusters_created duplicates_found]
        in H1, H2, H3, H5.
    + exists c, (S d).
      split; [rewrite H1; reflexivity|]. split; [rewrite H2; lia|].
      split; [rewrite H3; lia|]. split; [lia|].
      exact (clustering_grows_trans _ _ _ _ 0 1 c d
               (cluster_item_grows _ _ _ _ _ Ei) H5).
    + exists (S c), d.
      split; [rewrite H1; lia|]. split; [rewrite H2; reflexivity|].
      split; [rewrite H3; lia|]. split; [lia|].
      exact (clustering_grows_trans _ _ _ _ 1 0 c d
               (cluster_item_grows _ _ _ _ _ Ei) H5).
    + exists c, d.
      split; [rewrite H1; reflexivity|]. split; [rewrite H2; reflexivity|].
      split; [rewrite H3; lia|]. split; [lia|]. exact H5.
Qed.

(** X18.  What the clustering pass writes and reports.
    [cluster_all_pending] takes at most [limit] items and reports that
    number as [items_processed]; [clusters_created + duplicates_found]
    never exceeds it.  Clusters and memberships are only appended: the
    new clusters are [OPEN], at least [clusters_created] and at most
    [clusters_created + duplicates_found] of them (a cluster opened for
    the match of a duplicate is not counted), and the new memberships are
    [duplicates_found] more than the new clusters; a new membership is
    canonical with similarity 1.0, or not canonical with a similarity of
    at least 0.92.  Raw items change in their status only; embeddings
    and scores do not change. *)
Theorem cluster_all_pending_only_appends :
  forall (now : datetime) (limit : nat) (s : Store),
    items_processed (snd (cluster_all_pending dist now limit s))
    = List.length (pending_items limit s)
    /\ items_processed (snd (cluster_all_pending dist now limit s)) <= limit
    /\ clusters_created (snd (cluster_all_pending dist now limit s))
       + duplicates_found (snd (cluster_all_pending dist now limit s))
       <= items_processed (snd (cluster_all_pending dist now limit s))
    /\ clustering_grows now s
         (fst (cluster_all_pending dist now limit s))
         (clusters_created (snd (cluster_all_pending dist now limit s)))
         (duplicates_found (snd (cluster_all_pending dist now limit s))).
Proof.
  intros now limit s. unfold cluster_all_pending.
  destruct (cluster_fold_grows now (pending_items limit s)
              (s, {| items_processed := 0; clusters_created := 0;
                     duplicates_found := 0 |}))
    as [c [d [H1 [H2 [H3 [H4 H5]]]]]].
  cbn [fst snd items_processed clusters_created duplicates_found]
    in H1, H2, H3, H5.
  assert (Hlen : List.length (pending_items limit s) <= limit)
    by (unfold pending_items; apply firstn_le_length).
  rewrite H1, H2, H3. cbn [Nat.add].
  split; [reflexivity|]. split; [exact Hlen|]. split; [lia|]. exact H5.
Qed.

(** ** Assigning a single item *)



End ClusteringPass.

End DedupMore.

(* ================================================================== *)
(** * Further properties of the briefing composer *)
(* ================================================================== *)

Module BriefingMore.
Import Briefing Shape.

(** ** The candidates of a briefing *)

Lemma joined_rows_spec s cutoff prefs item score source :
  In (item, score, source) (joined_rows s cutoff prefs)
  <-> In item (raw_items s) /\ In score (item_scores s)
      /\ In source (sources s)
      /\ raw_id item = score_raw_item_id score
      /\ raw_source_id item = source_id source
      /\ (cutoff <= raw_fetched_at item)%Z
      /\ Qle high_signal_threshold (signal_score score)
      /\ match prefs with
         | Some p =>
             match topics p with
             | [] => True
             | ts => exists c, source_category source = Some c /\ In c ts
             end
         | None => True
         end.
Proof.
  assert (Htopic : forall so,
    match prefs with
    | Some p =>
        match topics p with
        | [] => true
        | ts => match source_category so with
                | Some c => existsb (String.eqb c) ts
                | None => false
                end
        end
    | None => true
    end = true
    <-> match prefs with
        | Some p =>
            match topics p with
            | [] => True
            | ts => exists c, source_category so = Some c /\ In c ts
            end
        | None => True
        end).
  { intros so. destruct prefs as [p|]; [|tauto].
    destruct (topics p) as [|t ts]; [tauto|].
    destruct (source_category so) as [c|].
    - rewrite existsb_exists. split.
      + intros [x [Hx E]]. apply String.eqb_eq in E. subst x.
        exists c. auto.
      + intros [c' [E Hin]]. injection E as <-. exists c.
        split; [exact Hin|apply String.eqb_refl].
    - split; [discriminate|]. intros [c [E _]]. discriminate E. }
  unfold joined_rows. rewrite in_flat_map. split.
  - intros [i [Hi H]]. apply in_flat_map in H. destruct H as [sc [Hsc H]].
    apply in_flat_map in H. destruct H as [so [Hso H]].
    match type of H with
    | In _ (if ?c then _ else _) => destruct c eqn:E
    end; [|contradiction].
    destruct H as [H|[]]. injection H as <- <- <-.
    apply andb_true_iff in E. destruct E as [E E5].
    apply andb_true_iff in E. destruct E as [E E4].
    apply andb_true_iff in E. destruct E as [E E3].
    apply andb_true_iff in E. destruct E as [E1 E2].
    apply Nat.eqb_eq in E1. apply Nat.eqb_eq in E2.
    apply Z.leb_le in E3. apply Qle_bool_iff in E4.
    apply Htopic in E5. auto 10.
  - intros [Hi [Hsc [Hso [E1 [E2 [E3 [E4 E5]]]]]]].
    exists item. split; [exact Hi|].
    apply in_flat_map. exists score. split; [exact Hsc|].
    apply in_flat_map. exists source. split; [exact Hso|].
    apply Nat.eqb_eq in E1. apply Nat.eqb_eq in E2.
    apply Z.leb_le in E3. apply Qle_bool_iff in E4.
    apply Htopic in E5.
    rewrite E1, E2, E3, E4, E5. cbn [andb]. now left.
Qed.

Lemma slice_to_short {A : Type} (n : Z) (l : list A) :
  (0 <= n)%Z -> List.length l <= Z.to_nat n -> Py.slice_to n l = l.
Proof.
  intros Hn Hl. unfold Py.slice_to.
  destruct (Z.leb_spec 0 n); [|lia]. now apply firstn_all2.
Qed.

Lemma candidates_cut (n : Z) (l : list Row) :
  (0 <= n)%Z ->
  Py.slice_to n (firstn (Z.to_nat (n * 2)) l) = firstn (Z.to_nat n) l.
Proof.
  intros Hn. unfold Py.slice_to.
  destruct (Z.leb_spec 0 n); [|lia].
  rewrite firstn_firstn. f_equal. lia.
Qed.

Lemma content_bounded row : String.length (sg_content (to_signal row)) <= 500.
Proof.
  destruct row as [[item score] source]. cbn [to_signal sg_content].
  destruct (Py.truthy (raw_text item)).
  - apply IngestionMore.slice_length.
  - cbn. lia.
Qed.

(** X19.  The candidates of a briefing.  With [BRIEFING_NUM_ITEMS = n >=
    0], [_get_user_signals] returns the signals of the [min(n, m)]
    best-scored rows among the [m] joined rows whose item was fetched
    within the last 24 hours and whose signal score is at least 0.5 and,
    when the user has topics, whose source category is one of them: the
    rows come in descending order of score, and no such row that is left
    out scores higher than one that is kept.  The content of a signal has
    at most 500 characters.  A negative [n] makes the query fail. *)
Theorem user_signals_are_the_best_recent_rows :
  forall (cfg : Settings) (now : datetime) (s : Store)
         (preferences : option UserPreference),
    match _get_user_signals cfg now s preferences with
    | None => (BRIEFING_NUM_ITEMS cfg < 0)%Z
    | Some signals =>
        (0 <= BRIEFING_NUM_ITEMS cfg)%Z
        /\ exists rows,
             signals = map to_signal rows
             /\ List.length rows
                = Nat.min (Z.to_nat (BRIEFING_NUM_ITEMS cfg))
                    (List.length
                       (joined_rows s (now - timedelta_hours 24)%Z
                                    preferences))
             /\ Signals.descending rows
             /\ (forall item score source,
                   In (item, score, source) rows ->
                   In item (raw_items s) /\ In score (item_scores s)
                   /\ In source (sources s)
                   /\ score_raw_item_id score = raw_id item
                   /\ source_id source = raw_source_id item
                   /\ (now - timedelta_hours 24 <= raw_fetched_at item)%Z
                   /\ Qle high_signal_threshold (signal_score score)
                   /\ match preferences with
                      | Some p =>
                          match topics p with
                          | [] => True
                          | ts => exists c, source_category source = Some c
                                            /\ In c ts
                          end
                      | None => True
                      end)
             /\ (forall row other,
                   In row rows ->
                   In other (joined_rows s (now - timedelta_hours 24)%Z
                                         preferences) ->
                   ~ In other rows ->
                   Qle (Signals.score_of other) (Signals.score_of row))
             /\ Forall (fun sg => String.length (sg_content sg) <= 500)
                       signals
    end.
Proof.
  intros cfg now s prefs. unfold _get_user_signals, max_items_per_briefing.
  destruct (Z.ltb_spec (BRIEFING_NUM_ITEMS cfg) 0) as [Hn|Hn]; [exact Hn|].
  split; [exact Hn|].
  set (all := joined_rows s (now - timedelta_hours 24)%Z prefs).
  rewrite (candidates_cut _ _ Hn).
  exists (firstn (Z.to_nat (BRIEFING_NUM_ITEMS cfg))
                 (order_by_signal_desc all)).
  split; [reflexivity|].
  split.
  { rewrite length_firstn,
      (Permutation_length (SignalsMore.order_perm all)). reflexivity. }
  split; [apply SignalsMore.descending_firstn, SignalsMore.order_sorted|].
  split.
  { intros item score source Hin. apply IngestionMore.in_firstn in Hin.
    apply (Permutation_in _ (SignalsMore.order_perm all)) in Hin.
    apply joined_rows_spec in Hin.
    destruct Hin as [H1 [H2 [H3 [H4 [H5 [H6 [H7 H8]]]]]]]. auto 10. }
  split.
  { intros row other Hrow Hother Hout.
    apply (Permutation_in _ (Permutation_sym (SignalsMore.order_perm all)))
      in Hother.
    rewrite <- (firstn_skipn (Z.to_nat (BRIEFING_NUM_ITEMS cfg))
                             (order_by_signal_desc all)) in Hother.
    apply in_app_or in Hother. destruct Hother as [H|H]; [contradiction|].
    eapply SignalsMore.descending_cut;
      [apply SignalsMore.order_sorted|exact Hrow|exact H]. }
  apply Forall_forall. intros sg Hsg. apply in_map_iff in Hsg.
  destruct Hsg as [row [<- _]]. apply content_bounded.
Qed.

(** ** The rows a briefing writes *)

Lemma link_items_shape bid signals : forall used rank,
  List.length (link_items bid rank signals used) <= List.length used
  /\ Forall (fun r =>
               bi_briefing_id r = bid
               /\ rank <= bi_rank r
               /\ bi_rank r < rank + List.length used
               /\ exists id, bi_raw_item_id r = Some id
                             /\ In (RefItem id) used)
            (link_items bid rank signals used)
  /\ StronglySorted lt (map bi_rank (link_items bid rank signals used)).
Proof.
  induction used as [|ref used IH]; intros rank; cbn [link_items].
  - split; [cbn; lia|]. split; constructor.
  - destruct (IH (S rank)) as [H1 [H2 H3]].
    assert (Hweak :
      Forall (fun r =>
                bi_briefing_id r = bid
                /\ rank <= bi_rank r
                /\ bi_rank r < rank + List.length (ref :: used)
                /\ exists id, bi_raw_item_id r = Some id
                              /\ In (RefItem id) (ref :: used))
             (link_items bid (S rank) signals used)).
    { eapply Forall_impl; [|exact H2].
      intros r [R1 [R2 [R3 [id [R4 R5]]]]]. cbn [List.length].
      split; [exact R1|]. split; [lia|]. split; [lia|].
      exists id. split; [exact R4|now right]. }
    destruct ref as [item_id|text].
    + split; [cbn [List.length]; lia|]. split.
      * constructor; [|exact Hweak].
        cbn [bi_briefing_id bi_rank bi_raw_item_id List.length].
        split; [reflexivity|]. split; [lia|]. split; [lia|].
        exists item_id. split; [reflexivity|now left].
      * cbn [map bi_rank]. constructor; [exact H3|].
        apply Forall_forall. intros k Hk. apply in_map_iff in Hk.
        destruct Hk as [r [<- Hr]].
        rewrite Forall_forall in H2. destruct (H2 r Hr) as [_ [R2 _]]. lia.
    + split; [cbn [List.length]; lia|]. split; [exact Hweak|exact H3].
Qed.

(** X20.  What [generate_for_user] writes.  A run that does not end in
    success leaves the store as it was.  A successful run is for a user
    of the store and appends exactly one briefing, with a fresh id, the
    scope of that user and the period of the 24 hours up to the run; it
    appends the briefing's items, at most [items_included] of them (an
    id that cannot be read is counted in [items_included] and linked to
    nothing), each tied to the new briefing, with a title, pointing to a
    raw item of the store, and with strictly increasing ranks between 1
    and [items_included]; raw items and scores do not change. *)
Theorem generate_for_user_writes_one_briefing :
  forall (cfg : Settings) (llm : LlmEnv) (now : datetime) (s : Store)
         (uid : UUID),
    match snd (generate_for_user cfg llm now s uid) with
    | GenDone bid user included =>
        user = uid /\ bid = next_uuid s
        /\ (exists u, In u (users s) /\ user_id u = uid)
        /\ exists b rows,
             briefings (fst (generate_for_user cfg llm now s uid))
             = briefings s ++ [b]
             /\ briefing_id b = bid
             /\ scope b = ScopeUser uid
             /\ period_start b = (now - timedelta_hours 24)%Z
             /\ period_end b = now
             /\ briefing_items (fst (generate_for_user cfg llm now s uid))
                = briefing_items s ++ rows
             /\ List.length rows <= included
             /\ Forall (fun r =>
                          bi_briefing_id r = bid
                          /\ 1 <= bi_rank r <= included
                          /\ bi_title r <> None
                          /\ exists item,
                               In item (raw_items s)
                               /\ bi_raw_item_id r = Some (raw_id item))
                       rows
             /\ StronglySorted lt (map bi_rank rows)
             /\ raw_items (fst (generate_for_user cfg llm now s uid))
                = raw_items s
             /\ item_scores (fst (generate_for_user cfg llm now s uid))
                = item_scores s
    | GenError _ => fst (generate_for_user cfg llm now s uid) = s
    | GenRaised => fst (generate_for_user cfg llm now s uid) = s
    end.
Proof.
  intros cfg llm now s uid. unfold generate_for_user.
  destruct (find (fun u => Nat.eqb (user_id u) uid) (users s))
    as [user|] eqn:Eu; [|reflexivity].
  destruct (_get_user_signals cfg now s _) as [[|sg sigs]|];
    [reflexivity| |reflexivity].
  set (signals := sg :: sigs).
  set (content := _generate_briefing_content cfg llm now signals).
  cbn [Db.fresh].
  match goal with
  | |- context [forallb (row_accepted ?a) ?b] =>
      set (s2 := a); set (rows := b);
      destruct (forallb (row_accepted s2) rows) eqn:Eacc
  end; [|reflexivity].
  cbn [fst snd].
  apply find_some in Eu. destruct Eu as [Hu Hid]. apply Nat.eqb_eq in Hid.
  split; [reflexivity|]. split; [reflexivity|].
  split; [exists user; auto|].
  destruct (link_items_shape (next_uuid s) signals
              (content_items_used content) 1) as [L1 [L2 L3]].
  fold rows in L1, L2, L3.
  eexists. exists rows.
  split; [reflexivity|]. split; [reflexivity|]. split; [reflexivity|].
  split; [reflexivity|]. split; [reflexivity|]. split; [reflexivity|].
  split; [exact L1|].
  split.
  { rewrite forallb_forall in Eacc. rewrite Forall_forall in L2.
    apply Forall_forall. intros r Hr.
    destruct (L2 r Hr) as [R1 [R2 [R3 [id [R4 _]]]]].
    specialize (Eacc r Hr). unfold row_accepted in Eacc.
    apply andb_true_iff in Eacc. destruct Eacc as [Ht Hfk].
    split; [exact R1|]. split; [lia|].
    split; [destruct (bi_title r); [discriminate|discriminate Ht]|].
    rewrite R4 in Hfk. apply existsb_exists in Hfk.
    destruct Hfk as [item [Hin Hk]]. apply Nat.eqb_eq in Hk.
    exists item. split; [exact Hin|]. rewrite R4, Hk. reflexivity. }
  split; [exact L3|]. split; reflexivity.
Qed.

(** ** The briefing written without a language model *)

Lemma fallback_items_used : forall signals i,
  snd (fallback_items i signals)
  = map (fun sg => RefItem (sg_id sg)) signals.
Proof.
  induction signals as [|sg rest IH]; intros i; cbn [fallback_items map].
  - reflexivity.
  - specialize (IH (S i)).
    destruct (fallback_items (S i) rest) as [lines used].
    cbn [snd] in *. now rewrite IH.
Qed.

Lemma fallback_content_items cfg now signals :
  (0 <= BRIEFING_NUM_ITEMS cfg)%Z ->
  List.length signals <= Z.to_nat (BRIEFING_NUM_ITEMS cfg) ->
  content_items_used (_generate_fallback_briefing cfg now signals)
  = map (fun sg => RefItem (sg_id sg)) signals.
Proof.
  intros Hn Hl. unfold _generate_fallback_briefing, max_items_per_briefing.
  rewrite (slice_to_short _ _ Hn Hl).
  pose proof (fallback_items_used signals 1) as H.
  destruct (fallback_items 1 signals) as [lines used].
  cbn [snd content_items_used] in *. exact H.
Qed.

Lemma link_items_of_signals bid signals : forall l rank,
  map bi_raw_item_id
      (link_items bid rank signals (map (fun sg => RefItem (sg_id sg)) l))
  = map (fun sg => Some (sg_id sg)) l
  /\ map bi_rank
         (link_items bid rank signals (map (fun sg => RefItem (sg_id sg)) l))
     = seq rank (List.length l).
Proof.
  induction l as [|sg l IH]; intros rank; cbn [map link_items List.length seq].
  - split; reflexivity.
  - destruct (IH (S rank)) as [H1 H2].
    cbn [bi_raw_item_id bi_rank]. rewrite H1, H2. split; reflexivity.
Qed.

Lemma find_signal_in (signals : list Signal) id sg :
  find (fun sg => Nat.eqb (sg_id sg) id) signals = Some sg ->
  In sg signals.
Proof. intros H. apply find_some in H. tauto. Qed.

Lemma linked_rows_accepted s bid signals :
  (forall sg, In sg signals -> sg_title sg <> None) ->
  forall l rank,
    (forall sg, In sg l ->
                existsb (fun r => Nat.eqb (raw_id r) (sg_id sg)) (raw_items s)
                = true) ->
    forallb (row_accepted s)
            (link_items bid rank signals
                        (map (fun sg => RefItem (sg_id sg)) l))
    = true.
Proof.
  intros Ht. induction l as [|sg l IH]; intros rank Hfk;
    cbn [map link_items forallb]; [reflexivity|].
  rewrite IH by (intros x Hx; apply Hfk; now right).
  rewrite andb_true_r. unfold row_accepted.
  cbn [bi_title bi_raw_item_id].
  rewrite (Hfk sg (or_introl eq_refl)), andb_true_r.
  destruct (find (fun sg0 => Nat.eqb (sg_id sg0) (sg_id sg)) signals)
    as [sg'|] eqn:Ef; [|reflexivity].
  apply find_signal_in in Ef. specialize (Ht sg' Ef).
  destruct (sg_title sg'); [reflexivity|congruence].
Qed.

Lemma user_signals_facts cfg now s prefs signals :
  _get_user_signals cfg now s prefs = Some signals ->
  (0 <= BRIEFING_NUM_ITEMS cfg)%Z
  /\ List.length signals <= Z.to_nat (BRIEFING_NUM_ITEMS cfg)
  /\ forall sg, In sg signals ->
                existsb (fun r => Nat.eqb (raw_id r) (sg_id sg)) (raw_items s)
                = true.
Proof.
  unfold _get_user_signals, max_items_per_briefing.
  destruct (Z.ltb_spec (BRIEFING_NUM_ITEMS cfg) 0) as [Hn|Hn];
    [discriminate|].
  rewrite (candidates_cut _ _ Hn). intros H. injection H as <-.
  split; [exact Hn|]. split.
  - rewrite length_map, length_firstn. apply Nat.le_min_l.
  - intros sg Hsg. apply in_map_iff in Hsg.
    destruct Hsg as [[[item score] source] [<- Hrow]].
    apply IngestionMore.in_firstn in Hrow.
    apply (Permutation_in _ (SignalsMore.order_perm _)) in Hrow.
    apply joined_rows_spec in Hrow. destruct Hrow as [Hi _].
    apply existsb_exists. exists item. split; [exact Hi|].
    cbn [to_signal sg_id]. apply Nat.eqb_refl.
Qed.

(** X21.  The briefing written without a language model.  For a user of
    the store with at least one candidate and no LLM client, when every
    candidate has a title, [generate_for_user] succeeds, reports as
    [items_included] the number of candidates, and links every candidate,
    in order, at ranks 1, 2, ...; when the best candidate has no title,
    the commit fails and nothing is written. *)
Theorem fallback_briefing_links_every_signal :
  forall (cfg : Settings) (llm : LlmEnv) (now : datetime) (s : Store)
         (uid : UUID) (user : User) (signals : list Signal),
    find (fun u => Nat.eqb (user_id u) uid) (users s) = Some user ->
    _get_user_signals cfg now s
      (find (fun p => Nat.eqb (pref_user_id p) uid) (user_preferences s))
    = Some signals ->
    signals <> [] ->
    llm_client_available llm = false ->
    ((forall sg, In sg signals -> sg_title sg <> None) ->
     snd (generate_for_user cfg llm now s uid)
     = GenDone (next_uuid s) uid (List.length signals)
     /\ exists rows,
          briefing_items (fst (generate_for_user cfg llm now s uid))
          = briefing_items s ++ rows
          /\ map bi_raw_item_id rows
             = map (fun sg => Some (sg_id sg)) signals
          /\ map bi_rank rows = seq 1 (List.length signals))
    /\ ((exists sg, hd_error signals = Some sg /\ sg_title sg = None) ->
        generate_for_user cfg llm now s uid = (s, GenRaised)).
Proof.
  intros cfg llm now s uid user signals Hu Hs Hne Hllm.
  destruct (user_signals_facts _ _ _ _ _ Hs) as [Hn [Hl Hfk]].
  unfold generate_for_user. rewrite Hu, Hs.
  destruct signals as [|sg0 sigs]; [congruence|].
  set (signals := sg0 :: sigs) in *.
  unfold _generate_briefing_content. rewrite Hllm. cbn [negb Db.fresh].
  rewrite (fallback_content_items cfg now signals Hn Hl).
  match goal with
  | |- context [forallb (row_accepted ?a) _] => set (s2 := a)
  end.
  split.
  - intros Ht.
    rewrite (linked_rows_accepted s2 (next_uuid s) signals Ht signals 1 Hfk).
    cbn [fst snd]. rewrite length_map. split; [reflexivity|].
    eexists. split; [reflexivity|].
    exact (link_items_of_signals (next_uuid s) signals signals 1).
  - intros [sg [Hhd Hnone]]. cbn [hd_error signals] in Hhd.
    injection Hhd as <-.
    unfold signals. cbn [map link_items forallb find].
    rewrite Nat.eqb_refl. unfold row_accepted at 1. cbn [bi_title].
    rewrite Hnone. reflexivity.
Qed.

Lemma fallback_briefing_links_every_signal_witness :
  snd (generate_for_user default_settings no_llm Examples.noon
         Examples.scored_store 7)
  = GenDone (next_uuid Examples.scored_store) 7 1.
Proof.
  refine (proj1 (proj1 (fallback_briefing_links_every_signal
                          default_settings no_llm Examples.noon
                          Examples.scored_store 7 Examples.reader
                          (map to_signal
                               [(Examples.article 1 "scored",
                                 Examples.article_score,
                                 Examples.feed_source)])
                          _ _ _ _) _)).
  - reflexivity.
  - vm_compute. reflexivity.
  - discriminate.
  - reflexivity.
  - intros sg [<-|[]]. discriminate.
Defined.

End BriefingMore.

(* ================================================================== *)
(** * Properties of the extractor *)
(* ================================================================== *)

Module ExtractorMore.
Import Extractor Shape.

Lemma _extract_with_trafilatura_spec web html e :
  _extract_with_trafilatura web html = Some e ->
  trafilatura_extract web html = Some (ex_text e)
  /\ ex_text e <> EmptyString
  /\ ex_word_count e = word_count_of (ex_text e)
  /\ ex_method e = "trafilatura"%string
  /\ ex_quality e = 0.9%Q.
Proof.
  unfold _extract_with_trafilatura.
  destruct (trafilatura_extract web html) as [text|]; [|discriminate].
  destruct (String.eqb text EmptyString) eqn:E; [discriminate|].
  intros H. injection H as <-. cbn.
  apply IngestionMore.eqb_false_not_empty in E. auto.
Qed.

Lemma _extract_with_readability_spec web html e :
  _extract_with_readability web html = Some e ->
  readability_text web html = Some (ex_text e)
  /\ ex_text e <> EmptyString
  /\ ex_word_count e = word_count_of (ex_text e)
  /\ ex_method e = "readability"%string
  /\ ex_quality e = 0.7%Q.
Proof.
  unfold _extract_with_readability.
  destruct (readability_text web html) as [text|]; [|discriminate].
  destruct (String.eqb text EmptyString) eqn:E; [discriminate|].
  intros H. injection H as <-. cbn.
  apply IngestionMore.eqb_false_not_empty in E. auto.
Qed.

Lemma trafilatura_short web html :
  match _extract_with_trafilatura web html with
  | Some r => (50 <? ex_word_count r)%nat = false
  | None => True
  end ->
  forall t, trafilatura_extract web html = Some t -> word_count_of t <= 50.
Proof.
  unfold _extract_with_trafilatura. intros H t Ht. rewrite Ht in H.
  destruct (String.eqb t EmptyString) eqn:E.
  - apply String.eqb_eq in E. subst t. cbn. lia.
  - cbn [ex_word_count] in H. apply Nat.ltb_ge in H. exact H.
Qed.

Lemma readability_short web html :
  match _extract_with_readability web html with
  | Some r => (50 <? ex_word_count r)%nat = false
  | None => True
  end ->
  forall t, readability_text web html = Some t -> word_count_of t <= 50.
Proof.
  unfold _extract_with_readability. intros H t Ht. rewrite Ht in H.
  destruct (String.eqb t EmptyString) eqn:E.
  - apply String.eqb_eq in E. subst t. cbn. lia.
  - cbn [ex_word_count] in H. apply Nat.ltb_ge in H. exact H.
Qed.

Lemma extract_word_count web url e :
  extract web url = Some e -> 50 < word_count_of (ex_text e).
Proof.
  unfold extract. destruct (http_get web url) as [err|html]; [discriminate|].
  assert (Hr : forall r,
    match _extract_with_readability web html with
    | Some result' =>
        if (50 <? ex_word_count result')%nat then Some result' else None
    | None => None
    end = Some r -> 50 < word_count_of (ex_text r)).
  { intros r.
    destruct (_extract_with_readability web html) as [r'|] eqn:Er;
      [|discriminate].
    destruct (50 <? ex_word_count r')%nat eqn:Ew; [|discriminate].
    intros H. injection H as <-. apply Nat.ltb_lt in Ew.
    destruct (_extract_with_readability_spec _ _ _ Er) as [_ [_ [E _]]].
    rewrite <- E. exact Ew. }
  destruct (_extract_with_trafilatura web html) as [r|] eqn:Et.
  - destruct (50 <? ex_word_count r)%nat eqn:Ew.
    + intros H. injection H as <-. apply Nat.ltb_lt in Ew.
      destruct (_extract_with_trafilatura_spec _ _ _ Et) as [_ [_ [E _]]].
      rewrite <- E. exact Ew.
    + apply Hr.
  - apply Hr.
Qed.

(** X22.  What [extract] accepts.  A result always has more than 50
    words, counted on its own non-empty text.  It is the text of
    trafilatura, with quality 0.9, whenever that text has more than 50
    words; otherwise the text of readability, with quality 0.7, if that
    one has more than 50 words.  [extract] returns nothing exactly when
    the page cannot be fetched or neither library yields more than 50
    words. *)
Theorem extract_needs_more_than_50_words :
  forall (web : Web) (url : string),
    match extract web url with
    | Some e =>
        50 < ex_word_count e
        /\ ex_word_count e = word_count_of (ex_text e)
        /\ ex_text e <> EmptyString
        /\ exists html,
             http_get web url = Ingestion.HttpOk html
             /\ ((ex_method e = "trafilatura"%string
                  /\ ex_quality e = 0.9%Q
                  /\ trafilatura_extract web html = Some (ex_text e))
                 \/ (ex_method e = "readability"%string
                     /\ ex_quality e = 0.7%Q
                     /\ readability_text web html = Some (ex_text e)
                     /\ forall t, trafilatura_extract web html = Some t ->
                                  word_count_of t <= 50))
    | None =>
        forall html,
          http_get web url = Ingestion.HttpOk html ->
          (forall t, trafilatura_extract web html = Some t ->
                     word_count_of t <= 50)
          /\ (forall t, readability_text web html = Some t ->
                        word_count_of t <= 50)
    end.
Proof.
  intros web url. unfold extract.
  destruct (http_get web url) as [err|html];
    [intros html E; discriminate E|].
  pose proof (trafilatura_short web html) as Ts.
  pose proof (readability_short web html) as Rs.
  pose proof (_extract_with_trafilatura_spec web html) as Tspec.
  pose proof (_extract_with_readability_spec web html) as Rspec.
  assert (Hread : forall e,
    _extract_with_readability web html = Some e ->
    (50 <? ex_word_count e)%nat = true ->
    (forall t, trafilatura_extract web html = Some t ->
               word_count_of t <= 50) ->
    50 < ex_word_count e
    /\ ex_word_count e = word_count_of (ex_text e)
    /\ ex_text e <> EmptyString
    /\ exists html0,
         Ingestion.HttpOk html = Ingestion.HttpOk html0
         /\ ((ex_method e = "trafilatura"%string
              /\ ex_quality e = 0.9%Q
              /\ trafilatura_extract web html0 = Some (ex_text e))
             \/ (ex_method e = "readability"%string
                 /\ ex_quality e = 0.7%Q
                 /\ readability_text web html0 = Some (ex_text e)
                 /\ forall t, trafilatura_extract web html0 = Some t ->
                              word_count_of t <= 50))).
  { intros e He Hw Hshort. apply Nat.ltb_lt in Hw.
    destruct (Rspec e He) as [R1 [R2 [R3 [R4 R5]]]].
    split; [exact Hw|]. split; [exact R3|]. split; [exact R2|].
    exists html. split; [reflexivity|]. right. auto. }
  destruct (_extract_with_trafilatura web html) as [r|] eqn:Et.
  - destruct (50 <? ex_word_count r)%nat eqn:Ew.
    + apply Nat.ltb_lt in Ew.
      destruct (Tspec r eq_refl) as [T1 [T2 [T3 [T4 T5]]]].
      split; [exact Ew|]. split; [exact T3|]. split; [exact T2|].
      exists html. split; [reflexivity|]. left. auto.
    + specialize (Ts eq_refl).
      destruct (_extract_with_readability web html) as [r'|] eqn:Er.
      * destruct (50 <? ex_word_count r')%nat eqn:Ew'.
        -- exact (Hread r' eq_refl Ew' Ts).
        -- intros html0 E. injection E as <-. split; [exact Ts|].
           exact (Rs eq_refl).
      * intros html0 E. injection E as <-. split; [exact Ts|].
        exact (Rs I).
  - specialize (Ts I).
    destruct (_extract_with_readability web html) as [r'|] eqn:Er.
    + destruct (50 <? ex_word_count r')%nat eqn:Ew'.
      * exact (Hread r' eq_refl Ew' Ts).
      * intros html0 E. injection E as <-. split; [exact Ts|].
        exact (Rs eq_refl).
    + intros html0 E. injection E as <-. split; [exact Ts|].
      exact (Rs I).
Qed.

(** ** The extraction pass *)

Lemma update_status_sets id s r :
  In r (raw_items (Db.update_status id "extracted" s)) ->
  (raw_id r = id /\ raw_status r = "extracted"%string)
  \/ (raw_id r <> id /\ In r (raw_items s)).
Proof.
  unfold Db.update_status. cbn [raw_items Db.set_raw_items].
  intros H. apply in_map_iff in H. destruct H as [r0 [E Hin]].
  destruct (Nat.eqb (raw_id r0) id) eqn:Eid.
  - left. subst r. apply Nat.eqb_eq in Eid. split; [exact Eid|reflexivity].
  - right. subst r. apply Nat.eqb_neq in Eid. auto.
Qed.

Lemma extract_fold web : forall items s st,
  NoDup (map raw_id items) ->
  (forall item, In item items -> has_content s (raw_id item) = false) ->
  exists s' st' added,
    fold_left (extract_step web) items (Some (s, st)) = Some (s', st')
    /\ extracted_content s' = extracted_content s ++ added
    /\ x_extracted st' = x_extracted st + List.length added
    /\ x_items_processed st' = x_items_processed st + List.length items
    /\ x_failed st' + x_skipped st' + List.length added
       = x_failed st + x_skipped st + List.length items
    /\ Forall (fun e => (exists item, In item items
                                      /\ ec_raw_item_id e = raw_id item
                                      /\ Py.truthy (raw_url item) = true)
                        /\ 50 < word_count_of (ec_text e)) added
    /\ same_up_to_status (raw_items s) (raw_items s')
    /\ (forall r, In r (raw_items s') ->
                  (exists item, In item items /\ raw_id item = raw_id r) ->
                  raw_status r = "extracted"%string)
    /\ (forall r, In r (raw_items s') ->
                  raw_status r = "extracted"%string \/ In r (raw_items s))
    /\ item_embeddings s' = item_embeddings s
    /\ item_scores s' = item_scores s
    /\ cluster_members s' = cluster_members s.
Proof.
  induction items as [|item items IH]; intros s st Hnd Hfree.
  - exists s, st, []. cbn [fold_left List.length].
    rewrite app_nil_r, !Nat.add_0_r.
    split; [reflexivity|]. split; [reflexivity|]. split; [reflexivity|].
    split; [reflexivity|]. split; [reflexivity|]. split; [constructor|].
    split; [reflexivity|].
    split; [intros r _ [it [[] _]]|].
    split; [intros r Hr; now right|]. auto.
  - cbn [map] in Hnd. apply NoDup_cons_iff in Hnd.
    destruct Hnd as [Hnew Hnd].
    assert (Hstep : exists s1 st1 added1,
      extract_step web (Some (s, st)) item = Some (s1, st1)
      /\ extracted_content s1 = extracted_content s ++ added1
      /\ x_extracted st1 = x_extracted st + List.length added1
      /\ x_items_processed st1 = S (x_items_processed st)
      /\ x_failed st1 + x_skipped st1 + List.length added1
         = S (x_failed st + x_skipped st)
      /\ Forall (fun e => ec_raw_item_id e = raw_id item
                          /\ Py.truthy (raw_url item) = true
                          /\ 50 < word_count_of (ec_text e)) added1
      /\ raw_items s1
         = raw_items (Db.update_status (raw_id item) "extracted" s)
      /\ item_embeddings s1 = item_embeddings s
      /\ item_scores s1 = item_scores s
      /\ cluster_members s1 = cluster_members s).
    { unfold extract_step.
      destruct (Py.truthy (raw_url item)) eqn:Eurl; cbn [negb].
      - destruct (extract web (Ingestion.or_empty (raw_url item)))
          as [e|] eqn:Ee.
        + rewrite (Hfree item (or_introl eq_refl)).
          eexists. eexists.
          exists [{| ec_raw_item_id := raw_id item; ec_text := ex_text e |}].
          split; [reflexivity|].
          cbn [x_extracted x_items_processed x_failed x_skipped List.length].
          split; [reflexivity|]. split; [lia|]. split; [reflexivity|].
          split; [lia|].
          split.
          { constructor; [|constructor]. cbn [ec_raw_item_id ec_text].
            split; [reflexivity|]. split; [reflexivity|].
            exact (extract_word_count _ _ _ Ee). }
          split; [reflexivity|]. split; [reflexivity|].
          split; reflexivity.
        + eexists. eexists. exists [].
          split; [reflexivity|].
          cbn [x_extracted x_items_processed x_failed x_skipped List.length].
          rewrite app_nil_r.
          split; [reflexivity|]. split; [lia|]. split; [reflexivity|].
          split; [lia|]. split; [constructor|].
          split; [reflexivity|]. split; [reflexivity|]. split; reflexivity.
      - eexists. eexists. exists [].
        split; [reflexivity|].
        cbn [x_extracted x_items_processed x_failed x_skipped List.length].
        rewrite app_nil_r.
        split; [reflexivity|]. split; [lia|]. split; [reflexivity|].
        split; [lia|]. split; [constructor|].
        split; [reflexivity|]. split; [reflexivity|]. split; reflexivity. }
    destruct Hstep
      as [s1 [st1 [added1 [S0 [S1 [S2 [S3 [S4 [S5 [S6 [S7 [S8 S9]]]]]]]]]]]].
    assert (Hfree1 : forall it, In it items ->
                                has_content s1 (raw_id it) = false).
    { intros it Hit. unfold has_content. rewrite S1, existsb_app.
      fold (has_content s (raw_id it)).
      rewrite (Hfree it (or_intror Hit)). cbn [orb].
      apply not_true_is_false. intros Hex. apply existsb_exists in Hex.
      destruct Hex as [e [He Hid]]. apply Nat.eqb_eq in Hid.
      rewrite Forall_forall in S5. destruct (S5 e He) as [E _].
      apply Hnew. apply in_map_iff. exists it. split; [congruence|exact Hit]. }
    destruct (IH s1 st1 Hnd Hfree1)
      as [s' [st' [added [H0 [H1 [H2 [H3 [H4 [H5 [H6 [H7 [H8
            [H9 [H10 H11]]]]]]]]]]]]]].
    exists s', st', (added1 ++ added).
    cbn [fold_left]. rewrite S0.
    split; [exact H0|].
    split; [rewrite H1, S1, app_assoc; reflexivity|].
    rewrite length_app. cbn [List.length].
    split; [lia|]. split; [lia|]. split; [lia|].
    split.
    { apply Forall_app. split.
      - eapply Forall_impl; [|exact S5]. intros e [E1 [E2 E3]].
        split; [|exact E3]. exists item. split; [now left|]. auto.
      - eapply Forall_impl; [|exact H5]. intros e [[it [Hit E1]] E3].
        split; [|exact E3]. exists it. split; [now right|exact E1]. }
    assert (Hs1 : same_up_to_status (raw_items s) (raw_items s1)).
    { rewrite S6. apply ScoringMore.update_status_same_up_to_status. }
    split; [eapply ScoringMore.same_up_to_status_trans; eassumption|].
    split.
    { intros r Hr [it [[<-|Hit] Hid]].
      - destruct (H8 r Hr) as [Hx|Hin]; [exact Hx|].
        rewrite S6 in Hin. apply update_status_sets in Hin.
        destruct Hin as [[_ Hx]|[Hne _]]; [exact Hx|congruence].
      - apply (H7 r Hr). exists it. auto. }
    split.
    { intros r Hr. destruct (H8 r Hr) as [Hx|Hin]; [now left|].
      rewrite S6 in Hin. apply update_status_sets in Hin.
      destruct Hin as [[_ Hx]|[_ Hin]]; [now left|now right]. }
    split; [congruence|]. split; congruence.
Qed.

(** X23.  The extraction pass moves every item it takes to
    ["extracted"], whether or not a text could be extracted.  When the
    ids of the items with status ["new"] are distinct and none of them
    has a content row yet, [extract_all_pending] returns; it takes at
    most [limit] items; [items_processed = extracted + failed +
    skipped]; it appends exactly [extracted] content rows, each for a
    taken item that has a link and each with a text of more than 50
    words; every row of a taken item ends with status ["extracted"], so
    an item whose extraction failed or that has no link is not taken
    again; the other rows keep their status, and embeddings, scores and
    memberships do not change. *)
Theorem extract_all_pending_moves_every_item_on :
  forall (web : Web) (limit : nat) (s : Store),
    NoDup (map raw_id (pending_items limit s)) ->
    (forall item, In item (pending_items limit s) ->
                  has_content s (raw_id item) = false) ->
    exists s' stats added,
      extract_all_pending web limit s = Some (s', stats)
      /\ x_items_processed stats = List.length (pending_items limit s)
      /\ x_items_processed stats <= limit
      /\ x_items_processed stats
         = x_extracted stats + x_failed stats + x_skipped stats
      /\ extracted_content s' = extracted_content s ++ added
      /\ List.length added = x_extracted stats
      /\ Forall (fun e => (exists item,
                             In item (pending_items limit s)
                             /\ ec_raw_item_id e = raw_id item
                             /\ Py.truthy (raw_url item) = true)
                          /\ 50 < word_count_of (ec_text e)) added
      /\ same_up_to_status (raw_items s) (raw_items s')
      /\ (forall r, In r (raw_items s') ->
                    (exists item, In item (pending_items limit s)
                                  /\ raw_id item = raw_id r) ->
                    raw_status r = "extracted"%string)
      /\ (forall r, In r (raw_items s') ->
                    raw_status r = "extracted"%string \/ In r (raw_items s))
      /\ item_embeddings s' = item_embeddings s
      /\ item_scores s' = item_scores s
      /\ cluster_members s' = cluster_members s.
Proof.
  intros web limit s Hnd Hfree. unfold extract_all_pending.
  destruct (extract_fold web (pending_items limit s) s
              {| x_items_processed := 0; x_extracted := 0;
                 x_failed := 0; x_skipped := 0 |} Hnd Hfree)
    as [s' [st' [added [H0 [H1 [H2 [H3 [H4 [H5 [H6 [H7 [H8
          [H9 [H10 H11]]]]]]]]]]]]]].
  cbn [x_items_processed x_extracted x_failed x_skipped] in H2, H3, H4.
  assert (Hlen : List.length (pending_items limit s) <= limit)
    by (unfold pending_items; apply firstn_le_length).
  exists s', st', added.
  split; [exact H0|]. split; [lia|]. split; [lia|]. split; [lia|].
  split; [exact H1|]. split; [lia|]. split; [exact H5|].
  split; [exact H6|]. split; [exact H7|]. split; [exact H8|]. auto.
Qed.

Lemma extract_all_pending_moves_every_item_on_witness :
  exists s' stats,
    extract_all_pending MoreExamples.dead_web 100 MoreExamples.new_store
    = Some (s', stats)
    /\ x_items_processed stats = 1.
Proof.
  destruct (extract_all_pending_moves_every_item_on
              MoreExamples.dead_web 100 MoreExamples.new_store)
    as [s' [stats [added [H0 [H1 _]]]]].
  - vm_compute. constructor; [intros []|constructor].
  - intros item [<-|[]]. reflexivity.
  - exists s', stats. split; [exact H0|]. rewrite H1. reflexivity.
Defined.

End ExtractorMore.
